(** * geoglows.streamflow: response normalisation and chart composition

    A shallow embedding of [src/geoglows/streamflow.py]: the transport helper
    [_make_request], the endpoint wrappers built on it, [reach_to_region] and
    [latlon_to_region], the seven chart builders, [probabilities_table] and
    the plotting helpers [__build_title] and [__rperiod_shapes].

    Conventions of the embedding.
    - A Python float is a [cell]: either [NaN] or an exact rational [Num q].
      Rounding of binary64 arithmetic is not modelled; comparisons with [NaN]
      are false, as in Python.
    - A raised exception is a value [Raise e] of the [result] type and
      propagates through [bind].
    - A [pandas.DataFrame] is kept row-major: its column names and, for each
      row, the index label and the cells of that row.
    - Library code (pandas, scipy, plotly, requests) is modelled from its
      documented behaviour, each at the place where the source calls it. *)

From Stdlib Require Import ZArith QArith Qround List String Ascii Bool Lia Lqa.
From Stdlib Require Import DecimalString Permutation Sorted.
Import ListNotations.

Set Implicit Arguments.

(** ** Python exceptions and results *)

Inductive exn : Type :=
| ValueError (msg : string)
| KeyError (key : string)
| IndexError
| TypeError
| AttributeError.

Inductive result (A : Type) : Type :=
| Ok (a : A)
| Raise (e : exn).

Arguments Ok {A} a.
Arguments Raise {A} e.

Definition bind {A B : Type} (m : result A) (k : A -> result B) : result B :=
  match m with
  | Ok a => k a
  | Raise e => Raise e
  end.

Declare Scope py_scope.
Delimit Scope py_scope with py.
Notation "x <- m ;; k" := (bind m (fun x => k))
  (at level 100, m at next level, right associativity) : py_scope.
Open Scope py_scope.

(** ** Python scalars used as keyword arguments *)

Inductive pyval : Type :=
| PyNone
| PyInt (z : Z)
| PyStr (s : string).

(** [bool(v)]: [None], [0] and the empty string are falsy. *)
Definition truthy (v : pyval) : bool :=
  match v with
  | PyNone => false
  | PyInt z => negb (z =? 0)%Z
  | PyStr s => negb (s =? "")%string
  end.

(** [str(v)]. *)
Definition str (v : pyval) : string :=
  match v with
  | PyNone => "None"
  | PyInt z => NilZero.string_of_int (Z.to_int z)
  | PyStr s => s
  end.

Definition pyval_eqb (a b : pyval) : bool :=
  match a, b with
  | PyNone, PyNone => true
  | PyInt x, PyInt y => (x =? y)%Z
  | PyStr s, PyStr t => (s =? t)%string
  | _, _ => false
  end.

(** [kwargs.get(key, default)] on the keyword dictionary. *)
Fixpoint kwargs_get (kwargs : list (string * pyval)) (key : string)
  (default : pyval) : pyval :=
  match kwargs with
  | [] => default
  | (k, v) :: rest =>
      if (k =? key)%string then v else kwargs_get rest key default
  end.

(** ** Floats, index labels, series and data frames *)

Inductive cell : Type :=
| NaN
| Num (q : Q).

(** [a > b] on floats; false as soon as one side is [NaN]. *)
Definition cell_gt (a b : cell) : bool :=
  match a, b with
  | Num x, Num y => negb (Qle_bool x y)
  | _, _ => false
  end.

Definition isna (c : cell) : bool :=
  match c with
  | NaN => true
  | Num _ => false
  end.

(** [k * c] for a float literal [k]. *)
Definition cell_scale (k : Q) (c : cell) : cell :=
  match c with
  | NaN => NaN
  | Num q => Num (k * q)
  end.

(** An index label: a timestamp in seconds since 1970-01-01 00:00:00, a text
    label, or an integer identifier (stream id, day of year). *)
Inductive label : Type :=
| Stamp (t : Z)
| Text (s : string)
| Ident (z : Z).

(** [a < b] on labels; comparing labels of different kinds is a [TypeError]. *)
Definition label_lt (a b : label) : result bool :=
  match a, b with
  | Stamp x, Stamp y => Ok (x <? y)%Z
  | Ident x, Ident y => Ok (x <? y)%Z
  | Text s, Text t => Ok (String.ltb s t)
  | _, _ => Raise TypeError
  end.

(** Python's two-argument [min(a, b)] and [max(a, b)]: the first argument is
    kept unless the second is strictly smaller (greater). *)
Definition py_min2 (a b : label) : result label :=
  lt <- label_lt b a ;; Ok (if lt then b else a).

Definition py_max2 (a b : label) : result label :=
  gt <- label_lt a b ;; Ok (if gt then b else a).

(** A [pandas.Series]: the values of one column with their index labels. *)
Definition Series : Type := list (label * cell).

Definition dropna (s : Series) : Series :=
  filter (fun p => negb (isna (snd p))) s.

Definition series_index (s : Series) : list label := map fst s.
Definition tolist (s : Series) : list cell := map snd s.

Record DataFrame : Type := {
  columns : list string;
  rows : list (label * list cell)
}.

Definition index (df : DataFrame) : list label := map fst (rows df).

(** [len(df)]: the number of rows. *)
Definition len (df : DataFrame) : nat := List.length (rows df).

Fixpoint position (name : string) (names : list string) : option nat :=
  match names with
  | [] => None
  | n :: rest =>
      if (n =? name)%string then Some 0%nat
      else option_map S (position name rest)
  end.

(** The column at position [j]; a row that is too short reads as [NaN], the
    way [read_csv] pads it. *)
Definition column_at (df : DataFrame) (j : nat) : Series :=
  map (fun r => (fst r, nth j (snd r) NaN)) (rows df).

(** [df[name]]. *)
Definition getitem (df : DataFrame) (name : string) : result Series :=
  match position name (columns df) with
  | Some j => Ok (column_at df j)
  | None => Raise (KeyError name)
  end.

(** [l[0]] and [l[-1]] on a Python list. *)
Definition first {A : Type} (l : list A) : result A :=
  match l with
  | [] => Raise IndexError
  | x :: _ => Ok x
  end.

Definition last_item {A : Type} (l : list A) : result A :=
  first (rev l).

(** Python's [max(iterable)]: the running maximum is replaced only by an item
    that compares strictly greater, so a [NaN] is skipped unless it comes
    first. *)
Fixpoint max_from (cur : cell) (l : list cell) : cell :=
  match l with
  | [] => cur
  | x :: rest => max_from (if cell_gt x cur then x else cur) rest
  end.

Definition py_max (l : list cell) : result cell :=
  match l with
  | [] => Raise (ValueError "max() arg is an empty sequence")
  | x :: rest => Ok (max_from x rest)
  end.

(** A value handed to plotly: a scalar float or a whole column. *)
Inductive value : Type :=
| Scalar (c : cell)
| Column (s : Series).

Definition value_scale (k : Q) (v : value) : value :=
  match v with
  | Scalar c => Scalar (cell_scale k c)
  | Column s => Column (map (fun p => (fst p, cell_scale k (snd p))) s)
  end.

(** ** Plotting auxiliary functions *)

Definition __build_title (base : string) (reach_id drain_area : pyval) : string :=
  let base :=
    if truthy reach_id then (base ++ "<br>Stream ID: " ++ str reach_id)%string
    else base in
  let base :=
    if truthy drain_area
    then (base ++ "<br>Upstream Drainage Area: " ++ str drain_area)%string
    else base in
  base.

(** [go.layout.Shape]. *)
Record Shape : Type := {
  shape_type : string;
  x0 : label;
  x1 : label;
  y0 : value;
  y1 : value;
  line_width : Z;
  opacity : Q;
  fillcolor : string
}.

Definition __rperiod_shapes (startdate enddate : label) (r2 r10 r20 y_max : value)
  : list Shape :=
  [ {| shape_type := "rect"; x0 := startdate; x1 := enddate;
       y0 := r2; y1 := r10;
       line_width := 0; opacity := 4 # 10; fillcolor := "yellow" |};
    {| shape_type := "rect"; x0 := startdate; x1 := enddate;
       y0 := r10; y1 := r20;
       line_width := 0; opacity := 4 # 10; fillcolor := "red" |};
    {| shape_type := "rect"; x0 := startdate; x1 := enddate;
       y0 := r20; y1 := value_scale (12 # 10) y_max;
       line_width := 0; opacity := 4 # 10; fillcolor := "purple" |} ].

(** ** Chart descriptions *)

(** Table arguments are not typed in Python: a caller may pass a data frame or
    anything else. *)
Inductive pyarg : Type :=
| Frame (df : DataFrame)
| Other (v : pyval).

(** [arg.index.tolist()] and [arg[name]] on an argument nobody type-checked. *)
Definition arg_index (a : pyarg) : result (list label) :=
  match a with
  | Frame df => Ok (index df)
  | Other _ => Raise AttributeError
  end.

Definition arg_getitem (a : pyarg) (name : string) : result Series :=
  match a with
  | Frame df => getitem df name
  | Other _ => Raise TypeError
  end.

Inductive key : Type :=
| KStr (s : string)
| KInt (z : Z).

Definition key_eqb (a b : key) : bool :=
  match a, b with
  | KStr s, KStr t => (s =? t)%string
  | KInt x, KInt y => (x =? y)%Z
  | _, _ => false
  end.

(** What a [plot_data] dictionary and a trace may hold. *)
Inductive item : Type :=
| IVal (v : pyval)
| ILabels (l : list label)
| IFlows (l : list cell)
| INum (c : cell)
| ISeries (s : Series)
| IProbs (l : list Q).

(** A Python dictionary, in insertion order. *)
Definition dict : Type := list (key * item).

Fixpoint dict_set (d : dict) (k : key) (v : item) : dict :=
  match d with
  | [] => [(k, v)]
  | (k', v') :: rest =>
      if key_eqb k' k then (k', v) :: rest else (k', v') :: dict_set rest k v
  end.

Fixpoint dict_get (d : dict) (k : key) : option item :=
  match d with
  | [] => None
  | (k', v) :: rest => if key_eqb k' k then Some v else dict_get rest k
  end.

(** [go.Scatter]: the trace name and its two coordinate sequences (colours
    and fill modes are presentation only and left out). *)
Record Scatter : Type := {
  name : string;
  x : item;
  y : item
}.

(** [go.Layout]; a layout built without [shapes] has none. *)
Record Layout : Type := {
  title : string;
  xaxis_title : string;
  yaxis_title : string;
  yaxis_range : cell * cell;
  shapes : list Shape
}.

Record Figure : Type := {
  data : list Scatter;
  layout : Layout
}.

(** What a chart builder returns: the dictionary, the figure, the [div]
    rendered from the figure by [offline_plot], or [None]. *)
Inductive output : Type :=
| Json (d : dict)
| Plotly (f : Figure)
| PlotlyHtml (f : Figure)
| NoOutput.

Definition outformats : list pyval :=
  [PyStr "json"; PyStr "plotly"; PyStr "plotly_html"].

(** [outformat in ['json', 'plotly', 'plotly_html']]. *)
Definition outformat_ok (outformat : pyval) : bool :=
  existsb (pyval_eqb outformat) outformats.

Definition not_a_dataframe : exn :=
  ValueError "Sorry, I only process pandas dataframes right now".

Definition invalid_outformat : exn :=
  ValueError "invalid outformat specified. pick json or html".

Definition invalid_outformat_long : exn :=
  ValueError "invalid outformat specified. pick json or plotly or plotly_html".

(** The tail every builder ends with, once the figure is built. *)
Definition emit (outformat : pyval) (figure : Figure) : output :=
  if pyval_eqb outformat (PyStr "plotly") then Plotly figure
  else if pyval_eqb outformat (PyStr "plotly_html") then PlotlyHtml figure
  else NoOutput.

Definition y_title : string := "Streamflow (m<sup>3</sup>/s)".

Definition hydroviewer_plot (records stats rperiods : pyarg)
  (kwargs : list (string * pyval)) : result output :=
  let reach_id := kwargs_get kwargs "reach_id" PyNone in
  let drain_area := kwargs_get kwargs "drain_area" PyNone in
  let outformat := kwargs_get kwargs "outformat" (PyStr "plotly") in
  match records with
  | Other _ => Raise not_a_dataframe
  | Frame records =>
      if negb (outformat_ok outformat) then Raise invalid_outformat else
      let records_dates := index records in
      dates <- arg_index stats ;;
      r0 <- first records_dates ;;
      d0 <- first dates ;;
      startdate <- py_min2 r0 d0 ;;
      r1 <- last_item records_dates ;;
      d1 <- last_item dates ;;
      enddate <- py_max2 r1 d1 ;;
      x_ensembles <- arg_getitem stats "mean (m^3/s)" ;;
      x_hires <- arg_getitem stats "mean (m^3/s)" ;;
      recorded <- getitem records "streamflow (m^3/s)" ;;
      smax <- arg_getitem stats "max (m^3/s)" ;;
      y_max <- py_max (tolist smax) ;;
      min_ <- arg_getitem stats "min (m^3/s)" ;;
      mean_ <- arg_getitem stats "mean (m^3/s)" ;;
      max_ <- arg_getitem stats "max (m^3/s)" ;;
      stdlow <- arg_getitem stats "std_dev_range_lower (m^3/s)" ;;
      stdup <- arg_getitem stats "std_dev_range_upper (m^3/s)" ;;
      hires <- arg_getitem stats "high_res (m^3/s)" ;;
      r2 <- arg_getitem rperiods "return_period_2" ;;
      r10 <- arg_getitem rperiods "return_period_10" ;;
      r20 <- arg_getitem rperiods "return_period_20" ;;
      let x_ensembles := ILabels (series_index (dropna x_ensembles)) in
      let x_hires := ILabels (series_index (dropna x_hires)) in
      let x_records := ILabels records_dates in
      let recorded_flows := IFlows (tolist (dropna recorded)) in
      let min_ := IFlows (tolist (dropna min_)) in
      let mean_ := IFlows (tolist (dropna mean_)) in
      let max_ := IFlows (tolist (dropna max_)) in
      let stdlow := IFlows (tolist (dropna stdlow)) in
      let stdup := IFlows (tolist (dropna stdup)) in
      let hires := IFlows (tolist (dropna hires)) in
      let plot_data :=
        [ (KStr "reach_id", IVal reach_id);
          (KStr "drain_area", IVal drain_area);
          (KStr "x_ensembles", x_ensembles);
          (KStr "x_hires", x_hires);
          (KStr "x_records", x_records);
          (KStr "recorded_flows", recorded_flows);
          (KStr "y_max", INum y_max);
          (KStr "min", min_);
          (KStr "mean", mean_);
          (KStr "max", max_);
          (KStr "stdlow", stdlow);
          (KStr "stdup", stdup);
          (KStr "hires", hires);
          (KStr "r2", ISeries r2);
          (KStr "r10", ISeries r10);
          (KStr "r20", ISeries r20) ] in
      if pyval_eqb outformat (PyStr "json") then Ok (Json plot_data) else
      let recorded_flows :=
        {| name := "1st day forecasted flows"; x := x_records; y := recorded_flows |} in
      let meanplot := {| name := "Mean"; x := x_ensembles; y := mean_ |} in
      let maxplot := {| name := "Max"; x := x_ensembles; y := max_ |} in
      let minplot := {| name := "Min"; x := x_ensembles; y := min_ |} in
      let stdlowplot := {| name := "Std. Dev. Lower"; x := x_ensembles; y := stdlow |} in
      let stdupplot := {| name := "Std. Dev. Upper"; x := x_ensembles; y := stdup |} in
      let hires := {| name := "Higher Resolution"; x := x_hires; y := hires |} in
      let layout :=
        {| title := __build_title "Forecasted Streamflow" reach_id drain_area;
           xaxis_title := "Date";
           yaxis_title := y_title;
           yaxis_range := (Num 0, cell_scale (12 # 10) y_max);
           shapes := __rperiod_shapes startdate enddate
                       (Column r2) (Column r10) (Column r20) (Scalar y_max) |} in
      let figure :=
        {| data := [recorded_flows; minplot; stdlowplot; stdupplot; maxplot;
                    meanplot; hires];
           layout := layout |} in
      Ok (emit outformat figure)
  end.

Definition forecast_plot (stats rperiods : pyarg)
  (kwargs : list (string * pyval)) : result output :=
  let reach_id := kwargs_get kwargs "reach_id" PyNone in
  let drain_area := kwargs_get kwargs "drain_area" PyNone in
  let outformat := kwargs_get kwargs "outformat" (PyStr "plotly") in
  match stats with
  | Other _ => Raise not_a_dataframe
  | Frame stats =>
      if negb (outformat_ok outformat) then Raise invalid_outformat else
      let dates := index stats in
      startdate <- first dates ;;
      enddate <- last_item dates ;;
      x_ensembles <- getitem stats "mean (m^3/s)" ;;
      x_hires <- getitem stats "mean (m^3/s)" ;;
      smax <- getitem stats "max (m^3/s)" ;;
      y_max <- py_max (tolist smax) ;;
      min_ <- getitem stats "min (m^3/s)" ;;
      mean_ <- getitem stats "mean (m^3/s)" ;;
      max_ <- getitem stats "max (m^3/s)" ;;
      stdlow <- getitem stats "std_dev_range_lower (m^3/s)" ;;
      stdup <- getitem stats "std_dev_range_upper (m^3/s)" ;;
      hires <- getitem stats "high_res (m^3/s)" ;;
      r2 <- arg_getitem rperiods "return_period_2" ;;
      r10 <- arg_getitem rperiods "return_period_10" ;;
      r20 <- arg_getitem rperiods "return_period_20" ;;
      let x_ensembles := ILabels (series_index (dropna x_ensembles)) in
      let x_hires := ILabels (series_index (dropna x_hires)) in
      let min_ := IFlows (tolist (dropna min_)) in
      let mean_ := IFlows (tolist (dropna mean_)) in
      let max_ := IFlows (tolist (dropna max_)) in
      let stdlow := IFlows (tolist (dropna stdlow)) in
      let stdup := IFlows (tolist (dropna stdup)) in
      let hires := IFlows (tolist (dropna hires)) in
      let plot_data :=
        [ (KStr "reach_id", IVal reach_id);
          (KStr "drain_area", IVal drain_area);
          (KStr "x_ensembles", x_ensembles);
          (KStr "x_hires", x_hires);
          (KStr "y_max", INum y_max);
          (KStr "min", min_);
          (KStr "mean", mean_);
          (KStr "max", max_);
          (KStr "stdlow", stdlow);
          (KStr "stdup", stdup);
          (KStr "hires", hires);
          (KStr "r2", ISeries r2);
          (KStr "r10", ISeries r10);
          (KStr "r20", ISeries r20) ] in
      if pyval_eqb outformat (PyStr "json") then Ok (Json plot_data) else
      let meanplot := {| name := "Mean"; x := x_ensembles; y := mean_ |} in
      let maxplot := {| name := "Max"; x := x_ensembles; y := max_ |} in
      let minplot := {| name := "Min"; x := x_ensembles; y := min_ |} in
      let stdlowplot := {| name := "Std. Dev. Lower"; x := x_ensembles; y := stdlow |} in
      let stdupplot := {| name := "Std. Dev. Upper"; x := x_ensembles; y := stdup |} in
      let hires := {| name := "Higher Resolution"; x := x_hires; y := hires |} in
      let layout :=
        {| title := __build_title "Forecasted Streamflow" reach_id drain_area;
           xaxis_title := "Date";
           yaxis_title := y_title;
           yaxis_range := (Num 0, cell_scale (12 # 10) y_max);
           shapes := __rperiod_shapes startdate enddate
                       (Column r2) (Column r10) (Column r20) (Scalar y_max) |} in
      let figure :=
        {| data := [minplot; stdlowplot; stdupplot; maxplot; meanplot; hires];
           layout := layout |} in
      Ok (emit outformat figure)
  end.

Definition record_plot (records rperiods : pyarg)
  (kwargs : list (string * pyval)) : result output :=
  let reach_id := kwargs_get kwargs "reach_id" PyNone in
  let drain_area := kwargs_get kwargs "drain_area" PyNone in
  let outformat := kwargs_get kwargs "outformat" (PyStr "plotly") in
  match records with
  | Other _ => Raise not_a_dataframe
  | Frame records =>
      if negb (outformat_ok outformat) then Raise invalid_outformat else
      let dates := index records in
      startdate <- first dates ;;
      enddate <- last_item dates ;;
      recorded <- getitem records "streamflow (m^3/s)" ;;
      flows <- getitem records "streamflow (m^3/s)" ;;
      y_max <- py_max (tolist flows) ;;
      r2 <- arg_getitem rperiods "return_period_2" ;;
      r10 <- arg_getitem rperiods "return_period_10" ;;
      r20 <- arg_getitem rperiods "return_period_20" ;;
      let x_values := ILabels dates in
      let recorded_flows := IFlows (tolist (dropna recorded)) in
      let plot_data :=
        [ (KStr "reach_id", IVal reach_id);
          (KStr "drain_area", IVal drain_area);
          (KStr "x_values", x_values);
          (KStr "recorded_flows", recorded_flows);
          (KStr "y_max", INum y_max);
          (KStr "r2", ISeries r2);
          (KStr "r10", ISeries r10);
          (KStr "r20", ISeries r20) ] in
      if pyval_eqb outformat (PyStr "json") then Ok (Json plot_data) else
      let recorded_flows :=
        {| name := "1st day forecasted flows"; x := x_values; y := recorded_flows |} in
      let layout :=
        {| title := __build_title "Previously Forecasted Streamflow" reach_id drain_area;
           xaxis_title := "Date";
           yaxis_title := y_title;
           yaxis_range := (Num 0, cell_scale (12 # 10) y_max);
           shapes := __rperiod_shapes startdate enddate
                       (Column r2) (Column r10) (Column r20) (Scalar y_max) |} in
      Ok (emit outformat {| data := [recorded_flows]; layout := layout |})
  end.

(** *** Reading the member number out of a column name *)

Definition is_space (c : ascii) : bool :=
  let n := nat_of_ascii c in
  ((n =? 32) || ((9 <=? n) && (n <=? 13)))%nat.

Fixpoint lstrip (s : string) : string :=
  match s with
  | String c rest => if is_space c then lstrip rest else s
  | EmptyString => s
  end.

Fixpoint all_space (s : string) : bool :=
  match s with
  | String c rest => is_space c && all_space rest
  | EmptyString => true
  end.

Definition digit_of (c : ascii) : option Z :=
  let n := Z.of_nat (nat_of_ascii c) in
  if ((48 <=? n) && (n <=? 57))%Z then Some (n - 48)%Z else None.

Fixpoint read_digits (acc : Z) (s : string) : option Z :=
  match s with
  | EmptyString => Some acc
  | String c rest =>
      match digit_of c with
      | Some d => read_digits (10 * acc + d)%Z rest
      | None => if all_space s then Some acc else None
      end
  end.

(** [int(s)] on a string: surrounding blanks, an optional sign, decimal
    digits.  (Digit-group underscores are not modelled; none can occur in the
    two-character slices this module converts.) *)
Definition py_int (s : string) : result Z :=
  let bad := Raise (ValueError "invalid literal for int() with base 10") in
  let s := lstrip s in
  let '(sign, body) :=
    match s with
    | String "-"%char rest => ((-1)%Z, rest)
    | String "+"%char rest => (1%Z, rest)
    | _ => (1%Z, s)
    end in
  match body with
  | EmptyString => bad
  | String c _ =>
      match digit_of c, read_digits 0 body with
      | Some _, Some n => Ok (sign * n)%Z
      | _, _ => bad
      end
  end.

(** One turn of the loop over [ensembles.columns]: the column is read, then
    the key [int(ensemble[9:11])] is computed and the entry stored; the
    second line of the loop body reads the same entry back. *)
Definition ensembles_step (ensembles : DataFrame)
  (acc : result (dict * list cell)) (ensemble : string)
  : result (dict * list cell) :=
  st <- acc ;;
  let '(plot_data, max_flows) := st in
  s <- getitem ensembles ensemble ;;
  let flows := tolist (dropna s) in
  k <- py_int (substring 9 2 ensemble) ;;
  let plot_data := dict_set plot_data (KInt k) (IFlows flows) in
  m <- py_max flows ;;
  Ok (plot_data, max_flows ++ [m]).

(** [plot_data[k]], a [KeyError] when the key is missing. *)
Definition dict_item (d : dict) (k : key) : result item :=
  match dict_get d k with
  | Some v => Ok v
  | None =>
      Raise (KeyError match k with
                      | KStr s => s
                      | KInt z => str (PyInt z)
                      end)
  end.

(** The traces of members 1 to 51. *)
Fixpoint member_scatters (plot_data : dict) (x_1_51 : item) (members : list Z)
  : result (list Scatter) :=
  match members with
  | [] => Ok []
  | i :: rest =>
      yi <- dict_item plot_data (KInt i) ;;
      more <- member_scatters plot_data x_1_51 rest ;;
      Ok ({| name := ("Ensemble " ++ str (PyInt i))%string; x := x_1_51; y := yi |}
          :: more)
  end.

Definition ensembles_plot (ensembles rperiods : pyarg)
  (kwargs : list (string * pyval)) : result output :=
  let reach_id := kwargs_get kwargs "reach_id" PyNone in
  let drain_area := kwargs_get kwargs "drain_area" PyNone in
  let outformat := kwargs_get kwargs "outformat" (PyStr "plotly") in
  match ensembles with
  | Other _ => Raise not_a_dataframe
  | Frame ensembles =>
      if negb (outformat_ok outformat) then Raise invalid_outformat else
      let dates := index ensembles in
      startdate <- first dates ;;
      enddate <- last_item dates ;;
      x_1_51 <- getitem ensembles "ensemble_01 (m^3/s)" ;;
      x_52 <- getitem ensembles "ensemble_52 (m^3/s)" ;;
      r2 <- arg_getitem rperiods "return_period_2" ;;
      r10 <- arg_getitem rperiods "return_period_10" ;;
      r20 <- arg_getitem rperiods "return_period_20" ;;
      let x_1_51 := ILabels (series_index (dropna x_1_51)) in
      let x_52 := ILabels (series_index (dropna x_52)) in
      let plot_data :=
        [ (KStr "reach_id", IVal reach_id);
          (KStr "drain_area", IVal drain_area);
          (KStr "x_1-51", x_1_51);
          (KStr "x_52", x_52);
          (KStr "r2", ISeries r2);
          (KStr "r10", ISeries r10);
          (KStr "r20", ISeries r20) ] in
      st <- fold_left (ensembles_step ensembles) (columns ensembles)
              (Ok (plot_data, [])) ;;
      let '(plot_data, max_flows) := st in
      y_max <- py_max max_flows ;;
      let plot_data := dict_set plot_data (KStr "y_max") (INum y_max) in
      if pyval_eqb outformat (PyStr "json") then Ok (Json plot_data) else
      y52 <- dict_item plot_data (KInt 52) ;;
      let high := {| name := "High Resolution"; x := x_52; y := y52 |} in
      members <- member_scatters plot_data x_1_51
                   (map Z.of_nat (seq 1 51)) ;;
      let layout :=
        {| title := __build_title "Ensemble Predicted Streamflow" reach_id drain_area;
           xaxis_title := "Date";
           yaxis_title := y_title;
           yaxis_range := (Num 0, cell_scale (12 # 10) y_max);
           shapes := __rperiod_shapes startdate enddate
                       (Column r2) (Column r10) (Column r20) (Scalar y_max) |} in
      Ok (emit outformat {| data := high :: members; layout := layout |})
  end.

Definition historical_plot (hist rperiods : pyarg)
  (kwargs : list (string * pyval)) : result output :=
  let reach_id := kwargs_get kwargs "reach_id" PyNone in
  let drain_area := kwargs_get kwargs "drain_area" PyNone in
  let outformat := kwargs_get kwargs "outformat" (PyStr "plotly") in
  match hist with
  | Other _ => Raise not_a_dataframe
  | Frame hist =>
      if negb (outformat_ok outformat) then Raise invalid_outformat_long else
      let dates := index hist in
      startdate <- first dates ;;
      enddate <- last_item dates ;;
      flow <- getitem hist "streamflow (m^3/s)" ;;
      flows <- getitem hist "streamflow (m^3/s)" ;;
      y_max <- py_max (tolist flows) ;;
      r2 <- arg_getitem rperiods "return_period_2" ;;
      r10 <- arg_getitem rperiods "return_period_10" ;;
      r20 <- arg_getitem rperiods "return_period_20" ;;
      let x_datetime := ILabels dates in
      let y_flow := IFlows (tolist flow) in
      let plot_data :=
        [ (KStr "reach_id", IVal reach_id);
          (KStr "drain_area", IVal drain_area);
          (KStr "x_datetime", x_datetime);
          (KStr "y_flow", y_flow);
          (KStr "y_max", INum y_max);
          (KStr "r2", ISeries r2);
          (KStr "r10", ISeries r10);
          (KStr "r20", ISeries r20) ] in
      if pyval_eqb outformat (PyStr "json") then Ok (Json plot_data) else
      let layout :=
        {| title := __build_title "Historic Streamflow Simulation" reach_id drain_area;
           xaxis_title := "Date";
           yaxis_title := y_title;
           yaxis_range := (Num 0, cell_scale (12 # 10) y_max);
           shapes := __rperiod_shapes startdate enddate
                       (Column r2) (Column r10) (Column r20) (Scalar y_max) |} in
      Ok (emit outformat
            {| data := [ {| name := ""; x := x_datetime; y := y_flow |} ];
               layout := layout |})
  end.

Definition seasonal_plot (seasonal : pyarg)
  (kwargs : list (string * pyval)) : result output :=
  let reach_id := kwargs_get kwargs "reach_id" PyNone in
  let drain_area := kwargs_get kwargs "drain_area" PyNone in
  let outformat := kwargs_get kwargs "outformat" (PyStr "plotly") in
  match seasonal with
  | Other _ => Raise not_a_dataframe
  | Frame seasonal =>
      if negb (outformat_ok outformat) then Raise invalid_outformat_long else
      average <- getitem seasonal "streamflow (m^3/s)" ;;
      maxs <- getitem seasonal "max_flow" ;;
      mins <- getitem seasonal "min_flow" ;;
      let day_number := ILabels (index seasonal) in
      let plot_data :=
        [ (KStr "reach_id", IVal reach_id);
          (KStr "drain_area", IVal drain_area);
          (KStr "day_number", day_number);
          (KStr "average_flow", IFlows (tolist average));
          (KStr "max_flow", IFlows (tolist maxs));
          (KStr "min_flow", IFlows (tolist mins)) ] in
      if pyval_eqb outformat (PyStr "json") then Ok (Json plot_data) else
      let avg_flow :=
        {| name := "Average Daily Flow"; x := day_number; y := IFlows (tolist average) |} in
      let max_flow :=
        {| name := "Maximum Daily Flow"; x := day_number; y := IFlows (tolist maxs) |} in
      let min_flow :=
        {| name := "Minimum Daily Flow"; x := day_number; y := IFlows (tolist mins) |} in
      top <- py_max (tolist maxs) ;;
      let layout :=
        {| title := __build_title "Daily Average Streamflow (Historic Simulation)"
                      reach_id drain_area;
           xaxis_title := "Date";
           yaxis_title := y_title;
           yaxis_range := (Num 0, cell_scale (12 # 10) top);
           shapes := [] |} in
      Ok (emit outformat {| data := [max_flow; avg_flow; min_flow]; layout := layout |})
  end.

(** *** Sorting and ranking for the flow duration curve *)

Section InsertionSort.

Variable A : Type.
Variable before : A -> A -> bool.

Fixpoint insert (a : A) (l : list A) : list A :=
  match l with
  | [] => [a]
  | b :: rest => if before a b then a :: l else b :: insert a rest
  end.

Definition sort (l : list A) : list A := fold_right insert [] l.

End InsertionSort.

(** Descending order of flows with missing values last, the order of
    [sort_values(ascending=False)]. *)
Definition flow_before (a b : cell) : bool :=
  match a, b with
  | _, NaN => true
  | NaN, Num _ => false
  | Num p, Num q => Qle_bool q p
  end.

(** [df.sort_values(by=name, ascending=False)]. *)
Definition sort_values_desc (df : DataFrame) (by_ : string) : result DataFrame :=
  match position by_ (columns df) with
  | None => Raise (KeyError by_)
  | Some j =>
      let flow (r : label * list cell) := nth j (snd r) NaN in
      Ok {| columns := columns df;
            rows := sort (fun r1 r2 => flow_before (flow r1) (flow r2)) (rows df) |}
  end.

Definition count_if (p : cell -> bool) (l : list cell) : Z :=
  Z.of_nat (List.length (filter p l)).

Definition is_lt (q : Q) (c : cell) : bool :=
  match c with
  | Num p => negb (Qle_bool q p)
  | NaN => false
  end.

Definition is_eq (q : Q) (c : cell) : bool :=
  match c with
  | Num p => Qeq_bool p q
  | NaN => false
  end.

Definition is_gt (q : Q) (c : cell) : bool := cell_gt c (Num q).

(** [scipy.stats.rankdata(a, method='average')]: ranks count from 1 in
    ascending order and tied numbers share the mean of their ranks.  A
    missing value sorts after every number and is tied with nothing, so each
    one takes the next free rank, in order of appearance. *)
Fixpoint rank_from (seen_nan : Z) (a l : list cell) : list Q :=
  match l with
  | [] => []
  | Num q :: rest =>
      (inject_Z (count_if (is_lt q) a) + (inject_Z (count_if (is_eq q) a) + 1) / 2)
      :: rank_from seen_nan a rest
  | NaN :: rest =>
      inject_Z (count_if (fun c => negb (isna c)) a + seen_nan + 1)
      :: rank_from (seen_nan + 1) a rest
  end.

Definition rankdata (a : list cell) : list Q := rank_from 0 a a.

Definition flow_duration_curve_plot (hist : pyarg)
  (kwargs : list (string * pyval)) : result output :=
  let reach_id := kwargs_get kwargs "reach_id" PyNone in
  let drain_area := kwargs_get kwargs "drain_area" PyNone in
  let outformat := kwargs_get kwargs "outformat" (PyStr "plotly") in
  match hist with
  | Other _ => Raise not_a_dataframe
  | Frame hist =>
      if negb (outformat_ok outformat) then Raise invalid_outformat_long else
      sorted <- sort_values_desc hist "streamflow (m^3/s)" ;;
      flows <- getitem sorted "streamflow (m^3/s)" ;;
      let sorted_hist := tolist flows in
      let ranks :=
        map (fun r => inject_Z (Z.of_nat (len hist)) - r) (rankdata sorted_hist) in
      let prob :=
        map (fun r => r / inject_Z (Z.of_nat (List.length sorted_hist) + 1)) ranks in
      y_max <- first sorted_hist ;;
      let plot_data :=
        [ (KStr "reach_id", IVal reach_id);
          (KStr "drain_area", IVal drain_area);
          (KStr "x_probability", IProbs prob);
          (KStr "y_flow", IFlows sorted_hist);
          (KStr "y_max", INum y_max) ] in
      if pyval_eqb outformat (PyStr "json") then Ok (Json plot_data) else
      let layout :=
        {| title := __build_title "Flow Duration Curve" reach_id drain_area;
           xaxis_title := "Date";
           yaxis_title := y_title;
           yaxis_range := (Num 0, cell_scale (12 # 10) y_max);
           shapes := [] |} in
      Ok (emit outformat
            {| data := [ {| name := ""; x := IProbs prob; y := IFlows sorted_hist |} ];
               layout := layout |})
  end.

(** ** Calendar arithmetic

    Timestamps are nanoseconds since 1970-01-01 00:00:00, the resolution of a
    pandas [Timestamp]; dates follow the proleptic Gregorian calendar of
    [datetime]. *)

Definition second_ns : Z := 1000000000.
Definition day_ns : Z := 86400 * second_ns.

Definition is_leap (y : Z) : bool :=
  ((y mod 4 =? 0) && (negb (y mod 100 =? 0) || (y mod 400 =? 0)))%Z.

Definition days_in_month (y m : Z) : Z :=
  if (m =? 2)%Z then (if is_leap y then 29 else 28)%Z
  else if ((m =? 4) || (m =? 6) || (m =? 9) || (m =? 11))%Z then 30%Z
  else 31%Z.

(** Days from 1970-01-01 to the civil date [y]-[m]-[d]. *)
Definition days_from_civil (y m d : Z) : Z :=
  let y := (if m <=? 2 then y - 1 else y)%Z in
  let era := (y / 400)%Z in
  let yoe := (y - era * 400)%Z in
  let doy := ((153 * (if m >? 2 then m - 3 else m + 9) + 2) / 5 + d - 1)%Z in
  let doe := (yoe * 365 + yoe / 4 - yoe / 100 + doy)%Z in
  (era * 146097 + doe - 719468)%Z.

(** The civil date (year, month, day) that lies [z] days after 1970-01-01. *)
Definition civil_from_days (z : Z) : Z * Z * Z :=
  let z := (z + 719468)%Z in
  let era := (z / 146097)%Z in
  let doe := (z - era * 146097)%Z in
  let yoe := ((doe - doe / 1460 + doe / 36524 - doe / 146096) / 365)%Z in
  let doy := (doe - (365 * yoe + yoe / 4 - yoe / 100))%Z in
  let mp := ((5 * doy + 2) / 153)%Z in
  let d := (doy - (153 * mp + 2) / 5 + 1)%Z in
  let m := (if mp <? 10 then mp + 3 else mp - 9)%Z in
  ((if m <=? 2 then yoe + era * 400 + 1 else yoe + era * 400)%Z, m, d).

Definition month_names : list string :=
  ["Jan"; "Feb"; "Mar"; "Apr"; "May"; "Jun";
   "Jul"; "Aug"; "Sep"; "Oct"; "Nov"; "Dec"]%string.

Definition two_digits (n : Z) : string :=
  if (n <? 10)%Z then ("0" ++ str (PyInt n))%string else str (PyInt n).

(** [t.strftime('%b %d')]. *)
Definition strftime_b_d (t : Z) : string :=
  let '(_, m, d) := civil_from_days (t / day_ns) in
  (nth (Z.to_nat (m - 1)) month_names "" ++ " " ++ two_digits d)%string.

(** *** Reading numbers and timestamps out of text *)

(** [s.split(sep)]. *)
Fixpoint split_on (sep : ascii) (s : string) : list string :=
  match s with
  | EmptyString => [EmptyString]
  | String c rest =>
      if Ascii.eqb c sep then EmptyString :: split_on sep rest
      else match split_on sep rest with
           | w :: ws => String c w :: ws
           | [] => [String c EmptyString]
           end
  end.

Fixpoint digits_acc (acc : Z) (s : string) : option Z :=
  match s with
  | EmptyString => Some acc
  | String c rest =>
      match digit_of c with
      | Some d => digits_acc (10 * acc + d)%Z rest
      | None => None
      end
  end.

(** A non-empty run of decimal digits. *)
Definition digits (s : string) : option Z :=
  match s with
  | EmptyString => None
  | _ => digits_acc 0 s
  end.

Definition signed (s : string) : Z * string :=
  match s with
  | String "-"%char rest => ((-1)%Z, rest)
  | String "+"%char rest => (1%Z, rest)
  | _ => (1%Z, s)
  end.

Definition int_field (s : string) : option Z :=
  let '(sign, body) := signed s in
  option_map (Z.mul sign) (digits body).

(** A decimal literal: sign, integer part, optional fraction (scientific
    notation is not modelled). *)
Definition decimal_field (s : string) : option Q :=
  let '(sign, body) := signed s in
  match split_on "."%char body with
  | [i] => option_map (fun n => inject_Z (sign * n)) (digits i)
  | [i; f] =>
      match digits_acc 0 i, digits_acc 0 f with
      | Some n, Some k =>
          if ((i =? "") && (f =? ""))%string then None
          else Some (inject_Z sign
                     * (inject_Z n + inject_Z k / inject_Z (10 ^ Z.of_nat (String.length f))))
      | _, _ => None
      end
  | _ => None
  end.

Definition na_values : list string :=
  [""; "NaN"; "nan"; "NA"; "N/A"; "null"]%string.

(** A data field as [read_csv] types it: a missing value or a number.  A
    field that is neither is reported as an error here. *)
Definition cell_of_field (s : string) : result cell :=
  if existsb (String.eqb s) na_values then Ok NaN
  else match decimal_field s with
       | Some q => Ok (Num q)
       | None => Raise (ValueError ("could not convert to float: " ++ s))
       end.

Definition between (lo n hi : Z) : bool := ((lo <=? n) && (n <=? hi))%Z.

Definition short (s : string) : bool := (String.length s <=? 2)%nat.

(** [YYYY-MM-DD] to days since 1970-01-01. *)
Definition parse_date (s : string) : option Z :=
  match split_on "-"%char s with
  | [ys; ms; ds] =>
      match digits ys, digits ms, digits ds with
      | Some y, Some m, Some d =>
          if (String.length ys =? 4)%nat && short ms && short ds
             && between 1 m 12 && between 1 d (days_in_month y m)
          then Some (days_from_civil y m d) else None
      | _, _, _ => None
      end
  | _ => None
  end.

(** [HH:MM:SS] to seconds since midnight. *)
Definition parse_time (s : string) : option Z :=
  match split_on ":"%char s with
  | [hs; ms; ss] =>
      match digits hs, digits ms, digits ss with
      | Some h, Some m, Some sec =>
          if short hs && short ms && short ss
             && between 0 h 23 && between 0 m 59 && between 0 sec 59
          then Some (h * 3600 + m * 60 + sec)%Z else None
      | _, _, _ => None
      end
  | _ => None
  end.

Definition bad_time (s : string) : exn :=
  ValueError ("time data does not match format: " ++ s).

(** [datetime.datetime.strptime(s, "%Y-%m-%d %H:00:00")], as nanoseconds. *)
Definition strptime (s : string) : result Z :=
  match split_on " "%char s with
  | [d; t] =>
      match parse_date d, parse_time t, split_on ":"%char t with
      | Some days, Some secs, [_; "00"%string; "00"%string] =>
          Ok ((days * 86400 + secs) * second_ns)%Z
      | _, _, _ => Raise (bad_time s)
      end
  | _ => Raise (bad_time s)
  end.

Fixpoint map_string (f : ascii -> ascii) (s : string) : string :=
  match s with
  | EmptyString => EmptyString
  | String c rest => String (f c) (map_string f rest)
  end.

(** [pandas.to_datetime] on one label.  Text is read as ISO 8601
    ([YYYY-MM-DD], optionally followed by a blank or [T] and [HH:MM:SS]);
    an integer counts nanoseconds since the epoch. *)
Definition to_datetime (l : label) : result label :=
  match l with
  | Stamp t => Ok (Stamp t)
  | Ident z => Ok (Stamp z)
  | Text s =>
      let s' := map_string (fun c => if Ascii.eqb c "T" then " "%char else c) s in
      match split_on " "%char s' with
      | [d] =>
          match parse_date d with
          | Some days => Ok (Stamp (days * day_ns))
          | None => Raise (bad_time s)
          end
      | [d; t] =>
          match parse_date d, parse_time t with
          | Some days, Some secs => Ok (Stamp ((days * 86400 + secs) * second_ns))
          | _, _ => Raise (bad_time s)
          end
      | _ => Raise (bad_time s)
      end
  end.

(** [pandas.to_datetime(j, format='%j')]: the day-of-year directive accepts 1
    to 366 and counts from 1 January 1900, the default year. *)
Definition to_datetime_j (l : label) : result Z :=
  match l with
  | Ident j =>
      if between 1 j 366
      then Ok ((days_from_civil 1900 1 1 + (j - 1)) * day_ns)%Z
      else Raise (bad_time (str (PyInt j)))
  | Text s => Raise (bad_time s)
  | Stamp _ => Raise TypeError
  end.

(** [index + 1] on the labels of an index. *)
Definition label_succ (l : label) : result label :=
  match l with
  | Ident z => Ok (Ident (z + 1))
  | Text _ => Raise TypeError
  | Stamp _ => Raise TypeError
  end.

Fixpoint mapM {A B : Type} (f : A -> result B) (l : list A) : result (list B) :=
  match l with
  | [] => Ok []
  | a :: rest =>
      b <- f a ;;
      bs <- mapM f rest ;;
      Ok (b :: bs)
  end.

(** ** The transport function *)

Definition newline : ascii := ascii_of_nat 10.

Definition remove_at {A : Type} (j : nat) (l : list A) : list A :=
  firstn j l ++ skipn (S j) l.

(** The index labels of a column of fields: integers when every field is
    one, text otherwise. *)
Definition index_labels (fields : list string) : list label :=
  match mapM (fun s => match int_field s with
                       | Some z => Ok (Ident z)
                       | None => Raise TypeError
                       end) fields with
  | Ok ls => ls
  | Raise _ => map Text fields
  end.

(** [pandas.read_csv(StringIO(text), index_col=index_col)] on comma
    separated text without quoting: the first line names the columns, blank
    lines are skipped, a short record is padded with missing values, and the
    rows keep the order of the lines. *)
Definition read_csv (text : string) (index_col : string) : result DataFrame :=
  match filter (fun l => negb (l =? "")%string) (split_on newline text) with
  | [] => Raise (ValueError "No columns to parse from file")
  | head :: records =>
      let names := split_on ","%char head in
      match position index_col names with
      | None => Raise (ValueError ("Index " ++ index_col ++ " invalid"))
      | Some j =>
          let width := List.length names in
          parsed <- mapM (fun line =>
                      let fields := split_on ","%char line in
                      if (width <? List.length fields)%nat
                      then Raise (ValueError "Error tokenizing data")
                      else
                        let padded := map (fun k => nth k fields ""%string) (seq 0 width) in
                        cells <- mapM cell_of_field (remove_at j padded) ;;
                        Ok (nth j padded ""%string, cells)) records ;;
          Ok {| columns := remove_at j names;
                rows := combine (index_labels (map fst parsed)) (map snd parsed) |}
      end
  end.

(** [df.index = labels]. *)
Definition set_index (df : DataFrame) (labels : list label) : DataFrame :=
  {| columns := columns df; rows := combine labels (map snd (rows df)) |}.

Record Request : Type := {
  url : string;
  params : list (string * pyval)
}.

(** A response, reduced to its body [data.text]. *)
Record Response : Type := {
  text : string
}.

(** What [_make_request] hands back: a table, the decoded JSON document
    (kept as its text; decoding is not modelled), the WaterML string or the
    response object. *)
Inductive reply : Type :=
| Table (df : DataFrame)
| JsonDoc (doc : string)
| WaterML (doc : string)
| Raw (data : Response).

Fixpoint dict_lookup (d : list (string * pyval)) (k : string) : option pyval :=
  match d with
  | [] => None
  | (k', v) :: rest => if (k' =? k)%string then Some v else dict_lookup rest k
  end.

(** The conversion of the response once it has arrived. *)
Definition process (data : Response) (method return_format : string) : result reply :=
  if (return_format =? "csv")%string then
    if (method =? "ForecastWarnings/")%string then
      df <- read_csv (text data) "comid" ;; Ok (Table df)
    else if (method =? "ReturnPeriods/")%string then
      df <- read_csv (text data) "rivid" ;; Ok (Table df)
    else if (method =? "SeasonalAverage/")%string then
      tmp <- read_csv (text data) "day_of_year" ;;
      shifted <- mapM label_succ (index tmp) ;;
      stamps <- mapM to_datetime_j shifted ;;
      Ok (Table (set_index tmp (map (fun t => Text (strftime_b_d t)) stamps)))
    else
      tmp <- read_csv (text data) "datetime" ;;
      stamps <- mapM to_datetime (index tmp) ;;
      Ok (Table (set_index tmp stamps))
  else if (return_format =? "json")%string then Ok (JsonDoc (text data))
  else if (return_format =? "waterml")%string then Ok (WaterML (text data))
  else if (return_format =? "request")%string then Ok (Raw data)
  else Raise (ValueError ("Unsupported return format requested: " ++ return_format)).

(** [_make_request] against a server that answers every request.  The first
    component lists the HTTP requests issued, in order; the second is the
    value returned or the exception raised. *)
Definition _make_request (server : Request -> Response)
  (endpoint method : string) (params : list (string * pyval))
  (return_format : string) : list Request * result reply :=
  let checked :=
    if (return_format =? "request")%string then
      match dict_lookup params "return_format" with
      | Some _ => Ok tt
      | None => Raise (KeyError "return_format")
      end
    else Ok tt in
  match checked with
  | Raise e => ([], Raise e)
  | Ok _ =>
      let request := {| url := endpoint ++ method; params := params |} in
      let data := server request in
      ([request], process data method return_format)
  end.

(** ** The exceedance table *)

(** The index holds timestamps only, in ascending order. *)
Fixpoint increasing (l : list label) : bool :=
  match l with
  | Stamp a :: ((Stamp b :: _) as rest) => (a <=? b)%Z && increasing rest
  | [Stamp _] => true
  | [] => true
  | _ => false
  end.

(** The timestamps of an index all of whose labels are timestamps. *)
Fixpoint stamps_of (l : list label) : option (list Z) :=
  match l with
  | [] => Some []
  | Stamp t :: rest => option_map (cons t) (stamps_of rest)
  | _ => None
  end.

(** [Index.is_monotonic_increasing] and [Index.is_monotonic_decreasing]:
    equal neighbours are allowed. *)
Fixpoint is_monotonic_increasing (l : list Z) : bool :=
  match l with
  | a :: ((b :: _) as rest) => (a <=? b)%Z && is_monotonic_increasing rest
  | _ => true
  end.

Fixpoint is_monotonic_decreasing (l : list Z) : bool :=
  match l with
  | a :: ((b :: _) as rest) => (b <=? a)%Z && is_monotonic_decreasing rest
  | _ => true
  end.

(** The positions, counted from [i], at which [t] occurs. *)
Fixpoint positions_from (t : Z) (l : list Z) (i : nat) : list nat :=
  match l with
  | [] => []
  | x :: rest =>
      if (x =? t)%Z then i :: positions_from t rest (S i)
      else positions_from t rest (S i)
  end.

(** What [Index.get_loc] finds for a label: nothing, one position or one
    unbroken run of positions (a slice, given by its start and its stop), or
    occurrences that do not stand together (a boolean mask). *)
Inductive located : Type :=
| Absent
| Block (start stop : nat)
| Scattered.

Definition get_loc (t : Z) (l : list Z) : located :=
  match positions_from t l 0 with
  | [] => Absent
  | p :: ps =>
      let q := List.last ps p in
      if (q + 1 - p =? S (List.length ps))%nat then Block p (q + 1) else Scattered
  end.

(** [searchsorted] for a label that does not occur, on an ascending index and
    on a descending one (where pandas searches the reversed index): the number
    of labels that stand before it. *)
Definition count_where (p : Z -> bool) (l : list Z) : nat :=
  List.length (filter p l).

(** [Index.get_slice_bound(label, side)]: the position of the label when it
    occurs (the start of its run on the left, the stop of its run on the
    right), else the place where it would be inserted in a monotonic index;
    a [KeyError] when it occurs scattered, or does not occur in an index
    that is not monotonic. *)
Definition get_slice_bound (left : bool) (t : Z) (l : list Z) : result nat :=
  match get_loc t l with
  | Block start stop => Ok (if left then start else stop)
  | Scattered => Raise (KeyError "Cannot get slice bound for non-unique label")
  | Absent =>
      if is_monotonic_increasing l then Ok (count_where (fun x => (x <? t)%Z) l)
      else if is_monotonic_decreasing l then Ok (count_where (fun x => (t <? x)%Z) l)
      else Raise (KeyError "slice bound")
  end.

(** [df.loc[a:b]] for two timestamps: the rows from the left bound of [a] up
    to the right bound of [b], as the positional slice [rows[start:stop]],
    which is empty when [stop] does not come after [start].  An index of
    other labels cannot be cut by timestamps. *)
Definition loc_slice (df : DataFrame) (a b : Z) : result DataFrame :=
  match stamps_of (index df) with
  | None => Raise TypeError
  | Some ts =>
      start <- get_slice_bound true a ts ;;
      stop <- get_slice_bound false b ts ;;
      Ok {| columns := columns df;
            rows := firstn (stop - start) (skipn start (rows df)) |}
  end.

(** [df.iloc[i][0]]: the first cell of the row at position [i]. *)
Definition iloc_first (df : DataFrame) (i : nat) : result cell :=
  match nth_error (rows df) i with
  | None => Raise IndexError
  | Some r =>
      match snd r with
      | [] => Raise IndexError
      | c :: _ => Ok c
      end
  end.

(** [any(i > rp for i in column)]. *)
Definition exceeds (rp : cell) (column : list cell) : bool :=
  existsb (fun i => cell_gt i rp) column.

(** The tallies of one day after the loop over the columns of [tmp]. *)
Fixpoint tally (rp2 rp10 rp20 : cell) (cols : list (list cell))
  (num : Z * Z * Z) : Z * Z * Z :=
  match cols with
  | [] => num
  | column :: rest =>
      let '(num2, num10, num20) := num in
      tally rp2 rp10 rp20 rest
        (if exceeds rp20 column then (num2 + 1, num10 + 1, num20 + 1)
         else if exceeds rp10 column then (num2 + 1, num10 + 1, num20)
         else if exceeds rp2 column then (num2 + 1, num10, num20)
         else (num2, num10, num20))%Z
  end.

(** Python 3 [round(q)]: to the nearest integer, a tie to the even one. *)
Definition py_round (q : Q) : Z :=
  let f := Qfloor q in
  let r := q - inject_Z f in
  match Qcompare r (1 # 2) with
  | Lt => f
  | Gt => (f + 1)%Z
  | Eq => if Z.even f then f else (f + 1)%Z
  end.

Definition percent (num : Z) : Z := py_round (inject_Z (num * 100) / 52).

(** The columns of a frame, as lists of values. *)
Definition column_values (df : DataFrame) : list (list cell) :=
  map (fun j => tolist (column_at df j)) (seq 0 (List.length (columns df))).

(** The context handed to the template. *)
Record Context : Type := {
  days : list string;
  r2 : list Z;
  r10 : list Z;
  r20 : list Z
}.

(** One turn of the loop over the days. *)
Definition day_step (ensembles : DataFrame) (rp2 rp10 rp20 : cell)
  (acc : result Context) (window : Z * Z) : result Context :=
  ctx <- acc ;;
  tmp <- loc_slice ensembles (fst window) (snd window) ;;
  let '(num2, num10, num20) :=
    tally rp2 rp10 rp20 (column_values tmp) (0, 0, 0)%Z in
  Ok {| days := days ctx ++ [strftime_b_d (fst window)];
        r2 := r2 ctx ++ [percent num2];
        r10 := r10 ctx ++ [percent num10];
        r20 := r20 ctx ++ [percent num20] |}.

(** The pairs [(uniqueday[i], uniqueday[i + 1])]. *)
Fixpoint windows (uniqueday : list Z) : list (Z * Z) :=
  match uniqueday with
  | a :: ((b :: _) as rest) => (a, b) :: windows rest
  | _ => []
  end.

(** [probabilities_table(stats, ensembles, rperiods)], up to the context that
    is rendered through the template.  [dates] is [stats['datetime'].tolist()],
    all that is read from [stats]. *)
Definition probabilities_table (dates : list string)
  (ensembles rperiods : DataFrame) : result Context :=
  startdate <- first dates ;;
  enddate <- last_item dates ;;
  start_datetime <- strptime startdate ;;
  end_datetime <- strptime enddate ;;
  let span_days := ((end_datetime - start_datetime) / day_ns)%Z in
  let uniqueday :=
    map (fun i => (start_datetime + Z.of_nat i * day_ns)%Z)
        (seq 0 (Z.to_nat (span_days + 2))) in
  rp2 <- iloc_first rperiods 3 ;;
  rp10 <- iloc_first rperiods 2 ;;
  rp20 <- iloc_first rperiods 1 ;;
  fold_left (day_step ensembles rp2 rp10 rp20) (windows uniqueday)
    (Ok {| days := []; r2 := []; r10 := []; r20 := [] |}).

(** ** The endpoint wrappers *)

Definition BYU_ENDPOINT : string := "https://tethys2.byu.edu/localsptapi/api/".
Definition AZURE_HOST : string := "http://gsf-api-vm.eastus.cloudapp.azure.com/api/".

(** What a wrapper returns: the url string, or whatever [_make_request]
    returned. *)
Inductive fetched : Type :=
| Url (address : string)
| Fetched (r : reply).

(** [return _make_request(...)] inside a wrapper. *)
Definition returned (call : list Request * result reply)
  : list Request * result fetched :=
  (fst call, r <- snd call ;; Ok (Fetched r)).

Definition forecast_stats (server : Request -> Response) (reach_id : pyval)
  (endpoint return_format : string) : list Request * result fetched :=
  let method := "ForecastStats/"%string in
  if (return_format =? "url")%string
  then ([], Ok (Url (endpoint ++ method ++ "?reach_id=" ++ str reach_id)))
  else returned (_make_request server endpoint method
                   [("reach_id"%string, reach_id);
                    ("return_format"%string, PyStr return_format)] return_format).

Definition forecast_ensembles (server : Request -> Response) (reach_id : pyval)
  (endpoint return_format : string) : list Request * result fetched :=
  let method := "ForecastEnsembles/"%string in
  if (return_format =? "url")%string
  then ([], Ok (Url (endpoint ++ method ++ "?reach_id=" ++ str reach_id)))
  else returned (_make_request server endpoint method
                   [("reach_id"%string, reach_id);
                    ("return_format"%string, PyStr return_format)] return_format).

Definition forecast_warnings (server : Request -> Response) (region : pyval)
  (endpoint return_format : string) : list Request * result fetched :=
  let method := "ForecastWarnings/"%string in
  if (return_format =? "url")%string
  then ([], Ok (Url (endpoint ++ method ++ "?region=" ++ str region)))
  else returned (_make_request server endpoint method
                   [("region"%string, region);
                    ("return_format"%string, PyStr return_format)] return_format).

Definition forecast_records (server : Request -> Response) (reach_id : pyval)
  (endpoint return_format : string) : list Request * result fetched :=
  let method := "ForecastRecords/"%string in
  if (return_format =? "url")%string
  then ([], Ok (Url (endpoint ++ method ++ "?reach_id=" ++ str reach_id)))
  else returned (_make_request server endpoint method
                   [("reach_id"%string, reach_id);
                    ("return_format"%string, PyStr return_format)] return_format).

(** ['?reach_id={0}&forcing={1}'.format(reach_id, forcing, return_format)]:
    the third argument has no placeholder. *)
Definition forcing_query (reach_id forcing : pyval) : string :=
  ("?reach_id=" ++ str reach_id ++ "&forcing=" ++ str forcing)%string.

Definition historic_simulation (server : Request -> Response) (reach_id forcing : pyval)
  (endpoint return_format : string) : list Request * result fetched :=
  let method := "HistoricSimulation/"%string in
  if (return_format =? "url")%string
  then ([], Ok (Url (endpoint ++ method ++ forcing_query reach_id forcing)))
  else
    let params := [("reach_id"%string, reach_id); ("forcing"%string, forcing);
                   ("return_format"%string, PyStr return_format)] in
    returned (_make_request server endpoint method params return_format).

Definition seasonal_average (server : Request -> Response) (reach_id forcing : pyval)
  (endpoint return_format : string) : list Request * result fetched :=
  let method := "SeasonalAverage/"%string in
  if (return_format =? "url")%string
  then ([], Ok (Url (endpoint ++ method ++ forcing_query reach_id forcing)))
  else
    let params := [("reach_id"%string, reach_id); ("forcing"%string, forcing);
                   ("return_format"%string, PyStr return_format)] in
    returned (_make_request server endpoint method params return_format).

Definition return_periods (server : Request -> Response) (reach_id forcing : pyval)
  (endpoint return_format : string) : list Request * result fetched :=
  let method := "ReturnPeriods/"%string in
  if (return_format =? "url")%string
  then ([], Ok (Url (endpoint ++ method ++ forcing_query reach_id forcing)))
  else
    let params := [("reach_id"%string, reach_id); ("forcing"%string, forcing);
                   ("return_format"%string, PyStr return_format)] in
    returned (_make_request server endpoint method params return_format).

Definition available_data (server : Request -> Response)
  (endpoint return_format : string) : list Request * result fetched :=
  let method := "AvailableData/"%string in
  if (return_format =? "url")%string then ([], Ok (Url (endpoint ++ method)))
  else returned (_make_request server endpoint method [] return_format).

Definition available_regions (server : Request -> Response)
  (endpoint return_format : string) : list Request * result fetched :=
  let method := "AvailableRegions/"%string in
  if (return_format =? "url")%string then ([], Ok (Url (endpoint ++ method)))
  else returned (_make_request server endpoint method [] return_format).

(** ** Utility functions *)

(** Decimal digits in which single underscores may separate digits. *)
Fixpoint grouped_digits (acc : Z) (after_digit : bool) (s : string) : option Z :=
  match s with
  | EmptyString => if after_digit then Some acc else None
  | String c rest =>
      match digit_of c with
      | Some d => grouped_digits (10 * acc + d)%Z true rest
      | None =>
          if Ascii.eqb c "_" && after_digit then grouped_digits acc false rest
          else if after_digit && all_space s then Some acc
          else None
      end
  end.

(** [int(s)] on a string of any length: surrounding blanks, an optional
    sign, decimal digits with optional single underscores between them. *)
Definition int_of_text (s : string) : result Z :=
  let '(sign, body) := signed (lstrip s) in
  match grouped_digits 0 false body with
  | Some n => Ok (sign * n)%Z
  | None => Raise (ValueError "invalid literal for int() with base 10")
  end.

(** The [lookup] table of [reach_to_region], in its order. *)
Definition lookup : list (string * Z) :=
  [ ("australia-geoglows", 300000);
    ("middle_east-geoglows", 700000);
    ("central_america-geoglows", 1000000);
    ("islands-geoglows", 2000000);
    ("japan-geoglows", 4000000);
    ("east_asia-geoglows", 5000000);
    ("south_asia-geoglows", 6000000);
    ("africa-geoglows", 8000000);
    ("central_asia-geoglows", 9000000);
    ("south_america-geoglows", 10000000);
    ("west_asia-geoglows", 11000000);
    ("europe-geoglows", 13000000);
    ("north_america-geoglows", 14000000) ]%string%Z.

(** The loop over [lookup.items()]. *)
Fixpoint first_below (reach_id : Z) (items : list (string * Z)) : option string :=
  match items with
  | [] => None
  | (region, threshold) :: rest =>
      if (reach_id <? threshold)%Z then Some region else first_below reach_id rest
  end.

Definition reach_to_region (reach_id : pyval) : result (option string) :=
  reach_id <- match reach_id with
              | PyInt z => Ok z
              | PyStr s => int_of_text s
              | PyNone => Raise TypeError
              end ;;
  Ok (first_below reach_id lookup).

(** The outcome of a call that may also raise [RuntimeError]. *)
Inductive outcome (A : Type) : Type :=
| Returns (a : A)
| RuntimeError (msg : string)
| Raises (e : exn).

Arguments Returns {A} a.
Arguments RuntimeError {A} msg.
Arguments Raises {A} e.

Definition outcome_of {A : Type} (r : result A) : outcome A :=
  match r with
  | Ok a => Returns a
  | Raise e => Raises e
  end.

Definition available_dates (server : Request -> Response) (reach_id region : pyval)
  (endpoint return_format : string) : list Request * outcome fetched :=
  let method := "AvailableData/"%string in
  let params :=
    if truthy region then Returns [("region"%string, region)]
    else if truthy reach_id then
      match reach_to_region reach_id with
      | Ok (Some name) => Returns [("region"%string, PyStr name)]
      | Ok None => Returns [("region"%string, PyNone)]
      | Raise e => Raises e
      end
    else RuntimeError "specify a region or a reach_id" in
  match params with
  | RuntimeError msg => ([], RuntimeError msg)
  | Raises e => ([], Raises e)
  | Returns params =>
      if (return_format =? "url")%string then ([], Returns (Url (endpoint ++ method)))
      else
        let call := returned (_make_request server endpoint method params return_format) in
        (fst call, outcome_of (snd call))
  end.

(** [point.within(box(minx, miny, maxx, maxy))]: the point lies in the
    interior of the rectangle spanned by the two corners; a point on an edge
    is not within, and a comparison with a missing value is false. *)
Definition strictly_between (lo v hi : cell) : bool :=
  (cell_gt v lo && cell_gt hi v) || (cell_gt v hi && cell_gt lo v).

Definition within_box (px py : Q) (minx miny maxx maxy : cell) : bool :=
  strictly_between minx (Num px) maxx && strictly_between miny (Num py) maxy.

(** The loop of [latlon_to_region] over the rows of the bounding box table:
    [row[0]] is the region of the row and [row[1][0]] to [row[1][3]] are its
    first four cells. *)
Fixpoint first_within (px py : Q) (rows : list (label * list cell)) : result label :=
  match rows with
  | [] =>
      Raise (ValueError
               "This point is not within any of the supported delineation regions.")
  | (region, cells) :: rest =>
      match cells with
      | minx :: miny :: maxx :: maxy :: _ =>
          if within_box px py minx miny maxx maxy then Ok region
          else first_within px py rest
      | _ => Raise IndexError
      end
  end.

(** [latlon_to_region(lat, lon)].  The table read from
    [delineation_data/bounding_boxes.csv] is not among the sources and is
    taken as the argument [bb_csv]. *)
Definition latlon_to_region (bb_csv : DataFrame) (lat lon : Q) : result label :=
  first_within lon lat (rows bb_csv).

(** * Notions used in the statements *)

(** The figure inside a returned chart, if there is one. *)
Definition figure_of (o : output) : option Figure :=
  match o with
  | Plotly f => Some f
  | PlotlyHtml f => Some f
  | Json _ => None
  | NoOutput => None
  end.

Definition flows_of (i : item) : list cell :=
  match i with
  | IFlows l => l
  | _ => []
  end.

(** Every value drawn by a figure, over all its traces. *)
Definition all_plotted (f : Figure) : list cell :=
  flat_map (fun s => flows_of (y s)) (data f).

(** [M] is the maximum across the plotted series: it is plotted and nothing
    plotted is greater. *)
Definition plotted_maximum (f : Figure) (M : cell) : Prop :=
  In M (all_plotted f) /\ forall c, In c (all_plotted f) -> cell_gt c M = false.

(** Equality of floats by value. *)
Definition cell_eqv (a b : cell) : Prop :=
  match a, b with
  | NaN, NaN => True
  | Num p, Num q => p == q
  | _, _ => False
  end.

(** C2 as the specification words it, for [hydroviewer_plot]: the axis runs
    from 0 to 1.2 times the maximum across all plotted series. *)
Definition axis_covers_all_series : Prop :=
  forall records stats rperiods kwargs out f M,
    hydroviewer_plot records stats rperiods kwargs = Ok out ->
    figure_of out = Some f ->
    plotted_maximum f M ->
    cell_eqv (fst (yaxis_range (layout f))) (Num 0)
    /\ cell_eqv (snd (yaxis_range (layout f))) (cell_scale (12 # 10) M).

(** A one-row table with the given columns. *)
Definition one_row (t : Z) (cols : list (string * Q)) : DataFrame :=
  {| columns := map fst cols; rows := [(Stamp t, map (fun c => Num (snd c)) cols)] |}.

(** Sample inputs: a recorded flow of 100 against forecast statistics that
    peak at 10. *)
Definition sample_records : DataFrame :=
  one_row 0 [("streamflow (m^3/s)"%string, 100)].

Definition sample_stats : DataFrame :=
  one_row day_ns
    [("mean (m^3/s)"%string, 8); ("max (m^3/s)"%string, 10);
     ("min (m^3/s)"%string, 5); ("std_dev_range_lower (m^3/s)"%string, 6);
     ("std_dev_range_upper (m^3/s)"%string, 9); ("high_res (m^3/s)"%string, 7)].

Definition sample_rperiods : DataFrame :=
  {| columns := ["return_period_20"; "return_period_10"; "return_period_2"]%string;
     rows := [(Ident 12341234, [Num 30; Num 20; Num 12])] |}.

(** C4 as the specification words it, for [hydroviewer_plot]: an invalid
    [outformat] is answered with the configuration error whatever else is
    passed. *)
Definition outformat_checked_first : Prop :=
  forall records stats rperiods kwargs,
    outformat_ok (kwargs_get kwargs "outformat" (PyStr "plotly")) = false ->
    hydroviewer_plot records stats rperiods kwargs = Raise invalid_outformat.

(** The return formats the endpoint wrappers document. *)
Definition documented_formats : list string :=
  ["csv"; "json"; "waterml"; "request"; "url"]%string.

(** The return formats [_make_request] converts. *)
Definition converted_formats : list string :=
  ["csv"; "json"; "waterml"; "request"]%string.

(** C8 as the specification words it: an unrecognised format fails the call
    and no request has been issued. *)
Definition rejected_before_io : Prop :=
  forall server endpoint method params return_format,
    ~ In return_format documented_formats ->
    exists e,
      _make_request server endpoint method params return_format = ([], Raise e).

(** A server that answers every request with the same body. *)
Definition constant_server (body : string) : Request -> Response :=
  fun _ => {| text := body |}.

(** Strictly earlier, on timestamps. *)
Definition stamp_lt (a b : label) : Prop :=
  match a, b with
  | Stamp s, Stamp t => (s < t)%Z
  | _, _ => False
  end.

(** The methods whose tables are not indexed by time. *)
Definition special_methods : list string :=
  ["ForecastWarnings/"; "ReturnPeriods/"; "SeasonalAverage/"]%string.

(** C5 as the specification words it: the index of a parsed time-indexed
    table is strictly increasing, whatever the order of the payload. *)
Definition parsed_index_increasing : Prop :=
  forall server endpoint method params df,
    ~ In method special_methods ->
    snd (_make_request server endpoint method params "csv") = Ok (Table df) ->
    Sorted stamp_lt (index df).

Definition nl : string := String newline "".

(** A valid payload whose two rows come latest first. *)
Definition unsorted_payload : string :=
  ("datetime,streamflow (m^3/s)" ++ nl
   ++ "2020-01-02 00:00:00,3.5" ++ nl
   ++ "2020-01-01 00:00:00,4" ++ nl)%string.

(** The non-blank lines of a payload. *)
Definition payload_lines (body : string) : list string :=
  filter (fun l => negb (l =? "")%string) (split_on newline body).

(** The field at position [j] of a record line. *)
Definition field_at (j : nat) (line : string) : string :=
  nth j (split_on ","%char line) ""%string.

(** The lengths of the months of a year that is not a leap year. *)
Definition month_lengths : list Z := [31; 28; 31; 30; 31; 30; 31; 31; 30; 31; 30; 31]%Z.

Fixpoint day_in_months (n : Z) (months : list (string * Z)) : option (string * Z) :=
  match months with
  | [] => None
  | (month, length) :: rest =>
      if (n <=? length)%Z then Some (month, n)
      else day_in_months (n - length)%Z rest
  end.

(** The reference mapping in the words of the specification (it has no
    counterpart in the source): day [n] of a non-leap year, counted from 1,
    goes to its month and day label; day 1 is the first calendar day,
    "Jan 01", and day 365 is "Dec 31". *)
Definition reference_label (n : Z) : option string :=
  if (n <? 1)%Z then None
  else option_map (fun md => (fst md ++ " " ++ two_digits (snd md))%string)
         (day_in_months n (combine month_names month_lengths)).

(** C6 as the specification words it: the label of an index value [d] is the
    label of day [d] in the reference mapping. *)
Definition seasonal_label_is_day_label : Prop :=
  forall server endpoint params raw df,
    read_csv (text (server {| url := endpoint ++ "SeasonalAverage/"; params := params |}))
      "day_of_year" = Ok raw ->
    snd (_make_request server endpoint "SeasonalAverage/" params "csv") = Ok (Table df) ->
    Forall2 (fun r l => exists d, r = Ident d
                                  /\ option_map Text (reference_label d) = Some l)
      (index raw) (index df).

(** A seasonal payload whose only row is day 1. *)
Definition seasonal_payload : string :=
  ("day_of_year,streamflow (m^3/s),max_flow,min_flow" ++ nl
   ++ "1,3.5,4,1" ++ nl)%string.

(** Whether the calendar of 1900 and the reference mapping agree on the day
    that follows 1 January by [n] days. *)
Definition calendar_agrees (n : nat) : bool :=
  match reference_label (Z.of_nat n + 1) with
  | Some s =>
      String.eqb (strftime_b_d ((days_from_civil 1900 1 1 + Z.of_nat n) * day_ns)) s
  | None => false
  end.

(** The curve a flow duration chart holds: its probabilities and flows,
    from the dictionary or from the single trace of the figure. *)
Definition curve_of (o : output) : option (list Q * list cell) :=
  match o with
  | Json d =>
      match dict_get d (KStr "x_probability"), dict_get d (KStr "y_flow") with
      | Some (IProbs p), Some (IFlows f) => Some (p, f)
      | _, _ => None
      end
  | Plotly f | PlotlyHtml f =>
      match data f with
      | [s] =>
          match x s, y s with
          | IProbs p, IFlows fl => Some (p, fl)
          | _, _ => None
          end
      | _ => None
      end
  | NoOutput => None
  end.

(** Average ranks counted from the largest value down: the largest of [n]
    distinct values has rank 1, the smallest rank [n]. *)
Definition rankdata_desc (a : list cell) : list Q :=
  map (fun r => inject_Z (Z.of_nat (List.length a)) + 1 - r) (rankdata a).

(** C7 as the specification words it, for a given notion of rank: every
    probability is the rank of its flow divided by [N + 1]. *)
Definition probability_is_rank_over_n1 (rank : list cell -> list Q) : Prop :=
  forall hist kwargs out probs flows,
    flow_duration_curve_plot hist kwargs = Ok out ->
    curve_of out = Some (probs, flows) ->
    Forall2 Qeq probs
      (map (fun r => r / inject_Z (Z.of_nat (List.length flows) + 1)) (rank flows)).

(** Three observations: 1, 3 and 2. *)
Definition sample_hist : DataFrame :=
  {| columns := ["streamflow (m^3/s)"%string];
     rows := [(Stamp 0, [Num 1]); (Stamp day_ns, [Num 3]); (Stamp (2 * day_ns), [Num 2])] |}.

(** [a] comes no later than [b] in descending order, missing values last. *)
Definition flow_ge (a b : cell) : Prop := flow_before a b = true.

(** The number of columns that satisfy [p]. *)
Definition members (p : list cell -> bool) (tmp : DataFrame) : Z :=
  Z.of_nat (List.length (filter p (column_values tmp))).

(** The three classes of members that count: those that exceed the 20-year
    threshold, those that exceed the 10-year but not the 20-year threshold,
    and those that exceed only the 2-year threshold. *)
Definition above20 (rp20 : cell) (column : list cell) : bool :=
  exceeds rp20 column.

Definition above10_only (rp10 rp20 : cell) (column : list cell) : bool :=
  negb (exceeds rp20 column) && exceeds rp10 column.

Definition above2_only (rp2 rp10 rp20 : cell) (column : list cell) : bool :=
  negb (exceeds rp20 column) && negb (exceeds rp10 column) && exceeds rp2 column.

(** The windows of the table: one per day from the first timestamp, each
    closed by the start of the next day. *)
Definition day_windows (start_datetime end_datetime : Z) : list (Z * Z) :=
  windows (map (fun i => (start_datetime + Z.of_nat i * day_ns)%Z)
             (seq 0 (Z.to_nat ((end_datetime - start_datetime) / day_ns + 2)))).

Definition empty_context : Context :=
  {| days := []; r2 := []; r10 := []; r20 := [] |}.

(** Sample inputs: two members over two days and a return period table whose
    rows at positions 1, 2 and 3 hold 30, 20 and 12. *)
Definition sample_ensembles : DataFrame :=
  {| columns := ["ensemble_01 (m^3/s)"; "ensemble_02 (m^3/s)"]%string;
     rows := [ (Stamp 1577836800000000000, [Num 5; Num 1]);
               (Stamp 1577858400000000000, [Num 35; Num 13]);
               (Stamp 1577923200000000000, [Num 5; Num 25]) ] |}.

Definition sample_dates : list string :=
  ["2020-01-01 00:00:00"; "2020-01-02 06:00:00"]%string.

Definition sample_thresholds : DataFrame :=
  {| columns := ["streamflow"%string];
     rows := [ (Text "max", [Num 40]); (Text "return_period_20", [Num 30]);
               (Text "return_period_10", [Num 20]); (Text "return_period_2", [Num 12]) ] |}.

(** The same rows listed from the 2-year threshold up. *)
Definition sample_thresholds_ascending : DataFrame :=
  {| columns := ["streamflow"%string];
     rows := [ (Text "return_period_2", [Num 12]); (Text "return_period_10", [Num 20]);
               (Text "return_period_20", [Num 30]); (Text "max", [Num 40]) ] |}.

(** The timestamp of the row lies between [a] and [b], both included. *)
Definition in_window (a b : Z) (r : label * list cell) : bool :=
  match fst r with
  | Stamp t => ((a <=? t) && (t <=? b))%Z
  | _ => false
  end.

(** The rows whose timestamp lies between [a] and [b], both included. *)
Definition rows_between (df : DataFrame) (a b : Z) : DataFrame :=
  {| columns := columns df; rows := filter (in_window a b) (rows df) |}.

(** The rows whose timestamp falls on the calendar day [day], counted in days
    since the epoch: from midnight up to, but not including, the next
    midnight. *)
Definition rows_on_day (df : DataFrame) (day : Z) : DataFrame :=
  {| columns := columns df;
     rows := filter (fun r => match fst r with
                              | Stamp t => (t / day_ns =? day)%Z
                              | _ => false
                              end) (rows df) |}.

(** The claim as the specification words it: for every ensembles table and
    every calendar day of the forecast span, the three percentages of the day
    count the members by the highest threshold that their flow exceeds on
    that day. *)
Definition tallies_by_calendar_day : Prop :=
  forall dates ensembles rperiods ctx startdate start_datetime rp2 rp10 rp20 i,
    probabilities_table dates ensembles rperiods = Ok ctx ->
    first dates = Ok startdate ->
    strptime startdate = Ok start_datetime ->
    iloc_first rperiods 3 = Ok rp2 ->
    iloc_first rperiods 2 = Ok rp10 ->
    iloc_first rperiods 1 = Ok rp20 ->
    (i < List.length (days ctx))%nat ->
    let tmp := rows_on_day ensembles (start_datetime / day_ns + Z.of_nat i) in
    nth_error (r20 ctx) i = Some (percent (members (above20 rp20) tmp))
    /\ nth_error (r10 ctx) i
       = Some (percent (members (above20 rp20) tmp + members (above10_only rp10 rp20) tmp))
    /\ nth_error (r2 ctx) i
       = Some (percent (members (above20 rp20) tmp + members (above10_only rp10 rp20) tmp
                        + members (above2_only rp2 rp10 rp20) tmp)).

(** A forecast that starts at 6 o'clock of January 1st 2020: its rows stand
    at 6 o'clock, at 3 o'clock of the next day and at 6 o'clock of the next
    day. *)
Definition sample_ensembles_morning : DataFrame :=
  {| columns := ["ensemble_01 (m^3/s)"; "ensemble_02 (m^3/s)"]%string;
     rows := [ (Stamp 1577858400000000000, [Num 5; Num 1]);
               (Stamp 1577934000000000000, [Num 35; Num 13]);
               (Stamp 1577944800000000000, [Num 5; Num 1]) ] |}.

Definition sample_dates_morning : list string :=
  ["2020-01-01 06:00:00"; "2020-01-02 06:00:00"]%string.

(** The sample ensembles with their rows listed from the latest to the
    earliest. *)
Definition sample_ensembles_descending : DataFrame :=
  {| columns := columns sample_ensembles; rows := rev (rows sample_ensembles) |}.

(** The thresholds of a lookup table grow strictly along the table. *)
Definition thresholds_increase (items : list (string * Z)) : Prop :=
  StronglySorted (fun a b => (snd a < snd b)%Z) items.

(** The point lies strictly inside the box that the first four cells of a
    row of the bounding box table describe. *)
Definition strictly_inside (px py : Q) (cells : list cell) : Prop :=
  exists minx miny maxx maxy more,
    cells = Num minx :: Num miny :: Num maxx :: Num maxy :: more
    /\ ((minx < px /\ px < maxx) \/ (maxx < px /\ px < minx))
    /\ ((miny < py /\ py < maxy) \/ (maxy < py /\ py < miny)).

(** Some value of [maxima] is not exceeded by [c]. *)
Definition below_some (maxima : list cell) (c : cell) : Prop :=
  exists m, In m maxima /\ cell_gt c m = false.

(** The invariant of the loop of [ensembles_plot]: every maximum found so far
    is a number, and every member stored under an integer key is a list of
    flows each of which is covered by one of the maxima. *)
Definition members_covered (plot_data : dict) (max_flows : list cell) : Prop :=
  Forall (fun m => isna m = false) max_flows
  /\ forall k v, dict_get plot_data (KInt k) = Some v ->
                 exists flows, v = IFlows flows /\ Forall (below_some max_flows) flows.

(** A full ensembles table: the columns [ensemble_01] to [ensemble_52] and
    one row in which member [i] flows at [i]. *)
Definition full_ensembles : DataFrame :=
  {| columns := map (fun i => ("ensemble_" ++ two_digits (Z.of_nat i) ++ " (m^3/s)")%string)
                  (seq 1 52);
     rows := [ (Stamp 1577836800000000000,
                map (fun i => Num (inject_Z (Z.of_nat i))) (seq 1 52)) ] |}.

(** The probabilities [flow_duration_curve_plot] pairs with sorted flows. *)
Definition exceedance (flows : list cell) : list Q :=
  map (fun r => r / inject_Z (Z.of_nat (List.length flows) + 1))
    (map (fun r => inject_Z (Z.of_nat (List.length flows)) - r) (rankdata flows)).

(** The average rank of the number [q] among the observations [a]. *)
Definition rank_of (a : list cell) (c : cell) : Q :=
  match c with
  | Num q => inject_Z (count_if (is_lt q) a) + (inject_Z (count_if (is_eq q) a) + 1) / 2
  | NaN => 0
  end.

(** * Properties *)

Unset Implicit Arguments.

(** ** Generic facts about results and lists *)

Lemma bind_ok {A B : Type} (m : result A) (k : A -> result B) (b : B) :
  bind m k = Ok b -> exists a, m = Ok a /\ k a = Ok b.
Proof.
  destruct m as [a | e]; simpl; intros H.
  - exists a; split; [reflexivity | exact H].
  - discriminate H.
Qed.

(** Splits a successful sequence of binds into its successful steps. *)
Ltac bind_inv H :=
  repeat match type of H with
         | bind ?m ?k = Ok ?b =>
             let a := fresh "v" in
             let E := fresh "E" in
             apply bind_ok in H; destruct H as (a & E & H)
         end.

Lemma mapM_length {A B : Type} (f : A -> result B) (l : list A) (bs : list B) :
  mapM f l = Ok bs -> List.length bs = List.length l.
Proof.
  revert bs; induction l as [| a l IH]; simpl; intros bs H.
  - injection H as <-; reflexivity.
  - bind_inv H. injection H as <-. simpl. f_equal. apply IH. assumption.
Qed.

Lemma mapM_Forall2 {A B : Type} (f : A -> result B) (l : list A) (bs : list B) :
  mapM f l = Ok bs -> Forall2 (fun a b => f a = Ok b) l bs.
Proof.
  revert bs; induction l as [| a l IH]; simpl; intros bs H.
  - injection H as <-; constructor.
  - bind_inv H. injection H as <-. constructor; auto.
Qed.

Lemma index_set_index (df : DataFrame) (labels : list label) :
  List.length labels = len df -> index (set_index df labels) = labels.
Proof.
  unfold index, set_index, len; simpl.
  generalize (rows df); intros rs; revert rs.
  induction labels as [| l ls IH]; intros [| r rs]; simpl; intros H;
    try reflexivity; try discriminate.
  f_equal. apply IH. congruence.
Qed.

Lemma index_length (df : DataFrame) : List.length (index df) = len df.
Proof. unfold index, len. apply length_map. Qed.

(** ** C1: the three severity bands *)

(** C1.  For all start and end labels, thresholds [r2], [r10], [r20] and
    every number [y_max], [__rperiod_shapes] returns exactly three bands, in
    the order [r2, r10), [r10, r20), [r20, 1.2 * y_max); each spans the whole
    range from [startdate] to [enddate].  The upper bound of the third band
    is the number [1.2 * y_max] whatever its relation to [r20]: when it lies
    below a numeric [r20] the band runs from [r20] down to [1.2 * y_max], and
    is neither left out nor cut at [r20]. *)
Theorem rperiod_shapes_three_bands :
  forall (startdate enddate : label) (r2 r10 r20 : value) (y_max : Q),
  exists b1 b2 b3 : Shape,
    __rperiod_shapes startdate enddate r2 r10 r20 (Scalar (Num y_max)) = [b1; b2; b3]
    /\ (y0 b1 = r2 /\ y1 b1 = r10)
    /\ (y0 b2 = r10 /\ y1 b2 = r20)
    /\ (y0 b3 = r20 /\ y1 b3 = Scalar (Num ((12 # 10) * y_max)))
    /\ Forall (fun b => x0 b = startdate /\ x1 b = enddate) [b1; b2; b3]
    /\ (forall r : Q,
        r20 = Scalar (Num r) -> (12 # 10) * y_max < r ->
        exists top : Q,
          y0 b3 = Scalar (Num r) /\ y1 b3 = Scalar (Num top)
          /\ top == (12 # 10) * y_max /\ top < r).
Proof.
  intros. unfold __rperiod_shapes.
  eexists; eexists; eexists.
  split; [reflexivity |].
  cbn [y0 y1 x0 x1 value_scale cell_scale].
  split; [split; reflexivity |]. split; [split; reflexivity |].
  split; [split; reflexivity |].
  split; [repeat constructor |].
  intros r -> Hlow. exists ((12 # 10) * y_max).
  split; [reflexivity |]. split; [reflexivity |].
  split; [reflexivity | exact Hlow].
Qed.

Lemma rperiod_shapes_three_bands_witness :
  (12 # 10) * 15 < 30
  /\ exists b1 b2 b3 : Shape,
       __rperiod_shapes (Stamp 0) (Stamp day_ns) (Scalar (Num 12)) (Scalar (Num 20))
         (Scalar (Num 30)) (Scalar (Num 15)) = [b1; b2; b3]
       /\ exists top : Q,
            y0 b3 = Scalar (Num 30) /\ y1 b3 = Scalar (Num top) /\ top == 18.
Proof.
  assert (Hlow : (12 # 10) * 15 < 30) by reflexivity.
  split; [exact Hlow |].
  destruct (rperiod_shapes_three_bands (Stamp 0) (Stamp day_ns) (Scalar (Num 12))
              (Scalar (Num 20)) (Scalar (Num 30)) 15)
    as (b1 & b2 & b3 & Hshapes & _ & _ & _ & _ & Hdegenerate).
  exists b1, b2, b3. split; [exact Hshapes |].
  destruct (Hdegenerate 30 eq_refl Hlow) as (top & Hy0 & Hy1 & Htop & _).
  exists top. split; [exact Hy0 |]. split; [exact Hy1 |].
  rewrite Htop. reflexivity.
Defined.

(** The scenario of the specification: a maximum of 15 against thresholds
    12, 20, 30 gives a third band from 30 up to 18, below its own floor, and
    the band is still there. *)
Example degenerate_band :
  nth_error
    (__rperiod_shapes (Stamp 0) (Stamp day_ns) (Scalar (Num 12)) (Scalar (Num 20))
       (Scalar (Num 30)) (Scalar (Num 15))) 2
  = Some {| shape_type := "rect"; x0 := Stamp 0; x1 := Stamp day_ns;
            y0 := Scalar (Num 30); y1 := Scalar (Num ((12 # 10) * 15));
            line_width := 0; opacity := 4 # 10; fillcolor := "purple" |}
  /\ (12 # 10) * 15 == 18 /\ (12 # 10) * 15 < 30.
Proof. repeat split. Qed.

(** ** C10: composing the title *)

(** C10.  A falsy reach id ([0]) or drainage area (the empty string) leaves
    the title exactly as if the value had not been supplied; values that are
    truthy are appended to the base title, the stream id first and the
    drainage area second. *)
Theorem build_title_falsy_is_absent :
  forall (base : string) (reach_id drain_area : pyval),
    __build_title base (PyInt 0) drain_area = __build_title base PyNone drain_area
    /\ __build_title base reach_id (PyStr "") = __build_title base reach_id PyNone
    /\ __build_title base PyNone PyNone = base
    /\ (truthy reach_id = true ->
        __build_title base reach_id PyNone
        = (base ++ "<br>Stream ID: " ++ str reach_id)%string)
    /\ (truthy drain_area = true ->
        __build_title base PyNone drain_area
        = (base ++ "<br>Upstream Drainage Area: " ++ str drain_area)%string)
    /\ (truthy reach_id = true -> truthy drain_area = true ->
        __build_title base reach_id drain_area
        = ((base ++ "<br>Stream ID: " ++ str reach_id)
           ++ "<br>Upstream Drainage Area: " ++ str drain_area)%string).
Proof.
  intros base reach_id drain_area. unfold __build_title. simpl.
  repeat split.
  - intros ->. reflexivity.
  - intros ->. reflexivity.
  - intros -> ->. reflexivity.
Qed.

Lemma build_title_falsy_is_absent_witness :
  truthy (PyInt 12341234) = true /\ truthy (PyStr "450 km^2") = true
  /\ __build_title "Forecasted Streamflow" (PyInt 12341234) (PyStr "450 km^2")
     = "Forecasted Streamflow<br>Stream ID: 12341234<br>Upstream Drainage Area: 450 km^2"%string.
Proof.
  split; [reflexivity |]. split; [reflexivity |].
  destruct (build_title_falsy_is_absent "Forecasted Streamflow"
              (PyInt 12341234) (PyStr "450 km^2")) as (_ & _ & _ & _ & _ & H).
  rewrite H; reflexivity.
Defined.

(** ** C2: the range of the vertical axis *)

Lemma max_from_in (cur : cell) (l : list cell) :
  max_from cur l = cur \/ In (max_from cur l) l.
Proof.
  revert cur; induction l as [| a l IH]; intros cur; simpl.
  - left; reflexivity.
  - destruct (IH (if cell_gt a cur then a else cur)) as [H | H].
    + rewrite H. destruct (cell_gt a cur); [right; left; reflexivity | left; reflexivity].
    + right; right; exact H.
Qed.

Lemma py_max_in (l : list cell) (c : cell) : py_max l = Ok c -> In c l.
Proof.
  destruct l as [| a l]; simpl; intros H; [discriminate |].
  injection H as <-.
  destruct (max_from_in a l) as [-> | H]; [left; reflexivity | right; exact H].
Qed.

Lemma number_survives_dropna (s : Series) (m : Q) :
  In (Num m) (tolist s) -> In (Num m) (tolist (dropna s)).
Proof.
  unfold tolist, dropna. rewrite !in_map_iff.
  intros ((l, c) & Hc & Hin). simpl in Hc. subst c.
  exists (l, Num m). split; [reflexivity |].
  apply filter_In. split; [exact Hin | reflexivity].
Qed.

(** The sample chart: the axis stops at 12 although a flow of 100 is drawn. *)
Lemma sample_hydroviewer_figure :
  exists f,
    hydroviewer_plot (Frame sample_records) (Frame sample_stats)
      (Frame sample_rperiods) [] = Ok (Plotly f)
    /\ plotted_maximum f (Num 100)
    /\ yaxis_range (layout f) = (Num 0, Num ((12 # 10) * 10)).
Proof.
  eexists. split; [vm_compute; reflexivity |]. split; [| reflexivity].
  split.
  - simpl. left; reflexivity.
  - intros c Hc. simpl in Hc.
    repeat (destruct Hc as [<- | Hc]; [reflexivity |]). destruct Hc.
Qed.

(** C2, refuted as stated: on the sample inputs the recorded flow of 100 is
    the maximum across the plotted series, yet the axis ends at 12, not 120. *)
Lemma axis_covers_all_series_fails : ~ axis_covers_all_series.
Proof.
  intros H.
  destruct sample_hydroviewer_figure as (f & Hrun & Hmax & Hrange).
  destruct (H _ _ _ _ _ f (Num 100) Hrun eq_refl Hmax) as (_ & Hhi).
  rewrite Hrange in Hhi. simpl in Hhi.
  revert Hhi. unfold Qeq. simpl. discriminate.
Qed.

(** In a chart that was returned, the [outformat] was not ['json'] and the
    figure is the one handed to [emit]. *)
Lemma emit_figure (outformat : pyval) (figure f : Figure) :
  figure_of (emit outformat figure) = Some f -> f = figure.
Proof.
  unfold emit.
  destruct (pyval_eqb outformat (PyStr "plotly")); simpl;
    [congruence |].
  destruct (pyval_eqb outformat (PyStr "plotly_html")); simpl;
    [congruence | discriminate].
Qed.

(** C2, amended.  Whenever [hydroviewer_plot] returns a figure, its vertical
    axis runs from 0 to 1.2 times [y_max], where [y_max] is Python's [max]
    over the ['max (m^3/s)'] column of the forecast statistics alone; the
    recorded flows and the other series do not enter.  That [y_max] is the
    maximum across the plotted series exactly when it is a number and no
    plotted value exceeds it. *)
Theorem hydroviewer_axis_range :
  forall records stats rperiods kwargs out f,
    hydroviewer_plot records stats rperiods kwargs = Ok out ->
    figure_of out = Some f ->
    exists smax y_max,
      arg_getitem stats "max (m^3/s)" = Ok smax
      /\ py_max (tolist smax) = Ok y_max
      /\ yaxis_range (layout f) = (Num 0, cell_scale (12 # 10) y_max)
      /\ (forall m, y_max = Num m ->
          (forall c, In c (all_plotted f) -> cell_gt c y_max = false) ->
          plotted_maximum f y_max).
Proof.
  intros records stats rperiods kwargs out f Hrun Hfig.
  unfold hydroviewer_plot in Hrun.
  destruct records as [records | other]; [| discriminate].
  destruct (negb (outformat_ok _)); [discriminate |].
  bind_inv Hrun.
  destruct (pyval_eqb _ (PyStr "json")).
  { injection Hrun as <-. discriminate. }
  injection Hrun as <-.
  apply emit_figure in Hfig. subst f.
  match goal with
  | Hs : arg_getitem stats "max (m^3/s)" = Ok ?s, Hm : py_max (tolist ?s) = Ok ?m |- _ =>
      exists s, m; split; [exact Hs |]; split; [exact Hm |]; split; [reflexivity |];
      intros q Hq Hle; split; [| exact Hle];
      assert (Hin : In (Num q) (tolist (dropna s)))
        by (apply number_survives_dropna; rewrite <- Hq; apply py_max_in; exact Hm)
  end.
  rewrite Hq. unfold all_plotted. simpl.
  rewrite !in_app_iff. do 4 right. left.
  replace v13 with v9 by congruence. exact Hin.
Qed.

Lemma hydroviewer_axis_range_witness :
  exists f,
    hydroviewer_plot (Frame sample_records) (Frame sample_stats)
      (Frame sample_rperiods) [] = Ok (Plotly f)
    /\ exists smax y_max,
         arg_getitem (Frame sample_stats) "max (m^3/s)" = Ok smax
         /\ py_max (tolist smax) = Ok y_max
         /\ yaxis_range (layout f) = (Num 0, cell_scale (12 # 10) y_max)
         /\ (forall m, y_max = Num m ->
             (forall c, In c (all_plotted f) -> cell_gt c y_max = false) ->
             plotted_maximum f y_max).
Proof.
  destruct (hydroviewer_plot (Frame sample_records) (Frame sample_stats)
              (Frame sample_rperiods) []) as [[d | f | f |] | e] eqn:Hrun;
    try (vm_compute in Hrun; discriminate Hrun).
  exists f. split; [reflexivity |].
  exact (hydroviewer_axis_range (Frame sample_records) (Frame sample_stats)
           (Frame sample_rperiods) [] (Plotly f) f Hrun eq_refl).
Defined.

(** [forecast_plot] scales its axis from the same column. *)
Lemma forecast_axis_range :
  forall stats rperiods kwargs out f,
    forecast_plot stats rperiods kwargs = Ok out ->
    figure_of out = Some f ->
    exists smax y_max,
      arg_getitem stats "max (m^3/s)" = Ok smax
      /\ py_max (tolist smax) = Ok y_max
      /\ yaxis_range (layout f) = (Num 0, cell_scale (12 # 10) y_max).
Proof.
  intros stats rperiods kwargs out f Hrun Hfig.
  unfold forecast_plot in Hrun.
  destruct stats as [stats | other]; [| discriminate].
  destruct (negb (outformat_ok _)); [discriminate |].
  bind_inv Hrun.
  destruct (pyval_eqb _ (PyStr "json")).
  { injection Hrun as <-. discriminate. }
  injection Hrun as <-.
  apply emit_figure in Hfig. subst f.
  match goal with
  | Hs : getitem stats "max (m^3/s)" = Ok ?s, Hm : py_max (tolist ?s) = Ok ?m |- _ =>
      exists s, m; split; [exact Hs |]; split; [exact Hm | reflexivity]
  end.
Qed.

(** ** C4: validation of the output format *)

(** C4, refuted as stated: with an argument that is not a data frame the
    type check answers first, and the call fails with its message although
    the output format is invalid too. *)
Lemma outformat_checked_first_fails : ~ outformat_checked_first.
Proof.
  intros H.
  specialize (H (Other PyNone) (Other PyNone) (Other PyNone)
                [("outformat"%string, PyStr "xml")] eq_refl).
  discriminate H.
Qed.

(** C4, amended.  In each of the seven chart builders the type of the first
    table argument is checked first; once that argument is a data frame, an
    [outformat] outside ['json'], ['plotly'], ['plotly_html'] fails the call
    with the invalid-outformat [ValueError], whatever the tables hold and
    whatever the remaining arguments are, so before any of the data is read.
    A first argument that is not a data frame fails with the data-frame
    [ValueError] whatever the [outformat]. *)
Theorem outformat_checked_after_type :
  forall (table : DataFrame) (a b : pyarg) (kwargs : list (string * pyval)),
    outformat_ok (kwargs_get kwargs "outformat" (PyStr "plotly")) = false ->
    (hydroviewer_plot (Frame table) a b kwargs = Raise invalid_outformat
     /\ forecast_plot (Frame table) a kwargs = Raise invalid_outformat
     /\ record_plot (Frame table) a kwargs = Raise invalid_outformat
     /\ ensembles_plot (Frame table) a kwargs = Raise invalid_outformat
     /\ historical_plot (Frame table) a kwargs = Raise invalid_outformat_long
     /\ seasonal_plot (Frame table) kwargs = Raise invalid_outformat_long
     /\ flow_duration_curve_plot (Frame table) kwargs = Raise invalid_outformat_long)
    /\ (forall v : pyval,
        hydroviewer_plot (Other v) a b kwargs = Raise not_a_dataframe
        /\ forecast_plot (Other v) a kwargs = Raise not_a_dataframe
        /\ record_plot (Other v) a kwargs = Raise not_a_dataframe
        /\ ensembles_plot (Other v) a kwargs = Raise not_a_dataframe
        /\ historical_plot (Other v) a kwargs = Raise not_a_dataframe
        /\ seasonal_plot (Other v) kwargs = Raise not_a_dataframe
        /\ flow_duration_curve_plot (Other v) kwargs = Raise not_a_dataframe).
Proof.
  intros table a b kwargs Hbad.
  split; [| intros v; repeat split].
  unfold hydroviewer_plot, forecast_plot, record_plot, ensembles_plot,
    historical_plot, seasonal_plot, flow_duration_curve_plot.
  rewrite Hbad.
  repeat split.
Qed.

Lemma outformat_checked_after_type_witness :
  hydroviewer_plot (Frame sample_records) (Other PyNone) (Other PyNone)
    [("outformat"%string, PyStr "xml")] = Raise invalid_outformat
  /\ flow_duration_curve_plot (Frame {| columns := []; rows := [] |})
       [("outformat"%string, PyStr "xml")] = Raise invalid_outformat_long.
Proof.
  destruct (outformat_checked_after_type sample_records (Other PyNone) (Other PyNone)
              [("outformat"%string, PyStr "xml")] eq_refl) as ((H1 & _) & _).
  destruct (outformat_checked_after_type {| columns := []; rows := [] |}
              (Other PyNone) (Other PyNone)
              [("outformat"%string, PyStr "xml")] eq_refl)
    as ((_ & _ & _ & _ & _ & _ & H7) & _).
  split; [exact H1 | exact H7].
Defined.

(** ** C8: unsupported return formats *)

(** C8, refuted as stated: for the format ['xml'] the request has gone out
    by the time the call fails. *)
Lemma rejected_before_io_fails : ~ rejected_before_io.
Proof.
  intros H.
  destruct (H (constant_server "") "http://host/api/"%string
              "ForecastStats/"%string [("reach_id"%string, PyInt 5)] "xml"%string)
    as (e & He).
  - simpl. intros [E | [E | [E | [E | [E | []]]]]]; discriminate E.
  - discriminate He.
Qed.

(** C8, amended.  A return format other than ['csv'], ['json'], ['waterml']
    and ['request'] fails the call with the unsupported-format [ValueError],
    and it does so after the response has been fetched: exactly one request,
    to [endpoint + method] with the given parameters, has been issued. *)
Theorem unsupported_format_fails_after_request :
  forall server endpoint method params return_format,
    ~ In return_format converted_formats ->
    _make_request server endpoint method params return_format
    = ([ {| url := endpoint ++ method; params := params |} ],
       Raise (ValueError ("Unsupported return format requested: " ++ return_format))).
Proof.
  intros server endpoint method params return_format Hnot.
  assert (Hne : forall s, In s converted_formats -> (return_format =? s)%string = false).
  { intros s Hs. apply String.eqb_neq. intros ->. exact (Hnot Hs). }
  unfold _make_request, process.
  rewrite (Hne "request"%string), (Hne "csv"%string), (Hne "json"%string),
    (Hne "waterml"%string) by (simpl; tauto).
  reflexivity.
Qed.

Lemma unsupported_format_fails_after_request_witness :
  ~ In "xml"%string converted_formats
  /\ _make_request (constant_server "") "http://host/api/" "ForecastStats/"
       [("reach_id"%string, PyInt 5)] "xml"
     = ([ {| url := "http://host/api/ForecastStats/";
             params := [("reach_id"%string, PyInt 5)] |} ],
        Raise (ValueError "Unsupported return format requested: xml")).
Proof.
  assert (H : ~ In "xml"%string converted_formats).
  { simpl. intros [E | [E | [E | [E | []]]]]; discriminate E. }
  split; [exact H |].
  exact (unsupported_format_fails_after_request (constant_server "")
           "http://host/api/"%string "ForecastStats/"%string
           [("reach_id"%string, PyInt 5)] "xml"%string H).
Defined.

(** ** C5: the index of a parsed time series *)

Lemma position_lt (name : string) (names : list string) (j : nat) :
  position name names = Some j -> (j < List.length names)%nat.
Proof.
  revert j; induction names as [| n names IH]; simpl; intros j H; [discriminate |].
  destruct (n =? name)%string.
  - injection H as <-. lia.
  - destruct (position name names) as [k |]; [| discriminate].
    injection H as <-. specialize (IH k eq_refl). lia.
Qed.

Lemma nth_map_seq {A : Type} (f : nat -> A) (w j : nat) (d : A) :
  (j < w)%nat -> nth j (map f (seq 0 w)) d = f j.
Proof.
  intros Hj.
  rewrite (nth_indep _ d (f 0%nat)) by (rewrite length_map, length_seq; exact Hj).
  rewrite map_nth. rewrite seq_nth by exact Hj. reflexivity.
Qed.

Lemma index_labels_length (fields : list string) :
  List.length (index_labels fields) = List.length fields.
Proof.
  unfold index_labels.
  destruct (mapM _ fields) as [ls | e] eqn:E.
  - eapply mapM_length; exact E.
  - apply length_map.
Qed.

Lemma map_fst_combine {A B : Type} (l : list A) (l' : list B) :
  List.length l = List.length l' -> map fst (combine l l') = l.
Proof.
  revert l'; induction l as [| a l IH]; intros [| b l']; simpl; intros H;
    try reflexivity; try discriminate.
  f_equal. apply IH. congruence.
Qed.

(** [read_csv] keeps the records in the order of the lines: the index is
    read off the index column line by line. *)
Lemma read_csv_index (body index_col : string) (df : DataFrame) :
  read_csv body index_col = Ok df ->
  exists head records j,
    payload_lines body = head :: records
    /\ position index_col (split_on ","%char head) = Some j
    /\ index df = index_labels (map (field_at j) records)
    /\ len df = List.length records.
Proof.
  unfold read_csv, payload_lines.
  destruct (filter _ (split_on newline body)) as [| head records]; [discriminate |].
  destruct (position index_col (split_on ","%char head)) as [j |] eqn:Hpos;
    [| discriminate].
  intros H. bind_inv H. injection H as <-.
  exists head, records, j. split; [reflexivity |]. split; [exact Hpos |].
  pose proof (@position_lt _ _ _ Hpos) as Hj.
  assert (Hfst : map fst v = map (field_at j) records).
  { clear Hpos. revert v E. induction records as [| line records IH]; simpl; intros v E.
    - injection E as <-. reflexivity.
    - bind_inv E. injection E as <-.
      destruct (_ <? _)%nat; [discriminate |].
      bind_inv E0. injection E0 as <-. simpl.
      rewrite nth_map_seq by exact Hj.
      f_equal. apply IH. assumption. }
  assert (Hlen : List.length v = List.length records) by (eapply mapM_length; exact E).
  unfold index, len; simpl.
  rewrite map_fst_combine
    by (rewrite index_labels_length, !length_map; reflexivity).
  rewrite Hfst. split; [reflexivity |].
  rewrite length_combine, index_labels_length, !length_map, Hlen.
  apply Nat.min_id.
Qed.

(** C5, refuted as stated: the payload with its two rows latest first is
    parsed into an index that runs from 2 January back to 1 January. *)
Lemma parsed_index_increasing_fails : ~ parsed_index_increasing.
Proof.
  intros H.
  specialize (H (constant_server unsorted_payload) "http://host/api/"%string
                "HistoricSimulation/"%string [("reach_id"%string, PyInt 5)]).
  match type of H with
  | forall df, _ -> _ = Ok (Table df) -> _ =>
      assert (Hrun : exists df,
                 snd (_make_request (constant_server unsorted_payload) "http://host/api/"
                        "HistoricSimulation/" [("reach_id"%string, PyInt 5)] "csv")
                 = Ok (Table df)
                 /\ index df = [Stamp 1577923200000000000; Stamp 1577836800000000000])
        by (eexists; split; vm_compute; reflexivity)
  end.
  destruct Hrun as (df & Hrun & Hidx).
  assert (Hs : Sorted stamp_lt (index df)).
  { apply H; [| exact Hrun].
    simpl. intros [E | [E | [E | []]]]; discriminate E. }
  rewrite Hidx in Hs.
  inversion Hs as [| a l _ Hhd]; subst.
  inversion Hhd as [| b l' Hlt]; subst.
  simpl in Hlt. lia.
Qed.

(** C5, amended.  For a method other than the three special ones, the index
    of the table returned for ['csv'] is the ['datetime'] column of the
    payload converted label by label, in the order of the payload's lines:
    nothing is sorted and nothing is dropped, so the index is strictly
    increasing exactly when the payload lists its rows in strictly increasing
    time. *)
Theorem parsed_index_keeps_payload_order :
  forall server endpoint method params df,
    ~ In method special_methods ->
    snd (_make_request server endpoint method params "csv") = Ok (Table df) ->
    exists head records j,
      payload_lines
        (text (server {| url := endpoint ++ method; params := params |}))
      = head :: records
      /\ position "datetime" (split_on ","%char head) = Some j
      /\ mapM to_datetime (index_labels (map (field_at j) records))
         = Ok (index df)
      /\ len df = List.length records.
Proof.
  intros server endpoint method params df Hmeth Hrun.
  assert (Hne : forall s, In s special_methods -> (method =? s)%string = false).
  { intros s Hs. apply String.eqb_neq. intros ->. exact (Hmeth Hs). }
  unfold _make_request, process in Hrun. simpl in Hrun.
  rewrite (Hne "ForecastWarnings/"%string), (Hne "ReturnPeriods/"%string),
    (Hne "SeasonalAverage/"%string) in Hrun by (simpl; tauto).
  bind_inv Hrun. injection Hrun as <-.
  destruct (read_csv_index _ _ _ E) as (head & records & j & Hlines & Hpos & Hidx & Hlen).
  exists head, records, j.
  split; [exact Hlines |]. split; [exact Hpos |].
  assert (Hl : List.length v0 = len v).
  { rewrite <- index_length. eapply mapM_length; exact E0. }
  rewrite index_set_index by exact Hl.
  rewrite <- Hidx. split; [exact E0 |].
  unfold len, set_index; simpl.
  rewrite length_combine, length_map. fold (len v). rewrite Hl, Nat.min_id.
  exact Hlen.
Qed.

Lemma parsed_index_keeps_payload_order_witness :
  exists df,
    snd (_make_request (constant_server unsorted_payload) "http://host/api/"
           "HistoricSimulation/" [("reach_id"%string, PyInt 5)] "csv")
    = Ok (Table df)
    /\ exists head records j,
         payload_lines unsorted_payload = head :: records
         /\ position "datetime" (split_on ","%char head) = Some j
         /\ mapM to_datetime (index_labels (map (field_at j) records))
            = Ok (index df)
         /\ len df = List.length records.
Proof.
  destruct (snd (_make_request (constant_server unsorted_payload) "http://host/api/"
                   "HistoricSimulation/" [("reach_id"%string, PyInt 5)] "csv"))
    as [[df | doc | doc | data] | e] eqn:Hrun;
    try (vm_compute in Hrun; discriminate Hrun).
  exists df. split; [reflexivity |].
  refine (parsed_index_keeps_payload_order (constant_server unsorted_payload)
            "http://host/api/"%string "HistoricSimulation/"%string
            [("reach_id"%string, PyInt 5)] df _ Hrun).
  simpl. intros [E | [E | [E | []]]]; discriminate E.
Defined.

(** ** C6: the labels of the seasonal average *)

(** The calendar of 1900 against the reference mapping, day by day. *)
Lemma calendar_1900_table : forallb calendar_agrees (seq 0 365) = true.
Proof. vm_compute. reflexivity. Qed.

Lemma calendar_agrees_label (n : nat) :
  calendar_agrees n = true ->
  reference_label (Z.of_nat n + 1)
  = Some (strftime_b_d ((days_from_civil 1900 1 1 + Z.of_nat n) * day_ns)).
Proof.
  unfold calendar_agrees.
  destruct (reference_label (Z.of_nat n + 1)) as [s |]; [| discriminate].
  intros H. apply String.eqb_eq in H. rewrite H. reflexivity.
Qed.

Lemma calendar_1900 (d : Z) :
  (0 <= d <= 364)%Z ->
  reference_label (d + 1)
  = Some (strftime_b_d ((days_from_civil 1900 1 1 + d) * day_ns)).
Proof.
  intros Hd.
  rewrite <- (Z2Nat.id d) by lia.
  apply calendar_agrees_label.
  apply (proj1 (forallb_forall calendar_agrees (seq 0 365)) calendar_1900_table).
  apply in_seq. lia.
Qed.

(** What the two conversions make of the labels of the raw index. *)
Lemma seasonal_labels (raw shifted : list label) (stamps : list Z) :
  mapM label_succ raw = Ok shifted ->
  mapM to_datetime_j shifted = Ok stamps ->
  Forall2 (fun r l =>
             exists d, r = Ident d /\ (0 <= d <= 365)%Z
                       /\ l = Text (strftime_b_d ((days_from_civil 1900 1 1 + d) * day_ns)))
    raw (map (fun t => Text (strftime_b_d t)) stamps).
Proof.
  revert shifted stamps.
  induction raw as [| r raw IH]; cbn [mapM]; intros shifted stamps Hs Ht.
  - injection Hs as <-. cbn [mapM] in Ht. injection Ht as <-. constructor.
  - bind_inv Hs. injection Hs as <-. cbn [mapM] in Ht.
    bind_inv Ht. injection Ht as <-. cbn [map].
    constructor; [| eapply IH; eassumption].
    destruct r as [t | s | d]; cbn [label_succ] in E; try discriminate E.
    injection E as <-. unfold to_datetime_j, between in E1.
    destruct ((1 <=? d + 1)%Z && (d + 1 <=? 366)%Z) eqn:Hb; [| discriminate E1].
    injection E1 as <-.
    apply andb_true_iff in Hb. destruct Hb as [H1 H2].
    apply Z.leb_le in H1. apply Z.leb_le in H2.
    exists d. split; [reflexivity |]. split; [lia |].
    rewrite Z.add_simpl_r. reflexivity.
Qed.

(** C6, refuted as stated: the row with index value 1 is labelled "Jan 02",
    whereas day 1 of the reference mapping is "Jan 01". *)
Lemma seasonal_label_is_day_label_fails : ~ seasonal_label_is_day_label.
Proof.
  intros H.
  assert (Hraw : exists raw,
             read_csv seasonal_payload "day_of_year" = Ok raw
             /\ index raw = [Ident 1])
    by (eexists; split; vm_compute; reflexivity).
  assert (Hrun : exists df,
             snd (_make_request (constant_server seasonal_payload) "http://host/api/"
                    "SeasonalAverage/" [("reach_id"%string, PyInt 5)] "csv")
             = Ok (Table df)
             /\ index df = [Text "Jan 02"])
    by (eexists; split; vm_compute; reflexivity).
  destruct Hraw as (raw & Hraw & Hri). destruct Hrun as (df & Hrun & Hdi).
  specialize (H (constant_server seasonal_payload) "http://host/api/"%string
                [("reach_id"%string, PyInt 5)] raw df Hraw Hrun).
  rewrite Hri, Hdi in H.
  inversion H as [| r l rs ls (d & Hd & Hlab) _]; subst.
  injection Hd as <-. vm_compute in Hlab. discriminate Hlab.
Qed.

(** C6, amended.  The parser adds 1 to every index value and reads the sum as
    a day of the year 1900, which is not a leap year.  So an index value [d]
    from 0 to 364 is labelled with day [d + 1] of the reference mapping: 0 is
    "Jan 01", 1 is "Jan 02", 364 is "Dec 31".  The same shift is applied to
    every row, and a table is returned only if every index value is an
    integer from 0 to 365. *)
Theorem seasonal_index_shifted_by_one :
  forall server endpoint params df,
    snd (_make_request server endpoint "SeasonalAverage/" params "csv") = Ok (Table df) ->
    exists raw,
      read_csv (text (server {| url := endpoint ++ "SeasonalAverage/"; params := params |}))
        "day_of_year" = Ok raw
      /\ Forall2 (fun r l =>
                    exists d, r = Ident d /\ (0 <= d <= 365)%Z
                      /\ l = Text (strftime_b_d ((days_from_civil 1900 1 1 + d) * day_ns))
                      /\ ((d <= 364)%Z ->
                          option_map Text (reference_label (d + 1)) = Some l))
           (index raw) (index df).
Proof.
  intros server endpoint params df Hrun.
  unfold _make_request, process in Hrun. simpl in Hrun.
  bind_inv Hrun. injection Hrun as <-.
  exists v. split; [exact E |].
  assert (Hl : List.length (map (fun t => Text (strftime_b_d t)) v1) = len v).
  { rewrite length_map, <- index_length.
    rewrite (mapM_length _ _ _ E1). eapply mapM_length; exact E0. }
  rewrite index_set_index by exact Hl.
  eapply Forall2_impl; [| eapply seasonal_labels; eassumption].
  intros r l (d & Hr & Hd & Hlab).
  exists d. repeat split; try assumption; try lia.
  intros H364. rewrite calendar_1900 by lia. rewrite Hlab. reflexivity.
Qed.

Lemma seasonal_index_shifted_by_one_witness :
  exists df,
    snd (_make_request (constant_server seasonal_payload) "http://host/api/"
           "SeasonalAverage/" [("reach_id"%string, PyInt 5)] "csv")
    = Ok (Table df)
    /\ exists raw,
         read_csv seasonal_payload "day_of_year" = Ok raw
         /\ Forall2 (fun r l =>
                       exists d, r = Ident d /\ (0 <= d <= 365)%Z
                         /\ l = Text (strftime_b_d ((days_from_civil 1900 1 1 + d) * day_ns))
                         /\ ((d <= 364)%Z ->
                             option_map Text (reference_label (d + 1)) = Some l))
              (index raw) (index df).
Proof.
  destruct (snd (_make_request (constant_server seasonal_payload) "http://host/api/"
                   "SeasonalAverage/" [("reach_id"%string, PyInt 5)] "csv"))
    as [[df | doc | doc | data] | e] eqn:Hrun;
    try (vm_compute in Hrun; discriminate Hrun).
  exists df. split; [reflexivity |].
  exact (seasonal_index_shifted_by_one (constant_server seasonal_payload)
           "http://host/api/"%string [("reach_id"%string, PyInt 5)] df Hrun).
Defined.

(** ** C7: the flow duration curve *)

Section SortFacts.

Variable A : Type.
Variable before : A -> A -> bool.
Hypothesis before_total : forall a b, before a b = false -> before b a = true.

Let ordered (a b : A) : Prop := before a b = true.

Lemma insert_perm (a : A) (l : list A) : Permutation (insert before a l) (a :: l).
Proof.
  induction l as [| b l IH]; simpl.
  - apply Permutation_refl.
  - destruct (before a b).
    + apply Permutation_refl.
    + apply perm_trans with (b :: a :: l).
      * apply perm_skip. exact IH.
      * apply perm_swap.
Qed.

Lemma sort_perm (l : list A) : Permutation (sort before l) l.
Proof.
  induction l as [| a l IH]; simpl.
  - apply perm_nil.
  - apply perm_trans with (a :: sort before l).
    + apply insert_perm.
    + apply perm_skip. exact IH.
Qed.

Lemma insert_hd (a b : A) (l : list A) :
  ordered b a -> HdRel ordered b l -> HdRel ordered b (insert before a l).
Proof.
  intros Hba Hl. destruct l as [| c l]; simpl.
  - constructor. exact Hba.
  - destruct (before a c).
    + constructor. exact Hba.
    + constructor. inversion Hl; assumption.
Qed.

Lemma insert_sorted (a : A) (l : list A) :
  Sorted ordered l -> Sorted ordered (insert before a l).
Proof.
  induction 1 as [| b l Hs IH Hhd]; simpl.
  - repeat constructor.
  - destruct (before a b) eqn:Hab.
    + constructor; [constructor; assumption | constructor; exact Hab].
    + constructor; [exact IH |].
      apply insert_hd; [apply before_total; exact Hab | exact Hhd].
Qed.

Lemma sort_sorted (l : list A) : Sorted ordered (sort before l).
Proof.
  induction l as [| a l IH]; simpl.
  - constructor.
  - apply insert_sorted. exact IH.
Qed.

End SortFacts.

Lemma flow_before_total (a b : cell) :
  flow_before a b = false -> flow_before b a = true.
Proof.
  destruct a as [| p], b as [| q]; simpl; try reflexivity; try discriminate.
  intros H. apply Qle_bool_iff.
  destruct (Qlt_le_dec q p) as [Hlt | Hle].
  - apply Qlt_le_weak in Hlt. apply Qle_bool_iff in Hlt. congruence.
  - exact Hle.
Qed.

Lemma Sorted_map {A B : Type} (R : B -> B -> Prop) (f : A -> B) (l : list A) :
  Sorted (fun a b => R (f a) (f b)) l -> Sorted R (map f l).
Proof.
  induction 1 as [| a l Hs IH Hhd]; simpl; constructor.
  - exact IH.
  - destruct Hhd; simpl; constructor. assumption.
Qed.

(** The sorted column: the flows of the table in descending order. *)
Lemma sorted_column (hist sorted : DataFrame) (by_ : string) (flows : Series) :
  sort_values_desc hist by_ = Ok sorted ->
  getitem sorted by_ = Ok flows ->
  exists s,
    getitem hist by_ = Ok s
    /\ Permutation (tolist flows) (tolist s)
    /\ Sorted flow_ge (tolist flows).
Proof.
  unfold sort_values_desc, getitem.
  destruct (position by_ (columns hist)) as [j |] eqn:Hpos; [| discriminate].
  intros Hs. injection Hs as <-. simpl. rewrite Hpos.
  intros Hf. injection Hf as <-.
  eexists. split; [reflexivity |].
  unfold tolist, column_at; simpl. rewrite !map_map; simpl.
  split.
  - apply Permutation_map. apply sort_perm.
  - apply (Sorted_map flow_ge (fun r : label * list cell => nth j (snd r) NaN)).
    apply sort_sorted.
    intros r1 r2. apply flow_before_total.
Qed.

(** The sample curve: flows 3, 2, 1 against probabilities 0, 1/4, 2/4. *)
Lemma sample_curve :
  exists out,
    flow_duration_curve_plot (Frame sample_hist) [("outformat"%string, PyStr "json")]
    = Ok out
    /\ curve_of out = Some ([0 # 8; 2 # 8; 4 # 8], [Num 3; Num 2; Num 1]).
Proof. eexists. split; vm_compute; reflexivity. Qed.

(** C7, refuted as stated: for the observations 1, 3, 2 the largest flow gets
    probability 0, which is neither its ascending average rank 3 nor its
    descending average rank 1 divided by [N + 1 = 4]. *)
Lemma probability_is_rank_over_n1_fails :
  ~ probability_is_rank_over_n1 rankdata
  /\ ~ probability_is_rank_over_n1 rankdata_desc.
Proof.
  destruct sample_curve as (out & Hrun & Hcurve).
  split; intros H; specialize (H _ _ _ _ _ Hrun Hcurve);
    inversion H as [| p r ps rs Hp _]; subst;
    vm_compute in Hp; discriminate Hp.
Qed.

Lemma outformat_emitted (outformat : pyval) (figure : Figure) :
  outformat_ok outformat = true ->
  pyval_eqb outformat (PyStr "json") = false ->
  emit outformat figure = Plotly figure \/ emit outformat figure = PlotlyHtml figure.
Proof.
  unfold outformat_ok, outformats, emit. cbn [existsb].
  intros Hok Hjson. rewrite Hjson in Hok. cbn [orb] in Hok.
  destruct (pyval_eqb outformat (PyStr "plotly")); [left; reflexivity |].
  destruct (pyval_eqb outformat (PyStr "plotly_html")); [right; reflexivity |].
  discriminate Hok.
Qed.

(** C7, amended.  For every table [flow_duration_curve_plot] accepts, the
    chart holds the flows of the ['streamflow (m^3/s)'] column sorted in
    descending order (missing values last), each paired with the probability
    [(N - r) / (N + 1)], where [N] is the number of observations and [r] the
    ascending average rank that [rankdata] gives the flow; that is, one less
    than the descending average rank, over [N + 1], so that a single largest
    flow has probability 0.  The figure has no severity bands. *)
Theorem flow_duration_curve :
  forall hist kwargs out,
    flow_duration_curve_plot (Frame hist) kwargs = Ok out ->
    exists s probs flows,
      getitem hist "streamflow (m^3/s)" = Ok s
      /\ Permutation flows (tolist s)
      /\ Sorted flow_ge flows
      /\ curve_of out = Some (probs, flows)
      /\ probs
         = map (fun r => r / inject_Z (Z.of_nat (List.length flows) + 1))
             (map (fun r => inject_Z (Z.of_nat (List.length flows)) - r) (rankdata flows))
      /\ Forall2 Qeq probs
           (map (fun r => (r - 1) / inject_Z (Z.of_nat (List.length flows) + 1))
              (rankdata_desc flows))
      /\ (forall f, figure_of out = Some f -> shapes (layout f) = []).
Proof.
  intros hist kwargs out Hrun.
  unfold flow_duration_curve_plot in Hrun.
  destruct (outformat_ok _) eqn:Hok; [| discriminate Hrun].
  cbn [negb] in Hrun.
  bind_inv Hrun.
  destruct (sorted_column hist v "streamflow (m^3/s)" v0 E E0) as (s & Hs & Hperm & Hsorted).
  assert (Hlen : len hist = List.length (tolist v0)).
  { unfold len. rewrite (Permutation_length Hperm).
    unfold getitem in Hs.
    destruct (position _ (columns hist)); [| discriminate Hs].
    injection Hs as <-. unfold tolist, column_at. rewrite !length_map. reflexivity. }
  rewrite Hlen in Hrun.
  exists s. eexists. exists (tolist v0).
  split; [exact Hs |]. split; [exact Hperm |]. split; [exact Hsorted |].
  destruct (pyval_eqb _ (PyStr "json")) eqn:Hjson.
  - injection Hrun as <-.
    split; [reflexivity |]. split; [reflexivity |]. split; [| discriminate].
    unfold rankdata_desc. rewrite !map_map.
    generalize (rankdata (tolist v0)); intros ranks.
    induction ranks as [| r ranks IH]; simpl; constructor; [| exact IH].
    unfold Qdiv. apply Qmult_comp; [| reflexivity]. ring.
  - injection Hrun as <-.
    match goal with
    | |- context [emit ?o ?fig] =>
        destruct (outformat_emitted o fig Hok Hjson) as [-> | ->]
    end;
      (split; [reflexivity |]; split; [reflexivity |]; split;
       [| intros f Hf; injection Hf as <-; reflexivity]);
      unfold rankdata_desc; rewrite !map_map;
      generalize (rankdata (tolist v0)); intros ranks;
      (induction ranks as [| r ranks IH]; simpl; constructor; [| exact IH]);
      unfold Qdiv; apply Qmult_comp; [| reflexivity | | reflexivity]; ring.
Qed.

Lemma flow_duration_curve_witness :
  exists out s probs flows,
    flow_duration_curve_plot (Frame sample_hist) [("outformat"%string, PyStr "json")]
    = Ok out
    /\ getitem sample_hist "streamflow (m^3/s)" = Ok s
    /\ Permutation flows (tolist s)
    /\ Sorted flow_ge flows
    /\ curve_of out = Some (probs, flows).
Proof.
  destruct (flow_duration_curve_plot (Frame sample_hist)
              [("outformat"%string, PyStr "json")]) as [out | e] eqn:Hrun;
    [| vm_compute in Hrun; discriminate Hrun].
  destruct (flow_duration_curve sample_hist [("outformat"%string, PyStr "json")] out Hrun)
    as (s & probs & flows & Hs & Hperm & Hsorted & Hcurve & _).
  exists out, s, probs, flows.
  repeat split; assumption.
Defined.

(** ** C3: the exceedance tallies *)

Lemma tally_counts (rp2 rp10 rp20 : cell) (cols : list (list cell)) (n2 n10 n20 : Z) :
  tally rp2 rp10 rp20 cols (n2, n10, n20)
  = (n2 + Z.of_nat (List.length (filter (above20 rp20) cols))
        + Z.of_nat (List.length (filter (above10_only rp10 rp20) cols))
        + Z.of_nat (List.length (filter (above2_only rp2 rp10 rp20) cols)),
     n10 + Z.of_nat (List.length (filter (above20 rp20) cols))
         + Z.of_nat (List.length (filter (above10_only rp10 rp20) cols)),
     n20 + Z.of_nat (List.length (filter (above20 rp20) cols)))%Z.
Proof.
  revert n2 n10 n20.
  induction cols as [| column cols IH]; intros n2 n10 n20.
  - simpl. apply f_equal2; [apply f_equal2 |]; lia.
  - cbn [tally filter]. unfold above20, above10_only, above2_only in *.
    destruct (exceeds rp20 column); [| destruct (exceeds rp10 column);
                                       [| destruct (exceeds rp2 column)]];
      rewrite IH; cbn [negb andb List.length];
      (apply f_equal2; [apply f_equal2 |]); lia.
Qed.

Lemma py_round_bounds (q : Q) :
  (Qfloor q <= py_round q <= Qfloor q + 1)%Z.
Proof.
  unfold py_round. cbv zeta.
  destruct (Qcompare _ _); [destruct (Z.even _) | |]; lia.
Qed.

Lemma compare_half (r : Q) :
  match Qcompare r (1 # 2) with
  | Eq => r == 1 # 2
  | Lt => r < 1 # 2
  | Gt => 1 # 2 < r
  end.
Proof.
  destruct (Qcompare r (1 # 2)) eqn:C.
  - apply Qeq_alt. exact C.
  - apply Qlt_alt. exact C.
  - apply Qgt_alt in C. exact C.
Qed.

(** [round] is monotone. *)
Lemma py_round_mono (p q : Q) : p <= q -> (py_round p <= py_round q)%Z.
Proof.
  intros Hpq.
  pose proof (Qfloor_resp_le _ _ Hpq) as Hfl.
  destruct (Z.eq_dec (Qfloor p) (Qfloor q)) as [Heq | Hne].
  - unfold py_round. cbv zeta. rewrite <- Heq.
    pose proof (compare_half (p - inject_Z (Qfloor p))) as Cp.
    pose proof (compare_half (q - inject_Z (Qfloor p))) as Cq.
    destruct (Qcompare (p - inject_Z (Qfloor p)) (1 # 2));
      destruct (Qcompare (q - inject_Z (Qfloor p)) (1 # 2));
      try (destruct (Z.even (Qfloor p))); try lia; exfalso; lra.
  - pose proof (py_round_bounds p). pose proof (py_round_bounds q). lia.
Qed.

Lemma percent_mono (a b : Z) : (a <= b)%Z -> (percent a <= percent b)%Z.
Proof.
  intros Hab. unfold percent. apply py_round_mono.
  unfold Qdiv. apply Qmult_le_compat_r; [| discriminate].
  rewrite <- Zle_Qle. lia.
Qed.

Lemma fold_day_step_raise (ensembles : DataFrame) (rp2 rp10 rp20 : cell)
  (wins : list (Z * Z)) (e : exn) :
  fold_left (day_step ensembles rp2 rp10 rp20) wins (Raise e) = Raise e.
Proof. induction wins as [| w wins IH]; simpl; [reflexivity | exact IH]. Qed.

(** What the loop over the days appends to the four lists. *)
Lemma fold_day_step (ensembles : DataFrame) (rp2 rp10 rp20 : cell)
  (wins : list (Z * Z)) (ctx0 ctx : Context) :
  fold_left (day_step ensembles rp2 rp10 rp20) wins (Ok ctx0) = Ok ctx ->
  exists tmps,
    mapM (fun w => loc_slice ensembles (fst w) (snd w)) wins = Ok tmps
    /\ days ctx = days ctx0 ++ map (fun w => strftime_b_d (fst w)) wins
    /\ r2 ctx = r2 ctx0
                ++ map (fun tmp => percent (members (above20 rp20) tmp
                                            + members (above10_only rp10 rp20) tmp
                                            + members (above2_only rp2 rp10 rp20) tmp)) tmps
    /\ r10 ctx = r10 ctx0
                 ++ map (fun tmp => percent (members (above20 rp20) tmp
                                             + members (above10_only rp10 rp20) tmp)) tmps
    /\ r20 ctx = r20 ctx0 ++ map (fun tmp => percent (members (above20 rp20) tmp)) tmps.
Proof.
  revert ctx0.
  induction wins as [| w wins IH]; intros ctx0 H.
  - simpl in H. injection H as <-. exists []. simpl.
    rewrite !app_nil_r. repeat split; reflexivity.
  - cbn [fold_left] in H.
    unfold day_step at 2 in H. cbn [bind] in H.
    destruct (loc_slice ensembles (fst w) (snd w)) as [tmp | e] eqn:Hslice;
      cbn [bind] in H; [| rewrite fold_day_step_raise in H; discriminate H].
    rewrite tally_counts in H.
    apply IH in H. destruct H as (tmps & Hm & Hd & H2 & H10 & H20).
    cbn [days r2 r10 r20] in Hd, H2, H10, H20.
    exists (tmp :: tmps). cbn [mapM bind map]. rewrite Hslice, Hm. cbn [bind].
    rewrite Hd, H2, H10, H20, <- !app_assoc. unfold members.
    repeat split; reflexivity.
Qed.

Lemma members_nonneg (p : list cell -> bool) (tmp : DataFrame) : (0 <= members p tmp)%Z.
Proof. unfold members. lia. Qed.

(** The steps [probabilities_table] has gone through when it returns. *)
Lemma probabilities_table_ok (dates : list string) (ensembles rperiods : DataFrame)
  (ctx : Context) :
  probabilities_table dates ensembles rperiods = Ok ctx ->
  exists startdate enddate start_datetime end_datetime rp2 rp10 rp20,
    first dates = Ok startdate /\ last_item dates = Ok enddate
    /\ strptime startdate = Ok start_datetime /\ strptime enddate = Ok end_datetime
    /\ iloc_first rperiods 3 = Ok rp2
    /\ iloc_first rperiods 2 = Ok rp10
    /\ iloc_first rperiods 1 = Ok rp20
    /\ fold_left (day_step ensembles rp2 rp10 rp20)
         (day_windows start_datetime end_datetime) (Ok empty_context) = Ok ctx.
Proof.
  unfold probabilities_table. intros H. bind_inv H.
  exists v, v0, v1, v2, v3, v4, v5. repeat split; assumption.
Qed.

Lemma monotonic_increasing_cons (x : Z) (l : list Z) :
  is_monotonic_increasing (x :: l) = true ->
  Forall (fun y => (x <= y)%Z) l /\ is_monotonic_increasing l = true.
Proof.
  revert x. induction l as [| y l IH]; intros x H.
  - split; [constructor | reflexivity].
  - cbn [is_monotonic_increasing] in H. apply andb_prop in H. destruct H as [Hxy Hl].
    apply Z.leb_le in Hxy. split; [| exact Hl].
    destruct (IH y Hl) as [Hy _].
    constructor; [exact Hxy |].
    eapply Forall_impl; [| exact Hy]. cbv beta. intros z Hz. lia.
Qed.

Lemma count_where_none (p : Z -> bool) (l : list Z) :
  Forall (fun y => p y = false) l -> count_where p l = 0%nat.
Proof.
  unfold count_where. induction 1 as [| y l Hy _ IH]; [reflexivity |].
  cbn [filter]. rewrite Hy. exact IH.
Qed.

Lemma count_where_cons (p : Z -> bool) (x : Z) (l : list Z) :
  count_where p (x :: l) = ((if p x then 1 else 0) + count_where p l)%nat.
Proof. unfold count_where. cbn [filter]. destruct (p x); reflexivity. Qed.

Lemma count_where_le_split (b : Z) (l : list Z) :
  count_where (fun x => (x <=? b)%Z) l
  = (count_where (fun x => (x <? b)%Z) l + count_where (fun x => (x =? b)%Z) l)%nat.
Proof.
  induction l as [| x l IH]; [reflexivity |].
  rewrite !count_where_cons, IH.
  destruct (Z.leb_spec x b), (Z.ltb_spec x b), (Z.eqb_spec x b); lia.
Qed.

(** On an ascending index the occurrences of a label stand together, right
    after the labels below it. *)
Lemma positions_from_sorted (t : Z) (l : list Z) (i : nat) :
  is_monotonic_increasing l = true ->
  positions_from t l i
  = seq (i + count_where (fun x => (x <? t)%Z) l) (count_where (fun x => (x =? t)%Z) l).
Proof.
  revert i. induction l as [| x l IH]; intros i Hl.
  - reflexivity.
  - destruct (monotonic_increasing_cons _ _ Hl) as [Hx Hl'].
    cbn [positions_from]. rewrite !count_where_cons, (IH (S i) Hl').
    destruct (Z.eqb_spec x t) as [-> | Hne].
    + rewrite Z.ltb_irrefl.
      rewrite (count_where_none (fun x => (x <? t)%Z) l).
      * cbn [Nat.add seq]. rewrite !Nat.add_0_r. reflexivity.
      * eapply Forall_impl; [| exact Hx]. cbv beta. intros y Hy. apply Z.ltb_ge. exact Hy.
    + destruct (Z.ltb_spec x t) as [Hlt | Hge].
      * cbn [Nat.add]. rewrite <- plus_n_Sm. reflexivity.
      * rewrite (count_where_none (fun x => (x <? t)%Z) l),
                (count_where_none (fun x => (x =? t)%Z) l).
        -- reflexivity.
        -- eapply Forall_impl; [| exact Hx]. cbv beta. intros y Hy. apply Z.eqb_neq. lia.
        -- eapply Forall_impl; [| exact Hx]. cbv beta. intros y Hy. apply Z.ltb_ge. lia.
Qed.

Lemma last_seq (s n d : nat) :
  List.last (seq (S s) n) d = match n with O => d | S _ => (s + n)%nat end.
Proof.
  revert s d. induction n as [| n IH]; intros s d; [reflexivity |].
  cbn [seq]. destruct n as [| n].
  - cbn. lia.
  - change (List.last (S s :: seq (S (S s)) (S n)) d) with (List.last (seq (S (S s)) (S n)) d).
    rewrite IH. lia.
Qed.

(** The two bounds of a slice on an ascending index: the labels below [a]
    stand before the slice, the labels up to [b] before its end. *)
Lemma get_slice_bound_sorted (t : Z) (l : list Z) :
  is_monotonic_increasing l = true ->
  get_slice_bound true t l = Ok (count_where (fun x => (x <? t)%Z) l)
  /\ get_slice_bound false t l = Ok (count_where (fun x => (x <=? t)%Z) l).
Proof.
  intros Hl. unfold get_slice_bound, get_loc.
  rewrite (positions_from_sorted t l 0 Hl), count_where_le_split, Hl.
  cbn [Nat.add].
  destruct (count_where (fun x => (x =? t)%Z) l) as [| n].
  - cbn [seq]. rewrite Nat.add_0_r. split; reflexivity.
  - cbn [seq]. rewrite last_seq, length_seq.
    set (s := count_where (fun x => (x <? t)%Z) l).
    assert (Hq : ((match n with O => s | S _ => s + n end) = s + n)%nat)
      by (destruct n; lia).
    rewrite Hq.
    replace (s + n + 1 - s =? S n)%nat with true by (symmetry; apply Nat.eqb_eq; lia).
    split; [reflexivity | f_equal; lia].
Qed.

Lemma firstn_sorted_rows (a b : Z) (rs : list (label * list cell)) (ts : list Z) :
  stamps_of (map fst rs) = Some ts ->
  is_monotonic_increasing ts = true ->
  Forall (fun t => (a <= t)%Z) ts ->
  firstn (count_where (fun x => (x <=? b)%Z) ts) rs = filter (in_window a b) rs.
Proof.
  revert ts. induction rs as [| [lab cells] rs IH]; intros ts Hst Hl Ha.
  - rewrite firstn_nil. reflexivity.
  - cbn [map fst stamps_of] in Hst.
    destruct lab as [t | |]; try discriminate Hst.
    destruct (stamps_of (map fst rs)) as [ts' |] eqn:Hst'; [| discriminate Hst].
    cbn [option_map] in Hst. injection Hst as <-.
    destruct (monotonic_increasing_cons _ _ Hl) as [Ht Hl'].
    inversion Ha as [| ? ? Hat Ha']; subst.
    rewrite count_where_cons. cbn [filter]. unfold in_window at 1. cbn [fst].
    replace (a <=? t)%Z with true by (symmetry; apply Z.leb_le; exact Hat).
    cbn [andb].
    destruct (Z.leb_spec t b) as [Hle | Hgt].
    + cbn [Nat.add firstn]. f_equal. apply (IH ts' eq_refl Hl' Ha').
    + pose proof (IH ts' eq_refl Hl' Ha') as Hrest.
      rewrite (count_where_none (fun x => (x <=? b)%Z) ts') in Hrest |- *.
      * cbn [Nat.add firstn] in Hrest |- *. exact Hrest.
      * eapply Forall_impl; [| exact Ht]. cbv beta. intros y Hy. apply Z.leb_gt. lia.
      * eapply Forall_impl; [| exact Ht]. cbv beta. intros y Hy. apply Z.leb_gt. lia.
Qed.

Lemma slice_sorted_rows (a b : Z) (rs : list (label * list cell)) (ts : list Z) :
  (a <= b)%Z ->
  stamps_of (map fst rs) = Some ts ->
  is_monotonic_increasing ts = true ->
  firstn (count_where (fun x => (x <=? b)%Z) ts - count_where (fun x => (x <? a)%Z) ts)
         (skipn (count_where (fun x => (x <? a)%Z) ts) rs)
  = filter (in_window a b) rs.
Proof.
  intros Hab. revert ts. induction rs as [| [lab cells] rs IH]; intros ts Hst Hl.
  - rewrite skipn_nil, firstn_nil. reflexivity.
  - pose proof Hst as Hst0.
    cbn [map fst stamps_of] in Hst.
    destruct lab as [t | |]; try discriminate Hst.
    destruct (stamps_of (map fst rs)) as [ts' |] eqn:Hst'; [| discriminate Hst].
    cbn [option_map] in Hst. injection Hst as <-.
    destruct (monotonic_increasing_cons _ _ Hl) as [Ht Hl'].
    destruct (Z.ltb_spec t a) as [Hlt | Hge].
    + rewrite !count_where_cons.
      replace (t <? a)%Z with true by (symmetry; apply Z.ltb_lt; exact Hlt).
      replace (t <=? b)%Z with true by (symmetry; apply Z.leb_le; lia).
      cbn [Nat.add Nat.sub skipn filter]. unfold in_window at 1. cbn [fst].
      replace (a <=? t)%Z with false by (symmetry; apply Z.leb_gt; exact Hlt).
      cbn [andb]. apply (IH ts' eq_refl Hl').
    + rewrite (count_where_none (fun x => (x <? a)%Z) (t :: ts')).
      * rewrite Nat.sub_0_r. cbn [skipn].
        apply (firstn_sorted_rows a b _ (t :: ts') Hst0 Hl).
        constructor; [exact Hge |].
        eapply Forall_impl; [| exact Ht]. cbv beta. intros y Hy. lia.
      * constructor; [apply Z.ltb_ge; exact Hge |].
        eapply Forall_impl; [| exact Ht]. cbv beta. intros y Hy. apply Z.ltb_ge. lia.
Qed.

Lemma increasing_stamps (l : list label) :
  increasing l = true ->
  exists ts, stamps_of l = Some ts /\ is_monotonic_increasing ts = true.
Proof.
  induction l as [| lab l IH]; intros H.
  - exists []. split; reflexivity.
  - destruct lab as [a | |]; try discriminate H.
    destruct l as [| lab' l].
    + exists [a]. split; reflexivity.
    + destruct lab' as [b | |]; try discriminate H.
      cbn [increasing] in H. apply andb_prop in H. destruct H as [Hab Hl].
      destruct (IH Hl) as (ts & Hts & Hmono).
      cbn [stamps_of] in Hts |- *.
      destruct (stamps_of l) as [ts' |]; [| discriminate Hts].
      cbn [option_map] in Hts |- *. injection Hts as <-.
      exists (a :: b :: ts'). split; [reflexivity |].
      cbn [is_monotonic_increasing] in Hmono |- *. rewrite Hab. exact Hmono.
Qed.

(** On a table indexed by ascending timestamps [df.loc[a:b]] holds the rows
    whose timestamp lies between [a] and [b], both included. *)
Lemma loc_slice_sorted (df : DataFrame) (a b : Z) :
  increasing (index df) = true -> (a <= b)%Z ->
  loc_slice df a b = Ok (rows_between df a b).
Proof.
  intros Hinc Hab.
  destruct (increasing_stamps _ Hinc) as (ts & Hts & Hmono).
  unfold loc_slice. rewrite Hts.
  destruct (get_slice_bound_sorted a ts Hmono) as [Hleft _].
  destruct (get_slice_bound_sorted b ts Hmono) as [_ Hright].
  rewrite Hleft, Hright. cbn [bind]. unfold rows_between. f_equal. f_equal.
  apply (slice_sorted_rows a b (rows df) ts Hab Hts Hmono).
Qed.

(** The pairs of neighbours of a list given by its positions. *)
Lemma windows_map_seq (f : nat -> Z) (k n : nat) :
  windows (map f (seq k (S n))) = map (fun i => (f i, f (S i))) (seq k n).
Proof.
  revert k. induction n as [| n IH]; intros k; [reflexivity |].
  cbn [seq map windows]. f_equal.
  rewrite <- (IH (S k)). reflexivity.
Qed.

(** The windows of the table are the 24 hours from the first timestamp, then
    the next 24 hours, and so on: window [i] runs from [i] days after the
    first timestamp to [i + 1] days after it. *)
Lemma day_windows_explicit (start_datetime end_datetime : Z) :
  day_windows start_datetime end_datetime
  = map (fun i => (start_datetime + Z.of_nat i * day_ns,
                   start_datetime + (Z.of_nat i + 1) * day_ns)%Z)
      (seq 0 (Z.to_nat ((end_datetime - start_datetime) / day_ns + 1))).
Proof.
  unfold day_windows.
  set (d := ((end_datetime - start_datetime) / day_ns)%Z).
  destruct (Z_lt_le_dec (d + 1) 0) as [Hneg | Hpos].
  - replace (Z.to_nat (d + 2)) with 0%nat by lia.
    replace (Z.to_nat (d + 1)) with 0%nat by lia.
    reflexivity.
  - replace (Z.to_nat (d + 2)) with (S (Z.to_nat (d + 1))) by lia.
    rewrite windows_map_seq. apply map_ext. intros i.
    rewrite Nat2Z.inj_succ. unfold Z.succ. reflexivity.
Qed.

Lemma day_windows_ordered (start_datetime end_datetime : Z) :
  Forall (fun w => (fst w <= snd w)%Z) (day_windows start_datetime end_datetime).
Proof.
  rewrite day_windows_explicit. apply Forall_map. apply Forall_forall.
  intros i _. cbn [fst snd].
  assert (Hday : (0 < day_ns)%Z) by reflexivity.
  nia.
Qed.

Lemma mapM_loc_slice_sorted (ensembles : DataFrame) (wins : list (Z * Z)) :
  increasing (index ensembles) = true ->
  Forall (fun w => (fst w <= snd w)%Z) wins ->
  mapM (fun w => loc_slice ensembles (fst w) (snd w)) wins
  = Ok (map (fun w => rows_between ensembles (fst w) (snd w)) wins).
Proof.
  intros Hinc Hwins.
  induction Hwins as [| w wins Hw _ IH]; [reflexivity |].
  cbn [mapM map]. rewrite (loc_slice_sorted _ _ _ Hinc Hw), IH. reflexivity.
Qed.

(** On a sorted timestamp index every window can be cut out, so the loop over
    the days runs to its end. *)
Lemma fold_day_step_returns (ensembles : DataFrame) (rp2 rp10 rp20 : cell)
  (wins : list (Z * Z)) (ctx0 : Context) :
  increasing (index ensembles) = true ->
  Forall (fun w => (fst w <= snd w)%Z) wins ->
  exists ctx, fold_left (day_step ensembles rp2 rp10 rp20) wins (Ok ctx0) = Ok ctx.
Proof.
  intros Hinc Hwins. revert ctx0.
  induction Hwins as [| w wins Hw _ IH]; intros ctx0.
  - exists ctx0. reflexivity.
  - cbn [fold_left]. unfold day_step at 2. cbn [bind].
    rewrite (loc_slice_sorted _ _ _ Hinc Hw). cbn [bind].
    rewrite tally_counts. apply IH.
Qed.

(** [probabilities_table] returns a context as soon as the first and last
    dates parse, the ensembles are indexed by increasing timestamps and the
    rows at positions 1 to 3 of the return period table have a first cell. *)
Lemma probabilities_table_returns (dates : list string) (ensembles rperiods : DataFrame)
  (startdate enddate : string) (start_datetime end_datetime : Z) (rp2 rp10 rp20 : cell) :
  first dates = Ok startdate -> last_item dates = Ok enddate ->
  strptime startdate = Ok start_datetime -> strptime enddate = Ok end_datetime ->
  iloc_first rperiods 3 = Ok rp2 ->
  iloc_first rperiods 2 = Ok rp10 ->
  iloc_first rperiods 1 = Ok rp20 ->
  increasing (index ensembles) = true ->
  exists ctx, probabilities_table dates ensembles rperiods = Ok ctx.
Proof.
  intros Hf Hl Hs He H2 H10 H20 Hinc.
  unfold probabilities_table.
  rewrite Hf, Hl. cbn [bind]. rewrite Hs, He. cbn [bind].
  rewrite H2, H10, H20. cbn [bind].
  apply fold_day_step_returns; [exact Hinc |].
  apply (day_windows_ordered start_datetime end_datetime).
Qed.

(** The scenario of the specification: 7 members of 52 make 13 percent, 2
    members make 4 percent. *)
Example percent_of_members : percent 7 = 13%Z /\ percent 2 = 4%Z.
Proof. split; reflexivity. Qed.

(** C3, as the specification words it, fails.  The windows are not calendar
    days: each runs for 24 hours from the hour of the first date.  In the
    sample the forecast starts at 6 o'clock of January 1st and the member
    [ensemble_01] exceeds the 20-year threshold at 3 o'clock of January 2nd
    only.  No member exceeds a threshold on January 1st, and the table
    reports 2 percent of the members above the 20-year threshold for that
    day. *)
Lemma tallies_by_calendar_day_fails : ~ tallies_by_calendar_day.
Proof.
  intros H.
  assert (Hrun : probabilities_table sample_dates_morning sample_ensembles_morning
                   sample_thresholds
                 = Ok {| days := ["Jan 01"; "Jan 02"]%string;
                         r2 := [4; 0]%Z; r10 := [2; 0]%Z; r20 := [2; 0]%Z |})
    by (vm_compute; reflexivity).
  assert (Hstart : strptime "2020-01-01 06:00:00" = Ok 1577858400000000000%Z)
    by (vm_compute; reflexivity).
  assert (Hday : (0 < 2)%nat) by lia.
  destruct (H sample_dates_morning sample_ensembles_morning sample_thresholds _
              "2020-01-01 06:00:00"%string 1577858400000000000%Z
              (Num 12) (Num 20) (Num 30) 0%nat
              Hrun eq_refl Hstart eq_refl eq_refl eq_refl Hday) as (H20 & _ & _).
  vm_compute in H20. discriminate H20.
Qed.

(** The windows are closed at both ends, so a row that stands where one
    window ends and the next begins is counted in both: in the sample that
    starts at midnight the member [ensemble_02] exceeds the 10-year threshold
    at midnight of January 2nd only, and is counted for January 1st and for
    January 2nd. *)
Example boundary_row_counted_twice :
  probabilities_table sample_dates sample_ensembles sample_thresholds
  = Ok {| days := ["Jan 01"; "Jan 02"]%string;
          r2 := [4; 2]%Z; r10 := [4; 2]%Z; r20 := [2; 0]%Z |}
  /\ members (above10_only (Num 20) (Num 30))
       (rows_on_day sample_ensembles (1577836800000000000 / day_ns)) = 0%Z
  /\ members (above10_only (Num 20) (Num 30))
       (rows_between sample_ensembles 1577836800000000000 1577923200000000000) = 1%Z
  /\ members (above10_only (Num 20) (Num 30))
       (rows_between sample_ensembles 1577923200000000000 1578009600000000000) = 1%Z.
Proof. vm_compute. repeat split; reflexivity. Qed.

(** On a table whose rows run from the latest timestamp to the earliest the
    label slices are empty, and every percentage is zero although members
    exceed the thresholds on both days. *)
Example descending_table_counts_nothing :
  probabilities_table sample_dates sample_ensembles_descending sample_thresholds
  = Ok {| days := ["Jan 01"; "Jan 02"]%string;
          r2 := [0; 0]%Z; r10 := [0; 0]%Z; r20 := [0; 0]%Z |}.
Proof. vm_compute. reflexivity. Qed.

(** C3, amended.  Whenever [probabilities_table] returns, its windows are
    read off the first and the last date of [stats]: window [i] runs from [i]
    days after the first date, with its hour, to [i + 1] days after it, one
    window for each whole day between the two dates and one more.  Each
    window is cut out of the ensembles table as the label slice from its
    start to its end; on a table indexed by ascending timestamps that slice
    holds the rows whose timestamp lies in the window, both ends included.
    Within the slice each member is counted by the highest threshold it
    exceeds: the 20-year tally is the number of members that exceed the
    20-year threshold, the 10-year tally adds those that exceed the 10-year
    but not the 20-year threshold, and the 2-year tally adds those that
    exceed only the 2-year threshold.  Hence the tallies decrease from 2 to
    10 to 20 years, each percentage is [round(count * 100 / 52)], and the
    percentages decrease likewise. *)
Theorem exceedance_tallies :
  forall dates ensembles rperiods ctx,
    probabilities_table dates ensembles rperiods = Ok ctx ->
    exists startdate enddate start_datetime end_datetime rp2 rp10 rp20 wins tmps,
      first dates = Ok startdate
      /\ last_item dates = Ok enddate
      /\ strptime startdate = Ok start_datetime
      /\ strptime enddate = Ok end_datetime
      /\ iloc_first rperiods 3 = Ok rp2
      /\ iloc_first rperiods 2 = Ok rp10
      /\ iloc_first rperiods 1 = Ok rp20
      /\ wins = map (fun i => (start_datetime + Z.of_nat i * day_ns,
                               start_datetime + (Z.of_nat i + 1) * day_ns)%Z)
                  (seq 0 (Z.to_nat ((end_datetime - start_datetime) / day_ns + 1)))
      /\ mapM (fun w => loc_slice ensembles (fst w) (snd w)) wins = Ok tmps
      /\ (increasing (index ensembles) = true ->
          tmps = map (fun w => rows_between ensembles (fst w) (snd w)) wins)
      /\ days ctx = map (fun w => strftime_b_d (fst w)) wins
      /\ r20 ctx
         = map (fun tmp =>
                  py_round (inject_Z (members (above20 rp20) tmp * 100) / 52)) tmps
      /\ r10 ctx
         = map (fun tmp =>
                  py_round (inject_Z ((members (above20 rp20) tmp
                                       + members (above10_only rp10 rp20) tmp) * 100) / 52))
             tmps
      /\ r2 ctx
         = map (fun tmp =>
                  py_round (inject_Z ((members (above20 rp20) tmp
                                       + members (above10_only rp10 rp20) tmp
                                       + members (above2_only rp2 rp10 rp20) tmp) * 100) / 52))
             tmps
      /\ Forall (fun tmp =>
                   (0 <= members (above20 rp20) tmp
                    <= members (above20 rp20) tmp + members (above10_only rp10 rp20) tmp)%Z
                   /\ (members (above20 rp20) tmp + members (above10_only rp10 rp20) tmp
                       <= members (above20 rp20) tmp + members (above10_only rp10 rp20) tmp
                          + members (above2_only rp2 rp10 rp20) tmp)%Z) tmps
      /\ (forall i p2 p10 p20,
          nth_error (r2 ctx) i = Some p2 ->
          nth_error (r10 ctx) i = Some p10 ->
          nth_error (r20 ctx) i = Some p20 ->
          (p20 <= p10 <= p2)%Z).
Proof.
  intros dates ensembles rperiods ctx Hrun.
  destruct (probabilities_table_ok _ _ _ _ Hrun)
    as (startdate & enddate & start_datetime & end_datetime & rp2 & rp10 & rp20
        & Hfirst & Hlast & Hstart & Hend & H2 & H10 & H20 & Hfold).
  destruct (fold_day_step _ _ _ _ _ _ _ Hfold) as (tmps & Hm & Hd & Hr2 & Hr10 & Hr20).
  cbn [empty_context days r2 r10 r20 app] in Hd, Hr2, Hr10, Hr20.
  pose proof (day_windows_ordered start_datetime end_datetime) as Hord.
  rewrite day_windows_explicit in Hm, Hd, Hord.
  exists startdate, enddate, start_datetime, end_datetime, rp2, rp10, rp20.
  eexists. exists tmps.
  split; [exact Hfirst |]. split; [exact Hlast |].
  split; [exact Hstart |]. split; [exact Hend |].
  split; [exact H2 |]. split; [exact H10 |]. split; [exact H20 |].
  split; [reflexivity |].
  split; [exact Hm |].
  split.
  { intros Hinc. rewrite (mapM_loc_slice_sorted _ _ Hinc Hord) in Hm.
    injection Hm as <-. reflexivity. }
  split; [exact Hd |].
  split; [exact Hr20 |]. split; [exact Hr10 |]. split; [exact Hr2 |].
  split.
  - apply Forall_forall. intros tmp _.
    pose proof (members_nonneg (above20 rp20) tmp).
    pose proof (members_nonneg (above10_only rp10 rp20) tmp).
    pose proof (members_nonneg (above2_only rp2 rp10 rp20) tmp).
    lia.
  - intros i p2 p10 p20. rewrite Hr2, Hr10, Hr20, !nth_error_map.
    destruct (nth_error tmps i) as [tmp |]; cbn [option_map]; [| discriminate].
    intros E2 E10 E20. injection E2 as <-. injection E10 as <-. injection E20 as <-.
    pose proof (members_nonneg (above10_only rp10 rp20) tmp).
    pose proof (members_nonneg (above2_only rp2 rp10 rp20) tmp).
    split; apply percent_mono; lia.
Qed.

Lemma exceedance_tallies_witness :
  exists ctx,
    probabilities_table sample_dates sample_ensembles sample_thresholds = Ok ctx
    /\ r2 ctx = [4; 2]%Z /\ r10 ctx = [4; 2]%Z /\ r20 ctx = [2; 0]%Z
    /\ (forall i p2 p10 p20,
        nth_error (r2 ctx) i = Some p2 ->
        nth_error (r10 ctx) i = Some p10 ->
        nth_error (r20 ctx) i = Some p20 ->
        (p20 <= p10 <= p2)%Z).
Proof.
  destruct (probabilities_table sample_dates sample_ensembles sample_thresholds)
    as [ctx | e] eqn:Hrun; [| vm_compute in Hrun; discriminate Hrun].
  exists ctx. split; [reflexivity |].
  destruct (exceedance_tallies sample_dates sample_ensembles sample_thresholds ctx Hrun)
    as (sd & ed & s & e & rp2 & rp10 & rp20 & wins & tmps
        & _ & _ & _ & _ & _ & _ & _ & _ & _ & _ & _ & _ & _ & _ & _ & Hmono).
  vm_compute in Hrun. injection Hrun as <-.
  repeat split; try reflexivity; apply (Hmono i p2 p10 p20); assumption.
Defined.

(** ** C9: thresholds are read by position *)

(** C9.  [probabilities_table] reads its thresholds by position: it returns
    only for a return period table with at least four rows, and then the
    20-year threshold is the first cell of the row at position 1, the 10-year
    threshold that of the row at position 2 and the 2-year threshold that of
    the row at position 3.  The column names play no part, so a table whose
    rows come in another order is not rejected: the thresholds are taken from
    whatever rows stand at these positions. *)
Theorem thresholds_read_by_position :
  forall dates ensembles rperiods,
    (forall ctx,
        probabilities_table dates ensembles rperiods = Ok ctx ->
        exists row0 row1 row2 row3 rest rp20 rp10 rp2 t1 t2 t3 start_datetime end_datetime,
          rows rperiods = row0 :: row1 :: row2 :: row3 :: rest
          /\ snd row1 = rp20 :: t1
          /\ snd row2 = rp10 :: t2
          /\ snd row3 = rp2 :: t3
          /\ fold_left (day_step ensembles rp2 rp10 rp20)
               (day_windows start_datetime end_datetime) (Ok empty_context) = Ok ctx)
    /\ ((len rperiods < 4)%nat ->
        forall ctx, probabilities_table dates ensembles rperiods <> Ok ctx)
    /\ (forall names,
        probabilities_table dates ensembles
          {| columns := names; rows := rows rperiods |}
        = probabilities_table dates ensembles rperiods).
Proof.
  intros dates ensembles rperiods.
  assert (Hread : forall ctx,
             probabilities_table dates ensembles rperiods = Ok ctx ->
             exists row0 row1 row2 row3 rest rp20 rp10 rp2 t1 t2 t3 start_datetime end_datetime,
               rows rperiods = row0 :: row1 :: row2 :: row3 :: rest
               /\ snd row1 = rp20 :: t1
               /\ snd row2 = rp10 :: t2
               /\ snd row3 = rp2 :: t3
               /\ fold_left (day_step ensembles rp2 rp10 rp20)
                    (day_windows start_datetime end_datetime) (Ok empty_context) = Ok ctx).
  { intros ctx Hrun.
    destruct (probabilities_table_ok _ _ _ _ Hrun)
      as (startdate & enddate & start_datetime & end_datetime & rp2 & rp10 & rp20
          & _ & _ & _ & _ & H2 & H10 & H20 & Hfold).
    unfold iloc_first in H2, H10, H20.
    destruct (rows rperiods) as [| row0 [| row1 [| row2 [| row3 rest]]]];
      cbn [nth_error] in H2, H10, H20; try discriminate.
    destruct (snd row1) as [| c20 t1] eqn:E1; [discriminate |].
    destruct (snd row2) as [| c10 t2] eqn:E2; [discriminate |].
    destruct (snd row3) as [| c2 t3] eqn:E3; [discriminate |].
    injection H2 as <-. injection H10 as <-. injection H20 as <-.
    exists row0, row1, row2, row3, rest, c20, c10, c2, t1, t2, t3,
      start_datetime, end_datetime.
    repeat split; try reflexivity; assumption. }
  split; [exact Hread |]. split.
  - intros Hlen ctx Hrun.
    destruct (Hread ctx Hrun) as (row0 & row1 & row2 & row3 & rest & ? & ? & ? & ? & ?
                                  & ? & ? & ? & Hrows & _).
    unfold len in Hlen. rewrite Hrows in Hlen. simpl in Hlen. lia.
  - intros names. reflexivity.
Qed.

(** With the rows listed from the 2-year threshold up, the call goes through
    and the tallies come out against the wrong thresholds. *)
Lemma thresholds_read_by_position_witness :
  (len {| columns := ["streamflow"%string]; rows := [] |} < 4)%nat
  /\ (forall ctx,
         probabilities_table sample_dates sample_ensembles
           {| columns := ["streamflow"%string]; rows := [] |} <> Ok ctx)
  /\ exists ctx ctx',
       probabilities_table sample_dates sample_ensembles sample_thresholds = Ok ctx
       /\ probabilities_table sample_dates sample_ensembles sample_thresholds_ascending
          = Ok ctx'
       /\ r20 ctx = [2; 0]%Z /\ r20 ctx' = [4; 2]%Z.
Proof.
  assert (Hlen : (len {| columns := ["streamflow"%string]; rows := [] |} < 4)%nat)
    by (unfold len; simpl; lia).
  split; [exact Hlen |]. split.
  - exact (proj1 (proj2 (thresholds_read_by_position sample_dates sample_ensembles
                           {| columns := ["streamflow"%string]; rows := [] |})) Hlen).
  - eexists. eexists. repeat split; vm_compute; reflexivity.
Defined.

(** * Further properties of the module *)

(** ** [reach_to_region] *)

Lemma lookup_thresholds_increase : thresholds_increase lookup.
Proof.
  unfold thresholds_increase, lookup.
  repeat (constructor; [| repeat (constructor; [simpl; lia |]); constructor]).
  constructor.
Qed.

Lemma first_below_some (reach_id : Z) (items : list (string * Z)) (region : string) :
  thresholds_increase items ->
  first_below reach_id items = Some region ->
  exists threshold,
    In (region, threshold) items
    /\ (reach_id < threshold)%Z
    /\ forall r t, In (r, t) items -> (t < threshold)%Z -> (t <= reach_id)%Z.
Proof.
  unfold thresholds_increase.
  induction 1 as [| [r0 t0] items Hs IH Hall]; simpl; intros H; [discriminate |].
  destruct (reach_id <? t0)%Z eqn:Hlt.
  - injection H as <-. apply Z.ltb_lt in Hlt.
    exists t0. split; [left; reflexivity |]. split; [exact Hlt |].
    intros r t [E | Hin] Ht.
    + injection E as _ <-. lia.
    + rewrite Forall_forall in Hall. specialize (Hall _ Hin). simpl in Hall. lia.
  - apply Z.ltb_ge in Hlt.
    destruct (IH H) as (threshold & Hin & Hid & Hmin).
    exists threshold. split; [right; exact Hin |]. split; [exact Hid |].
    intros r t [E | Hin'] Ht.
    + injection E as _ <-. exact Hlt.
    + eapply Hmin; eassumption.
Qed.

Lemma first_below_none (reach_id : Z) (items : list (string * Z)) :
  first_below reach_id items = None <->
  forall r t, In (r, t) items -> (t <= reach_id)%Z.
Proof.
  induction items as [| [r0 t0] items IH]; simpl.
  - split; [intros _ r t [] | reflexivity].
  - destruct (reach_id <? t0)%Z eqn:Hlt.
    + apply Z.ltb_lt in Hlt. split; [discriminate |].
      intros H. specialize (H r0 t0 (or_introl eq_refl)). lia.
    + apply Z.ltb_ge in Hlt. rewrite IH. split.
      * intros H r t [E | Hin]; [injection E as _ <-; exact Hlt | eapply H; exact Hin].
      * intros H r t Hin. apply (H r t). right. exact Hin.
Qed.

Lemma first_below_smallest (reach_id : Z) (items : list (string * Z))
  (region : string) (threshold : Z) :
  thresholds_increase items ->
  In (region, threshold) items ->
  (reach_id < threshold)%Z ->
  (forall r t, In (r, t) items -> (t < threshold)%Z -> (t <= reach_id)%Z) ->
  first_below reach_id items = Some region.
Proof.
  unfold thresholds_increase.
  induction 1 as [| [r0 t0] items Hs IH Hall]; simpl; intros Hin Hid Hmin; [destruct Hin |].
  destruct Hin as [E | Hin].
  - injection E as -> ->. apply Z.ltb_lt in Hid. rewrite Hid. reflexivity.
  - assert (Hlt : (t0 < threshold)%Z).
    { rewrite Forall_forall in Hall. exact (Hall _ Hin). }
    assert (Hge : (t0 <= reach_id)%Z) by (apply (Hmin r0 t0); [left; reflexivity | exact Hlt]).
    apply Z.ltb_ge in Hge. rewrite Hge.
    apply IH; [exact Hin | exact Hid |].
    intros r t Hin' Ht. apply (Hmin r t); [right; exact Hin' | exact Ht].
Qed.

(** X1.  For an integer id, [reach_to_region] names the region whose
    threshold is the smallest one above the id, and only that one: the id
    lies below that threshold and at or above every smaller threshold of the
    table. *)
Theorem reach_to_region_smallest_threshold :
  forall (reach_id : Z) (region : string),
    reach_to_region (PyInt reach_id) = Ok (Some region) <->
    exists threshold,
      In (region, threshold) lookup
      /\ (reach_id < threshold)%Z
      /\ forall r t, In (r, t) lookup -> (t < threshold)%Z -> (t <= reach_id)%Z.
Proof.
  intros reach_id region.
  unfold reach_to_region. cbn [bind]. split.
  - intros H. injection H as H.
    exact (first_below_some reach_id lookup region lookup_thresholds_increase H).
  - intros (threshold & Hin & Hid & Hmin). f_equal.
    exact (first_below_smallest reach_id lookup region threshold
             lookup_thresholds_increase Hin Hid Hmin).
Qed.

Lemma reach_to_region_smallest_threshold_witness :
  exists threshold,
    In ("south_america-geoglows"%string, threshold) lookup
    /\ (9000001 < threshold)%Z
    /\ forall r t, In (r, t) lookup -> (t < threshold)%Z -> (t <= 9000001)%Z.
Proof.
  exact (proj1 (reach_to_region_smallest_threshold 9000001 "south_america-geoglows")
           eq_refl).
Defined.

Lemma first_below_lookup_none (reach_id : Z) :
  (14000000 <= reach_id)%Z -> first_below reach_id lookup = None.
Proof.
  intros H. apply first_below_none.
  intros r t Hin. unfold lookup in Hin. simpl in Hin.
  repeat (destruct Hin as [E | Hin]; [injection E as _ <-; lia |]).
  destruct Hin.
Qed.

(** X2.  [reach_to_region] never fails on an integer, and it answers [None]
    exactly for the ids from 14,000,000 upwards; every id below 300,000,
    negative ones included, is given to the first region of the table. *)
Theorem reach_to_region_none_from_14_million :
  forall reach_id : Z,
    (exists answer, reach_to_region (PyInt reach_id) = Ok answer)
    /\ (reach_to_region (PyInt reach_id) = Ok None <-> (14000000 <= reach_id)%Z)
    /\ (reach_to_region (PyInt reach_id) = Ok (Some "australia-geoglows"%string)
        <-> (reach_id < 300000)%Z).
Proof.
  intros reach_id. unfold reach_to_region. cbn [bind].
  split; [eexists; reflexivity |]. split.
  - split.
    + intros H. injection H as H.
      apply (proj1 (first_below_none reach_id lookup) H "north_america-geoglows"%string).
      unfold lookup. simpl. tauto.
    + intros H. f_equal. apply first_below_lookup_none. exact H.
  - unfold lookup. cbn [first_below].
    destruct (reach_id <? 300000)%Z eqn:Hlt.
    + apply Z.ltb_lt in Hlt. split; [intros _; exact Hlt | reflexivity].
    + apply Z.ltb_ge in Hlt. split; [| lia].
      intros H. injection H as H. exfalso.
      repeat match type of H with
             | (if ?c then _ else _) = _ => destruct c; [discriminate H |]
             end.
      discriminate H.
Qed.

Lemma reach_to_region_none_from_14_million_witness :
  reach_to_region (PyInt 14000000) = Ok None
  /\ reach_to_region (PyInt (-5)) = Ok (Some "australia-geoglows"%string).
Proof.
  destruct (reach_to_region_none_from_14_million 14000000) as (_ & Hnone & _).
  destruct (reach_to_region_none_from_14_million (-5)) as (_ & _ & Hfirst).
  split; [apply Hnone | apply Hfirst]; lia.
Defined.

(** ** The endpoint wrappers *)

(** The request a wrapper sends. *)
Lemma make_request_with_format (server : Request -> Response)
  (endpoint method : string) (params : list (string * pyval)) (return_format : string) :
  (exists v, dict_lookup params "return_format" = Some v) ->
  fst (_make_request server endpoint method params return_format)
  = [ {| url := endpoint ++ method; params := params |} ].
Proof.
  intros (v & Hv). unfold _make_request. rewrite Hv.
  destruct (return_format =? "request")%string; reflexivity.
Qed.

(** X3.  Each of the seven data wrappers issues no request when the return
    format is ['url'] and exactly one otherwise, whatever the format is, to
    [endpoint + method] and with the return format among the parameters. *)
Theorem data_wrappers_request_once :
  forall (server : Request -> Response) (reach_id forcing region : pyval)
         (endpoint return_format : string),
    let sent (method : string) (args : list (string * pyval))
          (call : list Request * result fetched) : Prop :=
      if (return_format =? "url")%string then fst call = []
      else fst call
           = [ {| url := endpoint ++ method;
                  params := args ++ [("return_format"%string, PyStr return_format)] |} ] in
    sent "ForecastStats/"%string [("reach_id"%string, reach_id)]
      (forecast_stats server reach_id endpoint return_format)
    /\ sent "ForecastEnsembles/"%string [("reach_id"%string, reach_id)]
         (forecast_ensembles server reach_id endpoint return_format)
    /\ sent "ForecastWarnings/"%string [("region"%string, region)]
         (forecast_warnings server region endpoint return_format)
    /\ sent "ForecastRecords/"%string [("reach_id"%string, reach_id)]
         (forecast_records server reach_id endpoint return_format)
    /\ sent "HistoricSimulation/"%string
         [("reach_id"%string, reach_id); ("forcing"%string, forcing)]
         (historic_simulation server reach_id forcing endpoint return_format)
    /\ sent "SeasonalAverage/"%string
         [("reach_id"%string, reach_id); ("forcing"%string, forcing)]
         (seasonal_average server reach_id forcing endpoint return_format)
    /\ sent "ReturnPeriods/"%string
         [("reach_id"%string, reach_id); ("forcing"%string, forcing)]
         (return_periods server reach_id forcing endpoint return_format).
Proof.
  intros server reach_id forcing region endpoint return_format sent. subst sent.
  unfold forecast_stats, forecast_ensembles, forecast_warnings, forecast_records,
    historic_simulation, seasonal_average, return_periods, returned.
  destruct (return_format =? "url")%string; cbn [fst app];
    repeat split; try reflexivity;
    apply make_request_with_format; eexists; reflexivity.
Qed.

(** X4.  [available_data] and [available_regions] pass an empty parameter
    dictionary, so with the return format ['request'] they fail with
    [KeyError('return_format')] before any request is issued; with any other
    format except ['url'] they issue one request without parameters. *)
Theorem metadata_wrappers_request_format :
  forall (server : Request -> Response) (endpoint return_format : string),
    (available_data server endpoint "request" = ([], Raise (KeyError "return_format"))
     /\ available_regions server endpoint "request"
        = ([], Raise (KeyError "return_format")))
    /\ (return_format <> "url"%string -> return_format <> "request"%string ->
        fst (available_data server endpoint return_format)
        = [ {| url := endpoint ++ "AvailableData/"; params := [] |} ]
        /\ fst (available_regions server endpoint return_format)
           = [ {| url := endpoint ++ "AvailableRegions/"; params := [] |} ]).
Proof.
  intros server endpoint return_format. split; [split; reflexivity |].
  intros Hurl Hreq.
  apply String.eqb_neq in Hurl. apply String.eqb_neq in Hreq.
  unfold available_data, available_regions, returned, _make_request.
  rewrite Hurl, Hreq. split; reflexivity.
Qed.

Lemma metadata_wrappers_request_format_witness :
  fst (available_data (constant_server "{}") BYU_ENDPOINT "json")
  = [ {| url := (BYU_ENDPOINT ++ "AvailableData/")%string; params := [] |} ]
  /\ fst (available_regions (constant_server "{}") BYU_ENDPOINT "json")
     = [ {| url := (BYU_ENDPOINT ++ "AvailableRegions/")%string; params := [] |} ].
Proof.
  apply (proj2 (metadata_wrappers_request_format (constant_server "{}")
                  BYU_ENDPOINT "json")); discriminate.
Defined.

(** ** [available_dates] *)

(** X5.  Without a truthy region and a truthy reach id, [available_dates]
    raises [RuntimeError] for every return format, ['url'] included, and
    issues no request. *)
Theorem available_dates_needs_region_or_reach :
  forall (server : Request -> Response) (reach_id region : pyval)
         (endpoint return_format : string),
    truthy region = false -> truthy reach_id = false ->
    available_dates server reach_id region endpoint return_format
    = ([], RuntimeError "specify a region or a reach_id").
Proof.
  intros server reach_id region endpoint return_format Hr Hi.
  unfold available_dates. rewrite Hr, Hi. reflexivity.
Qed.

Lemma available_dates_needs_region_or_reach_witness :
  available_dates (constant_server "") PyNone (PyStr "") BYU_ENDPOINT "url"
  = ([], RuntimeError "specify a region or a reach_id").
Proof.
  exact (available_dates_needs_region_or_reach (constant_server "") PyNone (PyStr "")
           BYU_ENDPOINT "url" eq_refl eq_refl).
Defined.

(** X6.  A truthy region takes precedence in [available_dates]: the reach id
    is then never looked at, so the outcome is the same for every reach id,
    even one that [reach_to_region] could not convert; the request, if one is
    made, goes to ['AvailableData/'] with the region as its only parameter. *)
Theorem available_dates_region_first :
  forall (server : Request -> Response) (reach_id reach_id' region : pyval)
         (endpoint return_format : string),
    truthy region = true ->
    available_dates server reach_id region endpoint return_format
    = available_dates server reach_id' region endpoint return_format
    /\ (return_format <> "url"%string -> return_format <> "request"%string ->
        fst (available_dates server reach_id region endpoint return_format)
        = [ {| url := endpoint ++ "AvailableData/";
               params := [("region"%string, region)] |} ]).
Proof.
  intros server reach_id reach_id' region endpoint return_format Hr.
  unfold available_dates. rewrite Hr. split; [reflexivity |].
  intros Hurl Hreq.
  apply String.eqb_neq in Hurl. apply String.eqb_neq in Hreq.
  rewrite Hurl. unfold returned, _make_request. rewrite Hreq. reflexivity.
Qed.

Lemma available_dates_region_first_witness :
  available_dates (constant_server "{}") (PyStr "not a number")
    (PyStr "japan-geoglows") BYU_ENDPOINT "json"
  = available_dates (constant_server "{}") (PyInt 3000000)
      (PyStr "japan-geoglows") BYU_ENDPOINT "json".
Proof.
  exact (proj1 (available_dates_region_first (constant_server "{}")
                  (PyStr "not a number") (PyInt 3000000) (PyStr "japan-geoglows")
                  BYU_ENDPOINT "json" eq_refl)).
Defined.

(** X7.  With a reach id alone, [available_dates] asks for the region that
    [reach_to_region] gives the id; an id from 14,000,000 upwards belongs to
    no region and the request is made with the region [None] rather than
    refused. *)
Theorem available_dates_region_of_reach :
  forall (server : Request -> Response) (reach_id : Z) (region : pyval)
         (endpoint return_format : string),
    truthy region = false -> reach_id <> 0%Z ->
    return_format <> "url"%string -> return_format <> "request"%string ->
    fst (available_dates server (PyInt reach_id) region endpoint return_format)
    = [ {| url := endpoint ++ "AvailableData/";
           params := [("region"%string,
                       match first_below reach_id lookup with
                       | Some name => PyStr name
                       | None => PyNone
                       end)] |} ]
    /\ ((14000000 <= reach_id)%Z ->
        fst (available_dates server (PyInt reach_id) region endpoint return_format)
        = [ {| url := endpoint ++ "AvailableData/";
               params := [("region"%string, PyNone)] |} ]).
Proof.
  intros server reach_id region endpoint return_format Hr Hid Hurl Hreq.
  apply String.eqb_neq in Hurl. apply String.eqb_neq in Hreq.
  assert (Hmain :
            fst (available_dates server (PyInt reach_id) region endpoint return_format)
            = [ {| url := endpoint ++ "AvailableData/";
                   params := [("region"%string,
                               match first_below reach_id lookup with
                               | Some name => PyStr name
                               | None => PyNone
                               end)] |} ]).
  { unfold available_dates. rewrite Hr.
    assert (Ht : truthy (PyInt reach_id) = true)
      by (simpl; apply negb_true_iff, Z.eqb_neq; exact Hid).
    rewrite Ht. unfold reach_to_region. cbn [bind].
    destruct (first_below reach_id lookup);
      rewrite Hurl; unfold returned, _make_request; rewrite Hreq; reflexivity. }
  split; [exact Hmain |].
  intros Hbig. rewrite Hmain.
  rewrite (first_below_lookup_none reach_id Hbig). reflexivity.
Qed.

Lemma available_dates_region_of_reach_witness :
  fst (available_dates (constant_server "{}") (PyInt 14000001) PyNone BYU_ENDPOINT "json")
  = [ {| url := (BYU_ENDPOINT ++ "AvailableData/")%string;
         params := [("region"%string, PyNone)] |} ].
Proof.
  apply (proj2 (available_dates_region_of_reach (constant_server "{}") 14000001 PyNone
                  BYU_ENDPOINT "json" eq_refl ltac:(discriminate)
                  ltac:(discriminate) ltac:(discriminate))).
  lia.
Defined.

(** ** [latlon_to_region] *)

Lemma cell_gt_lt (p q : Q) : cell_gt (Num p) (Num q) = true <-> q < p.
Proof.
  simpl. rewrite negb_true_iff. split.
  - intros H. apply Qnot_le_lt. intros Hle.
    apply Qle_bool_iff in Hle. congruence.
  - intros H. destruct (Qle_bool p q) eqn:E; [| reflexivity].
    apply Qle_bool_iff in E. exfalso. exact (Qlt_not_le _ _ H E).
Qed.

Lemma strictly_between_iff (lo v hi : Q) :
  strictly_between (Num lo) (Num v) (Num hi) = true
  <-> (lo < v /\ v < hi) \/ (hi < v /\ v < lo).
Proof.
  unfold strictly_between.
  rewrite orb_true_iff, !andb_true_iff, !cell_gt_lt. reflexivity.
Qed.

Lemma strictly_between_numbers (lo v hi : cell) :
  strictly_between lo v hi = true -> exists a b, lo = Num a /\ hi = Num b.
Proof.
  unfold strictly_between.
  destruct lo as [| a], hi as [| b], v as [| w]; simpl;
    rewrite ?andb_false_r; try discriminate.
  intros _. exists a, b. split; reflexivity.
Qed.

Lemma within_box_inside (px py : Q) (minx miny maxx maxy : cell) (more : list cell) :
  within_box px py minx miny maxx maxy = true
  <-> strictly_inside px py (minx :: miny :: maxx :: maxy :: more).
Proof.
  unfold within_box, strictly_inside. rewrite andb_true_iff. split.
  - intros [Hx Hy].
    destruct (strictly_between_numbers _ _ _ Hx) as (a & c & -> & ->).
    destruct (strictly_between_numbers _ _ _ Hy) as (b & d & -> & ->).
    exists a, b, c, d, more. split; [reflexivity |].
    split; apply strictly_between_iff; assumption.
  - intros (a & b & c & d & more' & E & Hx & Hy).
    injection E as -> -> -> -> _.
    split; apply strictly_between_iff; assumption.
Qed.

(** X8.  [latlon_to_region] answers with the region of the first row of the
    bounding box table whose box has the point strictly inside (longitude
    against the first and third cell, latitude against the second and
    fourth); a point on an edge of a box is not inside it.  When every row
    has its four cells and no box holds the point, the call raises the
    [ValueError] about unsupported regions. *)
Theorem latlon_to_region_first_box :
  forall (bb_csv : DataFrame) (lat lon : Q),
    (forall region,
        latlon_to_region bb_csv lat lon = Ok region ->
        exists before cells after,
          rows bb_csv = before ++ (region, cells) :: after
          /\ strictly_inside lon lat cells
          /\ Forall (fun row => ~ strictly_inside lon lat (snd row)) before)
    /\ (Forall (fun row => (4 <= List.length (snd row))%nat
                           /\ ~ strictly_inside lon lat (snd row)) (rows bb_csv) ->
        latlon_to_region bb_csv lat lon
        = Raise (ValueError
                   "This point is not within any of the supported delineation regions.")).
Proof.
  intros bb_csv lat lon. unfold latlon_to_region.
  generalize (rows bb_csv). intros rs. split.
  - induction rs as [| [r cells] rs IH]; cbn [first_within]; intros region H;
      [discriminate H |].
    destruct cells as [| a [| b [| c [| d more]]]]; try discriminate H.
    destruct (within_box lon lat a b c d) eqn:Hw.
    + injection H as <-.
      exists [], (a :: b :: c :: d :: more), rs.
      split; [reflexivity |]. split; [| constructor].
      apply within_box_inside. exact Hw.
    + destruct (IH region H) as (before & cells & after & -> & Hin & Hnot).
      exists ((r, a :: b :: c :: d :: more) :: before), cells, after.
      split; [reflexivity |]. split; [exact Hin |].
      constructor; [| exact Hnot]. cbn [snd].
      intros Hc. apply within_box_inside in Hc. congruence.
  - induction 1 as [| [r cells] rs [Hlen Hnot] _ IH]; cbn [first_within];
      [reflexivity |].
    cbn [snd] in Hlen, Hnot.
    destruct cells as [| a [| b [| c [| d more]]]]; simpl in Hlen; try lia.
    destruct (within_box lon lat a b c d) eqn:Hw; [| exact IH].
    exfalso. apply Hnot. apply within_box_inside. exact Hw.
Qed.

Lemma latlon_to_region_first_box_witness :
  latlon_to_region
    {| columns := ["minx"; "miny"; "maxx"; "maxy"]%string;
       rows := [ (Text "japan-geoglows", [Num 128; Num 30; Num 146; Num 46]) ] |}
    30 128
  = Raise (ValueError
             "This point is not within any of the supported delineation regions.").
Proof.
  apply (proj2 (latlon_to_region_first_box
                  {| columns := ["minx"; "miny"; "maxx"; "maxy"]%string;
                     rows := [ (Text "japan-geoglows",
                                [Num 128; Num 30; Num 146; Num 46]) ] |} 30 128)).
  constructor; [| constructor]. split; [simpl; lia |].
  intros (a & b & c & d & more & E & Hx & Hy). simpl in E.
  injection E as <- <- <- <- _.
  destruct Hx as [[H _] | [_ H]]; revert H; unfold Qlt; simpl; lia.
Defined.

(** ** [probabilities_table]: shape and range of the result *)

Lemma windows_length (uniqueday : list Z) :
  List.length (windows uniqueday) = pred (List.length uniqueday).
Proof.
  induction uniqueday as [| a [| b rest] IH]; try reflexivity.
  cbn [windows List.length pred] in *. rewrite IH. reflexivity.
Qed.

Lemma day_windows_length (start_datetime end_datetime : Z) :
  List.length (day_windows start_datetime end_datetime)
  = Z.to_nat ((end_datetime - start_datetime) / day_ns + 1).
Proof.
  unfold day_windows. rewrite windows_length, length_map, length_seq. lia.
Qed.

(** X9.  The table has one entry per day of the span: when the first and the
    last date parse to [s] and [e], each of the four lists has
    [(e - s) // one day + 1] entries (none at all when that is not positive);
    the extra day that closes the last window gets no entry. *)
Theorem probabilities_table_one_entry_per_day :
  forall dates ensembles rperiods ctx startdate enddate s e,
    probabilities_table dates ensembles rperiods = Ok ctx ->
    first dates = Ok startdate -> last_item dates = Ok enddate ->
    strptime startdate = Ok s -> strptime enddate = Ok e ->
    List.length (days ctx) = Z.to_nat ((e - s) / day_ns + 1)
    /\ List.length (r2 ctx) = List.length (days ctx)
    /\ List.length (r10 ctx) = List.length (days ctx)
    /\ List.length (r20 ctx) = List.length (days ctx).
Proof.
  intros dates ensembles rperiods ctx startdate enddate s e Hrun Hf Hl Hs He.
  destruct (probabilities_table_ok _ _ _ _ Hrun)
    as (startdate' & enddate' & s' & e' & rp2 & rp10 & rp20
        & Hf' & Hl' & Hs' & He' & _ & _ & _ & Hfold).
  assert (startdate' = startdate) by congruence. subst startdate'.
  assert (enddate' = enddate) by congruence. subst enddate'.
  assert (s' = s) by congruence. subst s'.
  assert (e' = e) by congruence. subst e'.
  destruct (fold_day_step _ _ _ _ _ _ _ Hfold) as (tmps & Hm & Hd & Hr2 & Hr10 & Hr20).
  cbn [empty_context days r2 r10 r20 app] in Hd, Hr2, Hr10, Hr20.
  pose proof (mapM_length _ _ _ Hm) as Hlen.
  rewrite Hd, Hr2, Hr10, Hr20, !length_map, Hlen, day_windows_length.
  repeat split; reflexivity.
Qed.

Lemma probabilities_table_one_entry_per_day_witness :
  exists ctx,
    probabilities_table sample_dates sample_ensembles sample_thresholds = Ok ctx
    /\ List.length (days ctx) = 2%nat
    /\ List.length (r2 ctx) = List.length (days ctx).
Proof.
  destruct (probabilities_table sample_dates sample_ensembles sample_thresholds)
    as [ctx | err] eqn:Hrun; [| vm_compute in Hrun; discriminate Hrun].
  exists ctx. split; [reflexivity |].
  destruct (probabilities_table_one_entry_per_day sample_dates sample_ensembles
              sample_thresholds ctx "2020-01-01 00:00:00" "2020-01-02 06:00:00"
              1577836800000000000 1577944800000000000
              Hrun eq_refl eq_refl eq_refl eq_refl) as (Hd & H2 & _).
  split; [rewrite Hd; reflexivity | exact H2].
Defined.

Lemma loc_slice_columns (df tmp : DataFrame) (a b : Z) :
  loc_slice df a b = Ok tmp -> columns tmp = columns df.
Proof.
  unfold loc_slice. destruct (stamps_of (index df)) as [ts |]; [| discriminate].
  intros H. bind_inv H. injection H as <-. reflexivity.
Qed.

Lemma column_values_length (df : DataFrame) :
  List.length (column_values df) = List.length (columns df).
Proof. unfold column_values. rewrite length_map, length_seq. reflexivity. Qed.

(** A member is counted in one class at most. *)
Lemma classes_disjoint (rp2 rp10 rp20 : cell) (cols : list (list cell)) :
  (List.length (filter (above20 rp20) cols)
   + List.length (filter (above10_only rp10 rp20) cols)
   + List.length (filter (above2_only rp2 rp10 rp20) cols)
   <= List.length cols)%nat.
Proof.
  induction cols as [| column cols IH]; [simpl; lia |].
  cbn [filter]. unfold above20, above10_only, above2_only in *.
  destruct (exceeds rp20 column), (exceeds rp10 column), (exceeds rp2 column);
    cbn [negb andb List.length]; lia.
Qed.

Lemma members_bounded (rp2 rp10 rp20 : cell) (tmp : DataFrame) :
  (members (above20 rp20) tmp + members (above10_only rp10 rp20) tmp
   + members (above2_only rp2 rp10 rp20) tmp
   <= Z.of_nat (List.length (columns tmp)))%Z.
Proof.
  unfold members.
  pose proof (classes_disjoint rp2 rp10 rp20 (column_values tmp)) as H.
  rewrite column_values_length in H. lia.
Qed.

Lemma percent_range (n : Z) : (0 <= n <= 52)%Z -> (0 <= percent n <= 100)%Z.
Proof.
  intros Hn. split.
  - change 0%Z with (percent 0). apply percent_mono. lia.
  - change 100%Z with (percent 52). apply percent_mono. lia.
Qed.

(** X10.  With at most 52 ensemble columns every percentage of the table lies
    between 0 and 100. *)
Theorem probabilities_table_percent_range :
  forall dates ensembles rperiods ctx,
    probabilities_table dates ensembles rperiods = Ok ctx ->
    (List.length (columns ensembles) <= 52)%nat ->
    Forall (fun p => (0 <= p <= 100)%Z) (r2 ctx ++ r10 ctx ++ r20 ctx).
Proof.
  intros dates ensembles rperiods ctx Hrun Hcols.
  destruct (probabilities_table_ok _ _ _ _ Hrun)
    as (startdate & enddate & s & e & rp2 & rp10 & rp20
        & _ & _ & _ & _ & _ & _ & _ & Hfold).
  destruct (fold_day_step _ _ _ _ _ _ _ Hfold) as (tmps & Hm & _ & Hr2 & Hr10 & Hr20).
  cbn [empty_context r2 r10 r20 app] in Hr2, Hr10, Hr20.
  assert (Htmps : Forall (fun tmp => columns tmp = columns ensembles) tmps).
  { apply mapM_Forall2 in Hm. clear - Hm.
    induction Hm as [| w tmp ws tmps Hw _ IH]; constructor; [| exact IH].
    eapply loc_slice_columns. exact Hw. }
  rewrite Hr2, Hr10, Hr20.
  rewrite !Forall_app, !Forall_map.
  repeat split; (eapply Forall_impl; [| exact Htmps]); cbv beta;
    intros tmp Hc; apply percent_range;
    pose proof (members_bounded rp2 rp10 rp20 tmp) as Hb; rewrite Hc in Hb;
    pose proof (members_nonneg (above20 rp20) tmp);
    pose proof (members_nonneg (above10_only rp10 rp20) tmp);
    pose proof (members_nonneg (above2_only rp2 rp10 rp20) tmp); lia.
Qed.

Lemma probabilities_table_percent_range_witness :
  exists ctx,
    probabilities_table sample_dates sample_ensembles sample_thresholds = Ok ctx
    /\ Forall (fun p => (0 <= p <= 100)%Z) (r2 ctx ++ r10 ctx ++ r20 ctx).
Proof.
  destruct (probabilities_table sample_dates sample_ensembles sample_thresholds)
    as [ctx | err] eqn:Hrun; [| vm_compute in Hrun; discriminate Hrun].
  exists ctx. split; [reflexivity |].
  apply (probabilities_table_percent_range sample_dates sample_ensembles
           sample_thresholds ctx Hrun).
  simpl. lia.
Defined.

(** ** The chart builders: maxima, traces and bands *)

Lemma cell_gt_false_le (p q : Q) : cell_gt (Num p) (Num q) = false <-> p <= q.
Proof.
  simpl. rewrite negb_false_iff. apply Qle_bool_iff.
Qed.

(** Python's [max] on numbers only is a number that none of them exceeds. *)
Lemma max_from_upper (l : list cell) (q : Q) :
  Forall (fun c => isna c = false) l ->
  exists m,
    max_from (Num q) l = Num m /\ q <= m
    /\ Forall (fun c => cell_gt c (Num m) = false) l.
Proof.
  intros Hl. revert q.
  induction Hl as [| c l Hc _ IH]; intros q; cbn [max_from].
  - exists q. split; [reflexivity |]. split; [apply Qle_refl | constructor].
  - destruct c as [| p]; [discriminate Hc |].
    destruct (cell_gt (Num p) (Num q)) eqn:Hgt.
    + apply cell_gt_lt in Hgt.
      destruct (IH p) as (m & Hm & Hpm & Hall).
      exists m. split; [exact Hm |]. split; [lra |].
      constructor; [apply cell_gt_false_le; exact Hpm | exact Hall].
    + apply cell_gt_false_le in Hgt.
      destruct (IH q) as (m & Hm & Hqm & Hall).
      exists m. split; [exact Hm |]. split; [exact Hqm |].
      constructor; [apply cell_gt_false_le; lra | exact Hall].
Qed.

Lemma py_max_upper (l : list cell) (c : cell) :
  Forall (fun x => isna x = false) l ->
  py_max l = Ok c ->
  exists m, c = Num m /\ Forall (fun x => cell_gt x (Num m) = false) l.
Proof.
  intros Hl H. destruct l as [| a l]; [discriminate H |].
  cbn [py_max] in H. injection H as <-.
  inversion Hl as [| a' l' Ha Hl']; subst.
  destruct a as [| q]; [discriminate Ha |].
  destruct (max_from_upper l q Hl') as (m & Hm & Hqm & Hall).
  exists m. split; [exact Hm |].
  constructor; [apply cell_gt_false_le; exact Hqm | exact Hall].
Qed.

Lemma dropna_numbers (s : Series) :
  Forall (fun c => isna c = false) (tolist (dropna s)).
Proof.
  unfold tolist, dropna. apply Forall_map. apply Forall_forall.
  intros p Hp. apply filter_In in Hp. destruct Hp as [_ Hp].
  apply negb_true_iff in Hp. exact Hp.
Qed.

Lemma dict_get_set (d : dict) (k k' : key) (v : item) :
  dict_get (dict_set d k v) k'
  = if key_eqb k k' then Some v else dict_get d k'.
Proof.
  assert (Hsym : forall a b, key_eqb a b = key_eqb b a).
  { intros [s | z] [t | w]; simpl; try reflexivity;
      [apply String.eqb_sym | apply Z.eqb_sym]. }
  assert (Htrans : forall a b c, key_eqb a b = true -> key_eqb a c = key_eqb b c).
  { intros [s | z] [t | w] c; simpl; try discriminate.
    - intros H. apply String.eqb_eq in H. subst. reflexivity.
    - intros H. apply Z.eqb_eq in H. subst. reflexivity. }
  induction d as [| [k0 v0] d IH]; cbn [dict_set dict_get].
  - reflexivity.
  - destruct (key_eqb k0 k) eqn:E0; cbn [dict_get].
    + rewrite (Htrans k0 k k' E0). destruct (key_eqb k k'); reflexivity.
    + destruct (key_eqb k0 k') eqn:E1.
      * destruct (key_eqb k k') eqn:E2; [| reflexivity].
        rewrite (Htrans k0 k' k E1), Hsym, E2 in E0. discriminate E0.
      * exact IH.
Qed.

Lemma member_scatters_traces (plot_data : dict) (x_1_51 : item) (members : list Z)
  (traces : list Scatter) :
  member_scatters plot_data x_1_51 members = Ok traces ->
  Forall2 (fun i s =>
             name s = ("Ensemble " ++ str (PyInt i))%string
             /\ x s = x_1_51
             /\ dict_get plot_data (KInt i) = Some (y s)) members traces.
Proof.
  revert traces. induction members as [| i members IH]; cbn [member_scatters];
    intros traces H.
  - injection H as <-. constructor.
  - bind_inv H. injection H as <-.
    constructor; [| apply IH; assumption].
    cbn [name x y]. split; [reflexivity |]. split; [reflexivity |].
    unfold dict_item in E. destruct (dict_get plot_data (KInt i)); [| discriminate E].
    congruence.
Qed.

(** What [ensembles_plot] has computed when it returns a figure. *)
Lemma ensembles_plot_figure (ensembles : DataFrame) (rperiods : pyarg)
  (kwargs : list (string * pyval)) (out : output) (f : Figure) :
  ensembles_plot (Frame ensembles) rperiods kwargs = Ok out ->
  figure_of out = Some f ->
  exists start plot_data max_flows y_max high members,
    fold_left (ensembles_step ensembles) (columns ensembles) (Ok (start, []))
    = Ok (plot_data, max_flows)
    /\ (forall k, dict_get start (KInt k) = None)
    /\ py_max max_flows = Ok y_max
    /\ data f = high :: members
    /\ name high = "High Resolution"%string
    /\ dict_get plot_data (KInt 52) = Some (y high)
    /\ Forall2 (fun i s =>
                  name s = ("Ensemble " ++ str (PyInt i))%string
                  /\ dict_get plot_data (KInt i) = Some (y s))
         (map Z.of_nat (seq 1 51)) members
    /\ yaxis_range (layout f) = (Num 0, cell_scale (12 # 10) y_max).
Proof.
  intros Hrun Hfig. unfold ensembles_plot in Hrun.
  destruct (negb (outformat_ok _)); [discriminate Hrun |].
  bind_inv Hrun. destruct v6 as [plot_data max_flows].
  bind_inv Hrun.
  destruct (pyval_eqb _ (PyStr "json")).
  { injection Hrun as <-. discriminate Hfig. }
  bind_inv Hrun. injection Hrun as <-.
  apply emit_figure in Hfig. subst f.
  eexists. exists plot_data, max_flows, v6. eexists. exists v8.
  split; [exact E6 |]. split; [intros k; reflexivity |].
  split; [exact E7 |]. split; [reflexivity |]. split; [reflexivity |].
  split.
  { cbn [y]. unfold dict_item in E8. rewrite dict_get_set in E8. cbn [key_eqb] in E8.
    destruct (dict_get plot_data (KInt 52)); [congruence | discriminate E8]. }
  split; [| reflexivity].
  apply member_scatters_traces in E9.
  eapply Forall2_impl; [| exact E9].
  intros i s (Hn & _ & Hy). split; [exact Hn |].
  rewrite dict_get_set in Hy. exact Hy.
Qed.

(** X11.  A figure returned by [ensembles_plot] has exactly 52 traces: the
    high resolution member first, then the members 1 to 51 in order, each
    drawn from the entry of [plot_data] under its number, however many
    columns the table has. *)
Theorem ensembles_plot_traces :
  forall ensembles rperiods kwargs out f,
    ensembles_plot (Frame ensembles) rperiods kwargs = Ok out ->
    figure_of out = Some f ->
    map name (data f)
    = "High Resolution"%string
      :: map (fun i => ("Ensemble " ++ str (PyInt (Z.of_nat i)))%string) (seq 1 51)
    /\ List.length (data f) = 52%nat.
Proof.
  intros ensembles rperiods kwargs out f Hrun Hfig.
  destruct (ensembles_plot_figure _ _ _ _ _ Hrun Hfig)
    as (start & plot_data & max_flows & y_max & high & members
        & _ & _ & _ & Hdata & Hhigh & _ & Hmembers & _).
  assert (Hnames : map name members
                   = map (fun i => ("Ensemble " ++ str (PyInt (Z.of_nat i)))%string)
                       (seq 1 51)).
  { rewrite <- (map_map Z.of_nat (fun z => ("Ensemble " ++ str (PyInt z))%string)).
    clear - Hmembers.
    induction Hmembers as [| i s zs ss [Hn _] _ IH]; [reflexivity |].
    cbn [map]. rewrite Hn, IH. reflexivity. }
  split.
  - rewrite Hdata. cbn [map]. rewrite Hhigh, Hnames. reflexivity.
  - rewrite <- (length_map name), Hdata. cbn [map List.length].
    rewrite Hnames, length_map, length_seq. reflexivity.
Qed.

Lemma ensembles_plot_traces_witness :
  exists f,
    ensembles_plot (Frame full_ensembles) (Frame sample_rperiods) [] = Ok (Plotly f)
    /\ List.length (data f) = 52%nat.
Proof.
  destruct (ensembles_plot (Frame full_ensembles) (Frame sample_rperiods) [])
    as [[d | f | f |] | e] eqn:Hrun;
    try (vm_compute in Hrun; discriminate Hrun).
  exists f. split; [reflexivity |].
  exact (proj2 (ensembles_plot_traces full_ensembles (Frame sample_rperiods) []
                  (Plotly f) f Hrun eq_refl)).
Defined.

Lemma fold_ensembles_step_raise (ensembles : DataFrame) (cols : list string) (e : exn) :
  fold_left (ensembles_step ensembles) cols (Raise e) = Raise e.
Proof. induction cols as [| c cols IH]; simpl; [reflexivity | exact IH]. Qed.

Lemma below_some_more (maxima : list cell) (m c : cell) :
  below_some maxima c -> below_some (maxima ++ [m]) c.
Proof.
  intros (m' & Hin & Hle). exists m'. split; [| exact Hle].
  apply in_or_app. left. exact Hin.
Qed.

(** The loop of [ensembles_plot] keeps its invariant. *)
Lemma ensembles_loop_covered (ensembles : DataFrame) (cols : list string)
  (start plot_data : dict) (maxima max_flows : list cell) :
  fold_left (ensembles_step ensembles) cols (Ok (start, maxima))
  = Ok (plot_data, max_flows) ->
  members_covered start maxima ->
  members_covered plot_data max_flows.
Proof.
  revert start maxima.
  induction cols as [| c cols IH]; intros start maxima Hfold Hinv.
  - simpl in Hfold. injection Hfold as <- <-. exact Hinv.
  - cbn [fold_left] in Hfold.
    unfold ensembles_step at 2 in Hfold. cbn [bind] in Hfold.
    destruct (getitem ensembles c) as [s | e]; cbn [bind] in Hfold;
      [| rewrite fold_ensembles_step_raise in Hfold; discriminate Hfold].
    destruct (py_int (substring 9 2 c)) as [k | e]; cbn [bind] in Hfold;
      [| rewrite fold_ensembles_step_raise in Hfold; discriminate Hfold].
    destruct (py_max (tolist (dropna s))) as [m | e] eqn:Hmax; cbn [bind] in Hfold;
      [| rewrite fold_ensembles_step_raise in Hfold; discriminate Hfold].
    apply (IH _ _ Hfold).
    destruct (py_max_upper _ _ (dropna_numbers s) Hmax) as (q & -> & Hall).
    destruct Hinv as [Hnum Hcov]. split.
    + apply Forall_app. split; [exact Hnum | repeat constructor].
    + intros k' v Hget. rewrite dict_get_set in Hget.
      destruct (key_eqb (KInt k) (KInt k')).
      * injection Hget as <-. exists (tolist (dropna s)). split; [reflexivity |].
        eapply Forall_impl; [| exact Hall].
        intros x Hx. exists (Num q). split; [| exact Hx].
        apply in_or_app. right. left. reflexivity.
      * destruct (Hcov k' v Hget) as (flows & -> & Hflows).
        exists flows. split; [reflexivity |].
        eapply Forall_impl; [| exact Hflows].
        intros x. apply below_some_more.
Qed.

Lemma cell_gt_trans_false (c m y_max : cell) :
  isna m = false -> cell_gt c m = false -> cell_gt m y_max = false ->
  isna y_max = false -> cell_gt c y_max = false.
Proof.
  destruct c as [| p]; [reflexivity |].
  destruct m as [| q]; [discriminate |].
  destruct y_max as [| r]; [discriminate |].
  intros _ H1 H2 _.
  apply cell_gt_false_le in H1. apply cell_gt_false_le in H2.
  apply cell_gt_false_le. lra.
Qed.

Lemma Forall2_in_left {A B : Type} (R : A -> B -> Prop) (l : list A) (l' : list B) (a : A) :
  Forall2 R l l' -> In a l -> exists b, In b l' /\ R a b.
Proof.
  induction 1 as [| x y l l' Hxy _ IH]; intros Hin; [destruct Hin |].
  destruct Hin as [<- | Hin].
  - exists y. split; [left; reflexivity | exact Hxy].
  - destruct (IH Hin) as (b & Hb & Hab). exists b. split; [right; exact Hb | exact Hab].
Qed.

Lemma Forall2_in_right {A B : Type} (R : A -> B -> Prop) (l : list A) (l' : list B) (b : B) :
  Forall2 R l l' -> In b l' -> exists a, In a l /\ R a b.
Proof.
  induction 1 as [| x y l l' Hxy _ IH]; intros Hin; [destruct Hin |].
  destruct Hin as [<- | Hin].
  - exists x. split; [left; reflexivity | exact Hxy].
  - destruct (IH Hin) as (a & Ha & Hab). exists a. split; [right; exact Ha | exact Hab].
Qed.

(** The loop of [ensembles_plot] appends, for each column in turn, the
    maximum of its flows that are not missing. *)
Lemma ensembles_loop_maxima (ensembles : DataFrame) (cols : list string)
  (start plot_data : dict) (maxima max_flows : list cell) :
  fold_left (ensembles_step ensembles) cols (Ok (start, maxima))
  = Ok (plot_data, max_flows) ->
  exists ms,
    max_flows = maxima ++ ms
    /\ Forall2 (fun c m => exists s, getitem ensembles c = Ok s
                                     /\ py_max (tolist (dropna s)) = Ok m) cols ms.
Proof.
  revert start maxima.
  induction cols as [| c cols IH]; intros start maxima Hfold.
  - simpl in Hfold. injection Hfold as <- <-. exists [].
    rewrite app_nil_r. split; [reflexivity | constructor].
  - cbn [fold_left] in Hfold.
    unfold ensembles_step at 2 in Hfold. cbn [bind] in Hfold.
    destruct (getitem ensembles c) as [s | e] eqn:Hget; cbn [bind] in Hfold;
      [| rewrite fold_ensembles_step_raise in Hfold; discriminate Hfold].
    destruct (py_int (substring 9 2 c)) as [k | e]; cbn [bind] in Hfold;
      [| rewrite fold_ensembles_step_raise in Hfold; discriminate Hfold].
    destruct (py_max (tolist (dropna s))) as [m | e] eqn:Hmax; cbn [bind] in Hfold;
      [| rewrite fold_ensembles_step_raise in Hfold; discriminate Hfold].
    destruct (IH _ _ Hfold) as (ms & -> & Hms).
    exists (m :: ms). rewrite <- app_assoc. split; [reflexivity |].
    constructor; [| exact Hms].
    exists s. split; [exact Hget | exact Hmax].
Qed.

(** X12.  In a figure returned by [ensembles_plot] the vertical axis ends at
    1.2 times the maximum of the table: a number that is one of the flows of
    some column, that no flow of any column exceeds once the missing values
    are dropped, and that no plotted value exceeds. *)
Theorem ensembles_plot_axis_covers_traces :
  forall ensembles rperiods kwargs out f,
    ensembles_plot (Frame ensembles) rperiods kwargs = Ok out ->
    figure_of out = Some f ->
    exists y_max,
      yaxis_range (layout f) = (Num 0, Num ((12 # 10) * y_max))
      /\ (exists ensemble s,
            In ensemble (columns ensembles)
            /\ getitem ensembles ensemble = Ok s
            /\ In (Num y_max) (tolist (dropna s)))
      /\ (forall ensemble,
            In ensemble (columns ensembles) ->
            exists s,
              getitem ensembles ensemble = Ok s
              /\ Forall (fun c => exists q, c = Num q /\ q <= y_max) (tolist (dropna s)))
      /\ forall c, In c (all_plotted f) -> cell_gt c (Num y_max) = false.
Proof.
  intros ensembles rperiods kwargs out f Hrun Hfig.
  destruct (ensembles_plot_figure _ _ _ _ _ Hrun Hfig)
    as (start & plot_data & max_flows & y_max & high & members
        & Hfold & Hstart & Hmax & Hdata & _ & Hhigh & Hmembers & Hrange).
  assert (Hinv : members_covered plot_data max_flows).
  { apply (ensembles_loop_covered _ _ _ _ _ _ Hfold).
    split; [constructor |]. intros k v Hget. rewrite Hstart in Hget. discriminate Hget. }
  destruct Hinv as [Hnum Hcov].
  destruct (ensembles_loop_maxima _ _ _ _ _ _ Hfold) as (ms & Hms & Hcols).
  cbn [app] in Hms. subst ms.
  destruct (py_max_upper _ _ Hnum Hmax) as (M & -> & HM).
  exists M. split; [exact Hrange |].
  split.
  { destruct (Forall2_in_right _ _ _ _ Hcols (py_max_in _ _ Hmax))
      as (ensemble & Hin & s & Hget & Hs).
    exists ensemble, s. split; [exact Hin |]. split; [exact Hget |].
    apply py_max_in. exact Hs. }
  split.
  { intros ensemble Hin.
    destruct (Forall2_in_left _ _ _ _ Hcols Hin) as (m & Hm & s & Hget & Hs).
    exists s. split; [exact Hget |].
    destruct (py_max_upper _ _ (dropna_numbers s) Hs) as (q & -> & Hall).
    rewrite Forall_forall in HM. pose proof (HM _ Hm) as HqM.
    apply cell_gt_false_le in HqM.
    pose proof (dropna_numbers s) as Hnumbers.
    rewrite Forall_forall in Hall, Hnumbers |- *.
    intros c Hc. specialize (Hall c Hc). specialize (Hnumbers c Hc).
    destruct c as [| p]; [discriminate Hnumbers |].
    exists p. split; [reflexivity |].
    apply cell_gt_false_le in Hall. lra. }
  assert (Hitem : forall k v c,
             dict_get plot_data (KInt k) = Some v -> In c (flows_of v) ->
             cell_gt c (Num M) = false).
  { intros k v c Hget Hc.
    destruct (Hcov k v Hget) as (flows & -> & Hflows). cbn [flows_of] in Hc.
    rewrite Forall_forall in Hflows. destruct (Hflows c Hc) as (m & Hm & Hle).
    rewrite Forall_forall in Hnum, HM.
    apply (cell_gt_trans_false c m (Num M)); auto. }
  intros c Hc. unfold all_plotted in Hc. rewrite Hdata in Hc.
  cbn [flat_map] in Hc. apply in_app_or in Hc. destruct Hc as [Hc | Hc].
  - exact (Hitem 52%Z _ c Hhigh Hc).
  - apply in_flat_map in Hc. destruct Hc as (s & Hs & Hc).
    clear - Hmembers Hitem Hs Hc.
    induction Hmembers as [| i s' zs ss [_ Hy] _ IH]; [destruct Hs |].
    destruct Hs as [<- | Hs]; [exact (Hitem i _ c Hy Hc) | exact (IH Hs)].
Qed.

Lemma ensembles_plot_axis_covers_traces_witness :
  exists f y_max,
    ensembles_plot (Frame full_ensembles) (Frame sample_rperiods) [] = Ok (Plotly f)
    /\ yaxis_range (layout f) = (Num 0, Num ((12 # 10) * y_max))
    /\ (exists ensemble s,
          In ensemble (columns full_ensembles)
          /\ getitem full_ensembles ensemble = Ok s
          /\ In (Num y_max) (tolist (dropna s)))
    /\ (forall ensemble,
          In ensemble (columns full_ensembles) ->
          exists s,
            getitem full_ensembles ensemble = Ok s
            /\ Forall (fun c => exists q, c = Num q /\ q <= y_max) (tolist (dropna s)))
    /\ forall c, In c (all_plotted f) -> cell_gt c (Num y_max) = false.
Proof.
  destruct (ensembles_plot (Frame full_ensembles) (Frame sample_rperiods) [])
    as [[d | f | f |] | e] eqn:Hrun;
    try (vm_compute in Hrun; discriminate Hrun).
  destruct (ensembles_plot_axis_covers_traces full_ensembles (Frame sample_rperiods) []
              (Plotly f) f Hrun eq_refl) as (y_max & Hrange & Hattained & Hcolumns & Hall).
  exists f, y_max. split; [reflexivity |]. repeat split; assumption.
Defined.

(** X13.  In a figure of [hydroviewer_plot] over two timestamp indexed tables
    the three bands run from the earlier of the two first timestamps to the
    later of the two last timestamps, so they span the records and the
    forecast together. *)
Theorem hydroviewer_bands_span_both_tables :
  forall records stats rperiods kwargs out f r0 d0 r1 d1,
    hydroviewer_plot (Frame records) (Frame stats) rperiods kwargs = Ok out ->
    figure_of out = Some f ->
    first (index records) = Ok (Stamp r0) -> first (index stats) = Ok (Stamp d0) ->
    last_item (index records) = Ok (Stamp r1) -> last_item (index stats) = Ok (Stamp d1) ->
    List.length (shapes (layout f)) = 3%nat
    /\ Forall (fun b => x0 b = Stamp (Z.min r0 d0) /\ x1 b = Stamp (Z.max r1 d1))
         (shapes (layout f)).
Proof.
  intros records stats rperiods kwargs out f r0 d0 r1 d1 Hrun Hfig Hr0 Hd0 Hr1 Hd1.
  unfold hydroviewer_plot in Hrun.
  destruct (negb (outformat_ok _)); [discriminate Hrun |].
  cbn [arg_index bind] in Hrun.
  rewrite Hr0, Hd0 in Hrun. cbn [bind] in Hrun.
  unfold py_min2 at 1 in Hrun. cbn [label_lt bind] in Hrun.
  rewrite Hr1, Hd1 in Hrun. cbn [bind] in Hrun.
  unfold py_max2 at 1 in Hrun. cbn [label_lt bind] in Hrun.
  bind_inv Hrun.
  destruct (pyval_eqb _ (PyStr "json")).
  { injection Hrun as <-. discriminate Hfig. }
  injection Hrun as <-. apply emit_figure in Hfig. subst f.
  cbn [layout shapes]. unfold __rperiod_shapes. split; [reflexivity |].
  assert (Hmin : (if (d0 <? r0)%Z then Stamp d0 else Stamp r0) = Stamp (Z.min r0 d0)).
  { destruct (Z.ltb_spec d0 r0); f_equal; lia. }
  assert (Hmax : (if (r1 <? d1)%Z then Stamp d1 else Stamp r1) = Stamp (Z.max r1 d1)).
  { destruct (Z.ltb_spec r1 d1); f_equal; lia. }
  rewrite Hmin, Hmax.
  repeat constructor.
Qed.

Lemma hydroviewer_bands_span_both_tables_witness :
  exists f,
    hydroviewer_plot (Frame sample_records) (Frame sample_stats)
      (Frame sample_rperiods) [] = Ok (Plotly f)
    /\ Forall (fun b => x0 b = Stamp 0 /\ x1 b = Stamp day_ns) (shapes (layout f)).
Proof.
  destruct (hydroviewer_plot (Frame sample_records) (Frame sample_stats)
              (Frame sample_rperiods) []) as [[d | f | f |] | e] eqn:Hrun;
    try (vm_compute in Hrun; discriminate Hrun).
  exists f. split; [reflexivity |].
  exact (proj2 (hydroviewer_bands_span_both_tables sample_records sample_stats
                  (Frame sample_rperiods) [] (Plotly f) f 0 day_ns 0 day_ns
                  Hrun eq_refl eq_refl eq_refl eq_refl eq_refl)).
Defined.

(** X14.  On a table without rows the builders that draw bands fail with
    [IndexError] for every valid output format, ['json'] included, whatever
    the return periods are: the first and last index labels are read before
    anything else.  [flow_duration_curve_plot] fails the same way once the
    flow column exists. *)
Theorem empty_table_raises_index_error :
  forall (table : DataFrame) (stats : DataFrame) (rperiods : pyarg)
         (kwargs : list (string * pyval)),
    rows table = [] ->
    outformat_ok (kwargs_get kwargs "outformat" (PyStr "plotly")) = true ->
    hydroviewer_plot (Frame table) (Frame stats) rperiods kwargs = Raise IndexError
    /\ forecast_plot (Frame table) rperiods kwargs = Raise IndexError
    /\ record_plot (Frame table) rperiods kwargs = Raise IndexError
    /\ ensembles_plot (Frame table) rperiods kwargs = Raise IndexError
    /\ historical_plot (Frame table) rperiods kwargs = Raise IndexError
    /\ (In "streamflow (m^3/s)"%string (columns table) ->
        flow_duration_curve_plot (Frame table) kwargs = Raise IndexError).
Proof.
  intros table stats rperiods kwargs Hrows Hok.
  assert (Hidx : index table = []) by (unfold index; rewrite Hrows; reflexivity).
  unfold hydroviewer_plot, forecast_plot, record_plot, ensembles_plot,
    historical_plot, flow_duration_curve_plot.
  rewrite Hok, Hidx. cbn [negb arg_index first bind].
  repeat split.
  intros Hcol.
  assert (Hpos : exists j, position "streamflow (m^3/s)" (columns table) = Some j).
  { clear - Hcol. induction (columns table) as [| n names IH]; [destruct Hcol |].
    cbn [position]. destruct (n =? "streamflow (m^3/s)")%string eqn:E.
    - exists 0%nat. reflexivity.
    - destruct Hcol as [-> | Hin]; [rewrite String.eqb_refl in E; discriminate E |].
      destruct (IH Hin) as (j & ->). exists (S j). reflexivity. }
  destruct Hpos as (j & Hpos).
  unfold sort_values_desc, getitem. rewrite Hpos. cbn [bind columns rows].
  rewrite Hpos, Hrows. reflexivity.
Qed.

Lemma empty_table_raises_index_error_witness :
  forecast_plot (Frame {| columns := ["max (m^3/s)"%string]; rows := [] |})
    (Frame sample_rperiods) [("outformat"%string, PyStr "json")] = Raise IndexError.
Proof.
  exact (proj1 (proj2 (empty_table_raises_index_error
                         {| columns := ["max (m^3/s)"%string]; rows := [] |}
                         sample_stats (Frame sample_rperiods)
                         [("outformat"%string, PyStr "json")] eq_refl eq_refl))).
Defined.

(** X15.  [seasonal_plot] reads no index label first: on a table without
    rows that has its three columns it returns the dictionary with empty
    lists for ['json'], and for the other two formats it fails with the
    [ValueError] of [max] on an empty sequence, raised while the layout is
    built. *)
Theorem seasonal_plot_on_empty_table :
  forall (names : list string) (kwargs : list (string * pyval)),
    In "streamflow (m^3/s)"%string names -> In "max_flow"%string names ->
    In "min_flow"%string names ->
    let seasonal := Frame {| columns := names; rows := [] |} in
    let outformat := kwargs_get kwargs "outformat" (PyStr "plotly") in
    (outformat = PyStr "json" ->
     seasonal_plot seasonal kwargs
     = Ok (Json [ (KStr "reach_id", IVal (kwargs_get kwargs "reach_id" PyNone));
                  (KStr "drain_area", IVal (kwargs_get kwargs "drain_area" PyNone));
                  (KStr "day_number", ILabels []);
                  (KStr "average_flow", IFlows []);
                  (KStr "max_flow", IFlows []);
                  (KStr "min_flow", IFlows []) ]))
    /\ (outformat = PyStr "plotly" \/ outformat = PyStr "plotly_html" ->
        seasonal_plot seasonal kwargs
        = Raise (ValueError "max() arg is an empty sequence")).
Proof.
  intros names kwargs H1 H2 H3 seasonal outformat. subst seasonal outformat.
  assert (Hpos : forall n, In n names -> exists j, position n names = Some j).
  { intros n. clear. induction names as [| m names IH]; intros Hin; [destruct Hin |].
    cbn [position]. destruct (m =? n)%string eqn:E.
    - exists 0%nat. reflexivity.
    - destruct Hin as [-> | Hin]; [rewrite String.eqb_refl in E; discriminate E |].
      destruct (IH Hin) as (j & ->). exists (S j). reflexivity. }
  destruct (Hpos _ H1) as (j1 & P1). destruct (Hpos _ H2) as (j2 & P2).
  destruct (Hpos _ H3) as (j3 & P3).
  unfold seasonal_plot, getitem. cbn [columns]. rewrite P1, P2, P3.
  cbn [bind]. unfold column_at, index. cbn [rows map tolist].
  split.
  - intros ->. reflexivity.
  - intros [-> | ->]; reflexivity.
Qed.

Lemma seasonal_plot_on_empty_table_witness :
  seasonal_plot
    (Frame {| columns := ["streamflow (m^3/s)"; "max_flow"; "min_flow"]%string;
              rows := [] |}) []
  = Raise (ValueError "max() arg is an empty sequence").
Proof.
  apply (proj2 (seasonal_plot_on_empty_table
                  ["streamflow (m^3/s)"; "max_flow"; "min_flow"]%string []
                  (or_introl eq_refl) (or_intror (or_introl eq_refl))
                  (or_intror (or_intror (or_introl eq_refl))))).
  left. reflexivity.
Defined.

Lemma max_from_nan (l : list cell) : max_from NaN l = NaN.
Proof.
  induction l as [| c l IH]; cbn [max_from]; [reflexivity |].
  destruct c; exact IH.
Qed.

(** What [historical_plot] has computed when it returns a figure. *)
Lemma historical_plot_figure (hist : DataFrame) (rperiods : pyarg)
  (kwargs : list (string * pyval)) (out : output) (f : Figure) :
  historical_plot (Frame hist) rperiods kwargs = Ok out ->
  figure_of out = Some f ->
  exists flow y_max,
    getitem hist "streamflow (m^3/s)" = Ok flow
    /\ py_max (tolist flow) = Ok y_max
    /\ all_plotted f = tolist flow
    /\ yaxis_range (layout f) = (Num 0, cell_scale (12 # 10) y_max)
    /\ (exists b1 b2 b3, shapes (layout f) = [b1; b2; b3]
                         /\ y1 b3 = Scalar (cell_scale (12 # 10) y_max)).
Proof.
  intros Hrun Hfig. unfold historical_plot in Hrun.
  destruct (negb (outformat_ok _)); [discriminate Hrun |].
  bind_inv Hrun.
  destruct (pyval_eqb _ (PyStr "json")).
  { injection Hrun as <-. discriminate Hfig. }
  injection Hrun as <-. apply emit_figure in Hfig. subst f.
  assert (v2 = v1) by congruence. subst v2.
  exists v1, v3. split; [assumption |]. split; [assumption |].
  split; [unfold all_plotted; cbn [data flat_map y flows_of]; apply app_nil_r |].
  split; [reflexivity |].
  cbn [layout shapes]. unfold __rperiod_shapes.
  do 3 eexists. split; reflexivity.
Qed.

(** X16.  When the first flow of the table is missing, [historical_plot]
    takes the missing value for the maximum, whatever the other flows are:
    the axis of the figure ends at [NaN] and so does the top band. *)
Theorem historical_plot_missing_first_flow :
  forall hist rperiods kwargs out f stamp rest,
    historical_plot (Frame hist) rperiods kwargs = Ok out ->
    figure_of out = Some f ->
    getitem hist "streamflow (m^3/s)" = Ok ((stamp, NaN) :: rest) ->
    yaxis_range (layout f) = (Num 0, NaN)
    /\ exists b1 b2 b3, shapes (layout f) = [b1; b2; b3] /\ y1 b3 = Scalar NaN.
Proof.
  intros hist rperiods kwargs out f stamp rest Hrun Hfig Hcol.
  destruct (historical_plot_figure _ _ _ _ _ Hrun Hfig)
    as (flow & y_max & Hflow & Hmax & _ & Hrange & b1 & b2 & b3 & Hshapes & Htop).
  assert (flow = (stamp, NaN) :: rest) by congruence. subst flow.
  cbn [tolist map snd py_max] in Hmax. rewrite max_from_nan in Hmax.
  injection Hmax as <-.
  split; [exact Hrange |]. exists b1, b2, b3. split; assumption.
Qed.

Lemma historical_plot_missing_first_flow_witness :
  exists f,
    historical_plot
      (Frame {| columns := ["streamflow (m^3/s)"%string];
                rows := [(Stamp 0, [NaN]); (Stamp day_ns, [Num 7])] |})
      (Frame sample_rperiods) [] = Ok (Plotly f)
    /\ yaxis_range (layout f) = (Num 0, NaN).
Proof.
  destruct (historical_plot
              (Frame {| columns := ["streamflow (m^3/s)"%string];
                        rows := [(Stamp 0, [NaN]); (Stamp day_ns, [Num 7])] |})
              (Frame sample_rperiods) []) as [[d | f | f |] | e] eqn:Hrun;
    try (vm_compute in Hrun; discriminate Hrun).
  exists f. split; [reflexivity |].
  exact (proj1 (historical_plot_missing_first_flow _ (Frame sample_rperiods) []
                  (Plotly f) f (Stamp 0) [(Stamp day_ns, Num 7)]
                  Hrun eq_refl eq_refl)).
Defined.

(** X17.  When no flow of the table is missing, the axis of a figure of
    [historical_plot] ends at 1.2 times the maximum of the plotted series:
    a plotted flow that no plotted flow exceeds. *)
Theorem historical_plot_axis_is_maximum :
  forall hist rperiods kwargs out f flow,
    historical_plot (Frame hist) rperiods kwargs = Ok out ->
    figure_of out = Some f ->
    getitem hist "streamflow (m^3/s)" = Ok flow ->
    Forall (fun c => isna c = false) (tolist flow) ->
    exists y_max,
      plotted_maximum f (Num y_max)
      /\ yaxis_range (layout f) = (Num 0, Num ((12 # 10) * y_max)).
Proof.
  intros hist rperiods kwargs out f flow Hrun Hfig Hcol Hnum.
  destruct (historical_plot_figure _ _ _ _ _ Hrun Hfig)
    as (flow' & y_max & Hflow & Hmax & Hplot & Hrange & _).
  assert (flow' = flow) by congruence. subst flow'.
  destruct (py_max_upper _ _ Hnum Hmax) as (m & -> & Hall).
  exists m. split; [| exact Hrange].
  unfold plotted_maximum. rewrite Hplot. split.
  - apply py_max_in. exact Hmax.
  - apply Forall_forall. exact Hall.
Qed.

Lemma historical_plot_axis_is_maximum_witness :
  exists f y_max,
    historical_plot (Frame sample_hist) (Frame sample_rperiods) [] = Ok (Plotly f)
    /\ plotted_maximum f (Num y_max)
    /\ yaxis_range (layout f) = (Num 0, Num ((12 # 10) * y_max)).
Proof.
  destruct (historical_plot (Frame sample_hist) (Frame sample_rperiods) [])
    as [[d | f | f |] | e] eqn:Hrun;
    try (vm_compute in Hrun; discriminate Hrun).
  destruct (historical_plot_axis_is_maximum sample_hist (Frame sample_rperiods) []
              (Plotly f) f
              [(Stamp 0, Num 1); (Stamp day_ns, Num 3); (Stamp (2 * day_ns), Num 2)]
              Hrun eq_refl eq_refl) as (y_max & Hmax & Hrange).
  - repeat constructor.
  - exists f, y_max. split; [reflexivity |]. split; assumption.
Defined.

(** X18.  In a figure of [record_plot] the time axis of the trace keeps every
    row of the table while the missing flows are dropped from its values: the
    values fall short of the timestamps by the number of missing flows, and
    the two have the same length only when no flow is missing. *)
Theorem record_plot_axes_lengths :
  forall records rperiods kwargs out f,
    record_plot (Frame records) rperiods kwargs = Ok out ->
    figure_of out = Some f ->
    exists flow xs ys,
      getitem records "streamflow (m^3/s)" = Ok flow
      /\ data f = [ {| name := "1st day forecasted flows";
                       x := ILabels xs; y := IFlows ys |} ]
      /\ List.length xs = len records
      /\ (List.length ys + List.length (filter isna (tolist flow)))%nat = len records.
Proof.
  intros records rperiods kwargs out f Hrun Hfig.
  unfold record_plot in Hrun.
  destruct (negb (outformat_ok _)); [discriminate Hrun |].
  bind_inv Hrun.
  destruct (pyval_eqb _ (PyStr "json")).
  { injection Hrun as <-. discriminate Hfig. }
  injection Hrun as <-. apply emit_figure in Hfig. subst f.
  exists v1. do 2 eexists. split; [eassumption |]. split; [reflexivity |].
  split; [apply index_length |].
  assert (Hlen : List.length (tolist v1) = len records).
  { unfold getitem in E1. destruct (position _ (columns records)); [| discriminate E1].
    injection E1 as <-. unfold tolist, column_at, len. rewrite !length_map. reflexivity. }
  rewrite <- Hlen. unfold tolist, dropna.
  rewrite !length_map.
  rewrite <- (filter_length (fun p : label * cell => isna (snd p)) v1).
  rewrite Nat.add_comm. f_equal.
  clear. induction v1 as [| p s IH]; [reflexivity |].
  cbn [map filter]. destruct (isna (snd p)); cbn [List.length]; rewrite IH; reflexivity.
Qed.

Lemma record_plot_axes_lengths_witness :
  exists f flow xs ys,
    record_plot
      (Frame {| columns := ["streamflow (m^3/s)"%string];
                rows := [(Stamp 0, [Num 4]); (Stamp day_ns, [NaN])] |})
      (Frame sample_rperiods) [] = Ok (Plotly f)
    /\ data f = [ {| name := "1st day forecasted flows";
                     x := ILabels xs; y := IFlows ys |} ]
    /\ List.length xs = 2%nat
    /\ (List.length ys + List.length (filter isna (tolist flow)))%nat = 2%nat.
Proof.
  destruct (record_plot
              (Frame {| columns := ["streamflow (m^3/s)"%string];
                        rows := [(Stamp 0, [Num 4]); (Stamp day_ns, [NaN])] |})
              (Frame sample_rperiods) []) as [[d | f | f |] | e] eqn:Hrun;
    try (vm_compute in Hrun; discriminate Hrun).
  destruct (record_plot_axes_lengths _ (Frame sample_rperiods) [] (Plotly f) f
              Hrun eq_refl) as (flow & xs & ys & _ & Hdata & Hx & Hy).
  exists f, flow, xs, ys. split; [reflexivity |].
  split; [exact Hdata |]. split; [exact Hx | exact Hy].
Defined.

(** ** The flow duration curve: range and maximum *)

(** What [flow_duration_curve_plot] has computed when it returns. *)
Lemma flow_duration_curve_parts (hist : DataFrame) (kwargs : list (string * pyval))
  (out : output) :
  flow_duration_curve_plot (Frame hist) kwargs = Ok out ->
  exists s flows y_max,
    getitem hist "streamflow (m^3/s)" = Ok s
    /\ Permutation flows (tolist s)
    /\ Sorted flow_ge flows
    /\ first flows = Ok y_max
    /\ curve_of out = Some (exceedance flows, flows)
    /\ forall f, figure_of out = Some f ->
                 all_plotted f = flows
                 /\ yaxis_range (layout f) = (Num 0, cell_scale (12 # 10) y_max).
Proof.
  intros Hrun. unfold flow_duration_curve_plot in Hrun.
  destruct (outformat_ok _) eqn:Hok; [| discriminate Hrun].
  cbn [negb] in Hrun. bind_inv Hrun.
  destruct (sorted_column hist v "streamflow (m^3/s)" v0 E E0) as (s & Hs & Hperm & Hsorted).
  assert (Hlen : len hist = List.length (tolist v0)).
  { unfold len. rewrite (Permutation_length Hperm).
    unfold getitem in Hs.
    destruct (position _ (columns hist)); [| discriminate Hs].
    injection Hs as <-. unfold tolist, column_at. rewrite !length_map. reflexivity. }
  rewrite Hlen in Hrun.
  exists s, (tolist v0), v1.
  split; [exact Hs |]. split; [exact Hperm |]. split; [exact Hsorted |].
  split; [exact E1 |].
  destruct (pyval_eqb _ (PyStr "json")) eqn:Hjson.
  - injection Hrun as <-. split; [reflexivity | discriminate].
  - injection Hrun as <-.
    match goal with
    | |- context [emit ?o ?fig] =>
        destruct (outformat_emitted o fig Hok Hjson) as [-> | ->]
    end;
      (split; [reflexivity |]; intros f Hf; injection Hf as <-;
       split; [unfold all_plotted; cbn [data flat_map y flows_of]; apply app_nil_r
              | reflexivity]).
Qed.

Lemma count_if_nonneg (p : cell -> bool) (l : list cell) : (0 <= count_if p l)%Z.
Proof. unfold count_if. lia. Qed.

Lemma count_if_in (p : cell -> bool) (l : list cell) (c : cell) :
  In c l -> p c = true -> (1 <= count_if p l)%Z.
Proof.
  intros Hin Hp. unfold count_if.
  assert (Hf : In c (filter p l)) by (apply filter_In; split; assumption).
  destruct (filter p l); [destruct Hf | simpl; lia].
Qed.

(** Below, equal and missing are three classes without a common member. *)
Lemma rank_classes (q : Q) (l : list cell) :
  (count_if (is_lt q) l + count_if (is_eq q) l + count_if isna l
   <= Z.of_nat (List.length l))%Z.
Proof.
  unfold count_if.
  induction l as [| c l IH]; [simpl; lia |].
  cbn [filter]. destruct c as [| p]; cbn [is_lt is_eq isna].
  - cbn [List.length]. lia.
  - destruct (Qle_bool q p) eqn:Hle; cbn [negb].
    + destruct (Qeq_bool p q); cbn [List.length]; lia.
    + destruct (Qeq_bool p q) eqn:Heq; cbn [List.length]; try lia.
      apply Qeq_bool_iff in Heq.
      assert (Hqp : q <= p) by (rewrite Heq; apply Qle_refl).
      apply Qle_bool_iff in Hqp. congruence.
Qed.

Lemma numbers_and_missing (l : list cell) :
  (count_if (fun c => negb (isna c)) l + count_if isna l = Z.of_nat (List.length l))%Z.
Proof.
  unfold count_if. rewrite <- (filter_length isna l). lia.
Qed.

(** Every rank lies between 1 and the number of observations. *)
Lemma rank_from_bounds (a l : list cell) (seen : Z) :
  incl l a -> (0 <= seen)%Z ->
  (seen + count_if isna l <= count_if isna a)%Z ->
  Forall (fun r => 1 <= r /\ r <= inject_Z (Z.of_nat (List.length a)))
    (rank_from seen a l).
Proof.
  revert seen. induction l as [| c l IH]; intros seen Hincl Hseen Hnan;
    cbn [rank_from]; [constructor |].
  assert (Hincl' : incl l a) by (intros x Hx; apply Hincl; right; exact Hx).
  destruct c as [| q].
  - assert (Hc : (count_if isna (NaN :: l) = 1 + count_if isna l)%Z)
      by (unfold count_if; cbn [filter isna List.length]; lia).
    rewrite Hc in Hnan.
    constructor; [| apply IH; [exact Hincl' | lia | lia]].
    pose proof (numbers_and_missing a) as Hsum.
    pose proof (count_if_nonneg (fun c => negb (isna c)) a) as Hnum.
    pose proof (count_if_nonneg isna l) as Hrest.
    split.
    + change 1 with (inject_Z 1). rewrite <- Zle_Qle. lia.
    + rewrite <- Zle_Qle. lia.
  - assert (Hc : count_if isna (Num q :: l) = count_if isna l) by reflexivity.
    rewrite Hc in Hnan.
    constructor; [| apply IH; [exact Hincl' | exact Hseen | exact Hnan]].
    pose proof (rank_classes q a) as Hcls.
    pose proof (count_if_nonneg (is_lt q) a) as Hlt.
    pose proof (count_if_nonneg isna a) as Hna.
    assert (Heq : (1 <= count_if (is_eq q) a)%Z).
    { apply (count_if_in (is_eq q) a (Num q)); [apply Hincl; left; reflexivity |].
      cbn [is_eq]. apply Qeq_bool_iff. reflexivity. }
    assert (Hq1 : inject_Z 0 <= inject_Z (count_if (is_lt q) a))
      by (rewrite <- Zle_Qle; exact Hlt).
    assert (Hq2 : inject_Z 1 <= inject_Z (count_if (is_eq q) a))
      by (rewrite <- Zle_Qle; exact Heq).
    assert (Hq3 : inject_Z (count_if (is_lt q) a) + inject_Z (count_if (is_eq q) a)
                  <= inject_Z (Z.of_nat (List.length a)))
      by (rewrite <- inject_Z_plus, <- Zle_Qle; lia).
    change (inject_Z 0) with 0 in Hq1. change (inject_Z 1) with 1 in Hq2.
    unfold Qdiv. change (/ 2) with (1 # 2).
    split; lra.
Qed.

Lemma rank_from_length (seen : Z) (a l : list cell) :
  List.length (rank_from seen a l) = List.length l.
Proof.
  revert seen. induction l as [| c l IH]; intros seen; [reflexivity |].
  destruct c; cbn [rank_from List.length]; rewrite IH; reflexivity.
Qed.

Lemma rankdata_bounds (a : list cell) :
  Forall (fun r => 1 <= r /\ r <= inject_Z (Z.of_nat (List.length a))) (rankdata a).
Proof.
  unfold rankdata. apply rank_from_bounds.
  - apply incl_refl.
  - lia.
  - lia.
Qed.

(** X19.  Every probability of a flow duration curve lies in the interval
    from 0 up to, but not including, 1. *)
Theorem flow_duration_probabilities_in_unit_interval :
  forall hist kwargs out probs flows,
    flow_duration_curve_plot (Frame hist) kwargs = Ok out ->
    curve_of out = Some (probs, flows) ->
    List.length probs = List.length flows
    /\ Forall (fun p => 0 <= p /\ p < 1) probs.
Proof.
  intros hist kwargs out probs flows Hrun Hcurve.
  destruct (flow_duration_curve_parts _ _ _ Hrun)
    as (s & flows' & y_max & _ & _ & _ & _ & Hc & _).
  rewrite Hc in Hcurve. injection Hcurve as <- <-.
  unfold exceedance. split.
  - rewrite !length_map. unfold rankdata. apply rank_from_length.
  - rewrite !Forall_map.
    eapply Forall_impl; [| apply rankdata_bounds].
    cbv beta. intros r [Hr1 HrN].
    set (n := Z.of_nat (List.length flows')) in *.
    assert (Hn : 0 < inject_Z (n + 1)).
    { change 0 with (inject_Z 0). rewrite <- Zlt_Qlt. unfold n. lia. }
    assert (Hn1 : inject_Z (n + 1) = inject_Z n + 1) by apply inject_Z_plus.
    split.
    + apply Qle_shift_div_l; [exact Hn |]. lra.
    + apply Qlt_shift_div_r; [exact Hn |]. rewrite Hn1. lra.
Qed.

Lemma flow_duration_probabilities_in_unit_interval_witness :
  exists out probs flows,
    flow_duration_curve_plot (Frame sample_hist) [] = Ok out
    /\ curve_of out = Some (probs, flows)
    /\ Forall (fun p => 0 <= p /\ p < 1) probs.
Proof.
  destruct (flow_duration_curve_plot (Frame sample_hist) []) as [out | e] eqn:Hrun;
    [| vm_compute in Hrun; discriminate Hrun].
  destruct (curve_of out) as [[probs flows] |] eqn:Hcurve.
  - exists out, probs, flows. split; [reflexivity |]. split; [exact Hcurve |].
    exact (proj2 (flow_duration_probabilities_in_unit_interval sample_hist [] out
                    probs flows Hrun Hcurve)).
  - exfalso. vm_compute in Hrun. injection Hrun as <-. discriminate Hcurve.
Defined.

Lemma flow_before_trans (a b c : cell) :
  flow_before a b = true -> flow_before b c = true -> flow_before a c = true.
Proof.
  destruct a as [| p], b as [| q], c as [| r]; simpl; try reflexivity; try discriminate.
  rewrite !Qle_bool_iff. intros H1 H2. lra.
Qed.

Lemma sorted_flows_strongly (flows : list cell) :
  Sorted flow_ge flows -> StronglySorted flow_ge flows.
Proof.
  apply Sorted_StronglySorted.
  intros a b c. unfold flow_ge. apply flow_before_trans.
Qed.

Lemma flow_ge_not_exceeded (a c : cell) : flow_ge a c -> cell_gt c a = false.
Proof.
  unfold flow_ge. destruct a as [| p], c as [| q]; simpl; try reflexivity; try discriminate.
  intros H. rewrite H. reflexivity.
Qed.

(** X20.  In a figure of [flow_duration_curve_plot] the axis ends at 1.2
    times the maximum of the plotted flows: the first flow of the sorted
    curve, which no flow of the curve exceeds. *)
Theorem flow_duration_axis_is_maximum :
  forall hist kwargs out f,
    flow_duration_curve_plot (Frame hist) kwargs = Ok out ->
    figure_of out = Some f ->
    exists y_max,
      plotted_maximum f y_max
      /\ yaxis_range (layout f) = (Num 0, cell_scale (12 # 10) y_max).
Proof.
  intros hist kwargs out f Hrun Hfig.
  destruct (flow_duration_curve_parts _ _ _ Hrun)
    as (s & flows & y_max & _ & _ & Hsorted & Hfirst & _ & Hf).
  destruct (Hf f Hfig) as (Hplot & Hrange).
  exists y_max. split; [| exact Hrange].
  destruct flows as [| c flows]; [discriminate Hfirst |].
  cbn [first] in Hfirst. injection Hfirst as ->.
  unfold plotted_maximum. rewrite Hplot. split; [left; reflexivity |].
  apply sorted_flows_strongly in Hsorted.
  apply StronglySorted_inv in Hsorted. destruct Hsorted as [_ Hall].
  rewrite Forall_forall in Hall.
  intros c [<- | Hc].
  - destruct y_max as [| q]; [reflexivity |].
    apply cell_gt_false_le. apply Qle_refl.
  - apply flow_ge_not_exceeded. apply Hall. exact Hc.
Qed.

Lemma flow_duration_axis_is_maximum_witness :
  exists f y_max,
    flow_duration_curve_plot (Frame sample_hist) [] = Ok (Plotly f)
    /\ plotted_maximum f y_max
    /\ yaxis_range (layout f) = (Num 0, cell_scale (12 # 10) y_max).
Proof.
  destruct (flow_duration_curve_plot (Frame sample_hist) [])
    as [[d | f | f |] | e] eqn:Hrun;
    try (vm_compute in Hrun; discriminate Hrun).
  destruct (flow_duration_axis_is_maximum sample_hist [] (Plotly f) f Hrun eq_refl)
    as (y_max & Hmax & Hrange).
  exists f, y_max. split; [reflexivity |]. split; assumption.
Defined.

(** ** The flow duration curve: monotonicity *)

Lemma rank_from_numbers (seen : Z) (a l : list cell) :
  Forall (fun c => isna c = false) l ->
  rank_from seen a l = map (rank_of a) l.
Proof.
  induction 1 as [| c l Hc _ IH]; [reflexivity |].
  destruct c as [| q]; [discriminate Hc |].
  cbn [rank_from map rank_of]. rewrite IH. reflexivity.
Qed.

Lemma count_if_ext (p p' : cell -> bool) (l : list cell) :
  (forall c, p c = p' c) -> count_if p l = count_if p' l.
Proof.
  intros H. unfold count_if. rewrite (filter_ext p p' H). reflexivity.
Qed.

Lemma Qle_bool_eq (p p' q : Q) : p == p' -> Qle_bool p q = Qle_bool p' q.
Proof.
  intros H. destruct (Qle_bool p q) eqn:E1, (Qle_bool p' q) eqn:E2; try reflexivity.
  - apply Qle_bool_iff in E1. rewrite H in E1. apply Qle_bool_iff in E1. congruence.
  - apply Qle_bool_iff in E2. rewrite <- H in E2. apply Qle_bool_iff in E2. congruence.
Qed.

Lemma Qeq_bool_eq (p p' q : Q) : p == p' -> Qeq_bool q p = Qeq_bool q p'.
Proof.
  intros H. destruct (Qeq_bool q p) eqn:E1, (Qeq_bool q p') eqn:E2; try reflexivity.
  - apply Qeq_bool_iff in E1. rewrite H in E1. apply Qeq_bool_iff in E1. congruence.
  - apply Qeq_bool_iff in E2. rewrite <- H in E2. apply Qeq_bool_iff in E2. congruence.
Qed.

Lemma Qle_bool_false (a b : Q) : Qle_bool a b = false -> b < a.
Proof.
  intros H. apply Qnot_le_lt. intros Hle. apply Qle_bool_iff in Hle. congruence.
Qed.

(** Whatever is below or equal to [q] is below a larger [p]. *)
Lemma below_larger (p q : Q) (l : list cell) :
  q < p ->
  (count_if (is_lt q) l + count_if (is_eq q) l <= count_if (is_lt p) l)%Z.
Proof.
  intros Hqp. unfold count_if.
  induction l as [| c l IH]; [simpl; lia |].
  cbn [filter]. destruct c as [| x]; cbn [is_lt is_eq]; [exact IH |].
  destruct (Qle_bool q x) eqn:Hq, (Qle_bool p x) eqn:Hp, (Qeq_bool x q) eqn:He;
    cbn [negb List.length]; try lia; exfalso;
    repeat match goal with
           | H : Qle_bool _ _ = true |- _ => apply Qle_bool_iff in H
           | H : Qle_bool _ _ = false |- _ => apply Qle_bool_false in H
           | H : Qeq_bool _ _ = true |- _ => apply Qeq_bool_iff in H
           end;
    lra.
Qed.

(** A larger observation has a rank at least as large. *)
Lemma rank_of_mono (a : list cell) (p q : Q) :
  In (Num q) a -> q <= p -> rank_of a (Num q) <= rank_of a (Num p).
Proof.
  intros Hin Hqp. cbn [rank_of].
  apply Qle_lt_or_eq in Hqp. destruct Hqp as [Hlt | Heq].
  - pose proof (below_larger p q a Hlt) as Hb.
    assert (Hq : (1 <= count_if (is_eq q) a)%Z).
    { apply (count_if_in (is_eq q) a (Num q) Hin). cbn [is_eq].
      apply Qeq_bool_iff. reflexivity. }
    pose proof (count_if_nonneg (is_eq p) a) as Hp.
    assert (H1 : inject_Z (count_if (is_lt q) a) + inject_Z (count_if (is_eq q) a)
                 <= inject_Z (count_if (is_lt p) a))
      by (rewrite <- inject_Z_plus, <- Zle_Qle; exact Hb).
    assert (H2 : 1 <= inject_Z (count_if (is_eq q) a))
      by (change 1 with (inject_Z 1); rewrite <- Zle_Qle; exact Hq).
    assert (H3 : 0 <= inject_Z (count_if (is_eq p) a))
      by (change 0 with (inject_Z 0); rewrite <- Zle_Qle; exact Hp).
    unfold Qdiv. change (/ 2) with (1 # 2). lra.
  - rewrite (count_if_ext (is_lt q) (is_lt p)), (count_if_ext (is_eq q) (is_eq p)).
    + apply Qle_refl.
    + intros [| x]; cbn [is_eq]; [reflexivity | apply Qeq_bool_eq; exact Heq].
    + intros [| x]; cbn [is_lt]; [reflexivity |].
      f_equal. apply Qle_bool_eq. exact Heq.
Qed.

Lemma StronglySorted_map_in {A B : Type} (R : A -> A -> Prop) (R' : B -> B -> Prop)
  (f : A -> B) (l : list A) :
  (forall a b, In a l -> In b l -> R a b -> R' (f a) (f b)) ->
  StronglySorted R l -> StronglySorted R' (map f l).
Proof.
  intros Himp Hs. induction Hs as [| a l Hs IH Hall]; cbn [map]; constructor.
  - apply IH. intros x z Hx Hz. apply Himp; right; assumption.
  - apply Forall_map. rewrite Forall_forall in Hall |- *.
    intros b Hb. apply Himp; [left; reflexivity | right; exact Hb | apply Hall; exact Hb].
Qed.

(** X21.  When no flow of the table is missing, the probabilities of the
    flow duration curve never decrease along the curve, while its flows never
    increase. *)
Theorem flow_duration_curve_monotone :
  forall hist kwargs out s probs flows,
    flow_duration_curve_plot (Frame hist) kwargs = Ok out ->
    getitem hist "streamflow (m^3/s)" = Ok s ->
    Forall (fun c => isna c = false) (tolist s) ->
    curve_of out = Some (probs, flows) ->
    StronglySorted Qle probs /\ StronglySorted flow_ge flows.
Proof.
  intros hist kwargs out s probs flows Hrun Hcol Hnum Hcurve.
  destruct (flow_duration_curve_parts _ _ _ Hrun)
    as (s' & flows' & y_max & Hs & Hperm & Hsorted & _ & Hc & _).
  rewrite Hc in Hcurve. injection Hcurve as <- <-.
  assert (s' = s) by congruence. subst s'.
  assert (Hnum' : Forall (fun c => isna c = false) flows').
  { eapply Permutation_Forall; [apply Permutation_sym; exact Hperm | exact Hnum]. }
  pose proof (sorted_flows_strongly _ Hsorted) as Hstrong.
  split; [| exact Hstrong].
  unfold exceedance, rankdata. rewrite (rank_from_numbers 0 flows' flows' Hnum').
  rewrite !map_map.
  apply (StronglySorted_map_in flow_ge); [| exact Hstrong].
  intros a b Ha Hb Hab.
  rewrite Forall_forall in Hnum'.
  pose proof (Hnum' a Ha) as Hna. pose proof (Hnum' b Hb) as Hnb.
  destruct a as [| p]; [discriminate Hna |]. destruct b as [| q]; [discriminate Hnb |].
  unfold flow_ge in Hab. cbn [flow_before] in Hab. apply Qle_bool_iff in Hab.
  pose proof (rank_of_mono flows' p q Hb Hab) as Hrank.
  set (n := Z.of_nat (List.length flows')) in *.
  assert (Hn : 0 < inject_Z (n + 1)).
  { change 0 with (inject_Z 0). rewrite <- Zlt_Qlt. unfold n. lia. }
  unfold Qdiv. apply Qmult_le_compat_r; [lra |].
  apply Qlt_le_weak. apply Qinv_lt_0_compat. exact Hn.
Qed.

Lemma flow_duration_curve_monotone_witness :
  exists out probs flows,
    flow_duration_curve_plot (Frame sample_hist) [] = Ok out
    /\ curve_of out = Some (probs, flows)
    /\ StronglySorted Qle probs.
Proof.
  destruct (flow_duration_curve_plot (Frame sample_hist) []) as [out | e] eqn:Hrun;
    [| vm_compute in Hrun; discriminate Hrun].
  destruct (curve_of out) as [[probs flows] |] eqn:Hcurve.
  - exists out, probs, flows. split; [reflexivity |]. split; [exact Hcurve |].
    refine (proj1 (flow_duration_curve_monotone sample_hist [] out
                     [(Stamp 0, Num 1); (Stamp day_ns, Num 3); (Stamp (2 * day_ns), Num 2)]
                     probs flows Hrun eq_refl _ Hcurve)).
    repeat constructor.
  - exfalso. vm_compute in Hrun. injection Hrun as <-. discriminate Hcurve.
Defined.
